(** * The synchronisation core of the collaborative text editor

    A shallow embedding of [src/services/SyncService.js] and of
    [src/services/PollingBackend.js], and the properties of the step log,
    the version counter, the error classification and the fetch cadence
    that the specification states about them.

    JavaScript objects become records, [this] becomes an explicit state,
    every [Date.now()] is an argument of the method that reads the clock,
    and every answer of the remote session endpoint is an argument of the
    continuation that receives it.  What a method does to the outside world
    (events on the bus, log lines, notices, timers, requests) is collected
    in order, next to the state it leaves behind.

    Left out are the methods that only forward to the connection
    ([updateSession], [uploadAttachment], [insertAttachmentFile]), the
    serialisation callbacks of the editor, and the handlers that code
    outside of the two classes subscribes to the bus: such a subscriber
    sees every emission, which is recorded, and is taken not to call back
    into the service while it is notified. *)

From Stdlib Require Import ZArith QArith List String Bool Lia DecimalString.
Import ListNotations.
Close Scope Q_scope.
Open Scope string_scope.
Open Scope list_scope.
Open Scope Z_scope.

Set Implicit Arguments.

(** ** Values exchanged with the remote session endpoint *)

(** Steps are opaque to this code; the transport carries them as strings. *)
Definition Step := string.
Definition SessionId := string.

(** [this.version]: [null] after construction, a number once opened. *)
Definition Version := option Z.

(** ToNumber on a version: [null] counts as 0 in a comparison. *)
Definition toNumber (v : Version) : Z :=
  match v with
  | None => 0
  | Some n => n
  end.

(** An integer inside a template string: its decimal digits. *)
Definition numberToString (n : Z) : string :=
  NilZero.string_of_int (Z.to_int n).

(** [v < n] as JavaScript evaluates it for a version and a number. *)
Definition version_lt (v : Version) (n : Z) : bool := toNumber v <? n.

(** [Array.prototype.slice(start)] *)
Definition slice (A : Type) (l : list A) (start : Z) : list A :=
  let len := Z.of_nat (List.length l) in
  let k := if start <? 0 then Z.max (len + start) 0 else Z.min start len in
  skipn (Z.to_nat k) l.

Record Document := {
  doc_id : Z;
  lastSavedVersion : Z;
  lastSavedVersionTime : Z;
  currentVersion : Z
}.

Record ConnectionState := {
  documentSource : string;
  documentState : string
}.

Record Session := { lastContact : Z }.

(** The [data] of one entry of [steps]: an array of steps, or anything else. *)
Inductive StepData :=
| DataArray (l : list Step)
| DataOther.

Record Bucket := {
  bucket_data : StepData;
  bucket_version : Z;
  bucket_sessionId : SessionId
}.

(** The [data] of a sync response. *)
Record SyncData := {
  data_document : Document;
  data_sessions : list Session;
  data_steps : list Bucket
}.

(** The [data] of a failed response: what the handlers look at. *)
Record ResponseData := {
  resp_document : option Document;
  outsideChange : option string
}.

Record Response := {
  status : Z;
  resp_data : ResponseData
}.

(** A rejected request: [response] is missing when the server was not reached. *)
Record RequestError := {
  err_response : option Response;
  err_code : option string
}.

(** Modelled from the spec: the [Connection] class of
    [src/services/SessionApi.js], of which the services read the remote
    metadata snapshot ([document], [state], [isPublic]; [lastSavedVersion]
    is the snapshot's) and call [push], [sync] and [close]. *)
Record Connection := {
  conn_document : Document;
  conn_state : ConnectionState;
  isPublic : bool
}.

Definition conn_lastSavedVersion (c : Connection) : Z :=
  lastSavedVersion (conn_document c).

(** [this.connection]: [null] after construction, [undefined] when the
    session could not be opened. *)
Inductive ConnectionRef :=
| ConnNull
| ConnUndefined
| ConnObject (c : Connection).

(** ** Constants *)

Module SyncServiceConst.
Definition IDLE_TIMEOUT : Z := 1440.
End SyncServiceConst.

Inductive ERROR_TYPE :=
| SAVE_COLLISSION
| PUSH_FAILURE
| LOAD_ERROR
| CONNECTION_FAILED
| SOURCE_NOT_FOUND.

Definition ERROR_TYPE_value (t : ERROR_TYPE) : Z :=
  match t with
  | SAVE_COLLISSION => 0
  | PUSH_FAILURE => 1
  | LOAD_ERROR => 2
  | CONNECTION_FAILED => 3
  | SOURCE_NOT_FOUND => 4
  end.

Definition ERROR_TYPE_eqb (a b : ERROR_TYPE) : bool :=
  ERROR_TYPE_value a =? ERROR_TYPE_value b.

Definition FETCH_INTERVAL : Z := 300.
Definition FETCH_INTERVAL_MAX : Z := 5000.
Definition FETCH_INTERVAL_SINGLE_EDITOR : Z := 5000.
Definition FETCH_INTERVAL_INVISIBLE : Z := 60000.
Definition AUTOSAVE_INTERVAL : Z := 30000.
Definition MAX_RETRY_FETCH_COUNT : Z := 5.
(** [FETCH_INTERVAL_INVISIBLE * 1.5] *)
Definition COLLABORATOR_DISCONNECT_TIME : Z := FETCH_INTERVAL_INVISIBLE * 3 / 2.

(** ** What the services do to the outside world *)

Inductive ErrorData :=
| NoData
| RetryFalse
| OfResponse (r : Response)
| OutsideChange (c : option string).

Inductive BusEvent :=
| EvOpened (s : ConnectionState) (v : Version)
| EvLoaded (s : ConnectionState) (v : Version)
| EvChange (d : Document) (ss : list Session)
| EvSave (d : Document) (ss : list Session)
| EvSync (newSteps : list (Step * SessionId)) (d : Document) (v : Version)
| EvStateChangeDirty (dirty : bool)
| EvStateChangeInitialLoading (loading : bool)
| EvError (type : ERROR_TYPE) (data : ErrorData)
| EvIdle.

(** What a sync request carries. *)
Record SyncRequest := {
  req_version : Version;
  req_saveData : bool;
  req_force : bool;
  req_manualSave : bool
}.

Inductive Effect :=
| Emit (e : BusEvent)
| LogError (msg : string)
| LogDebug (msg : string)
| ConsoleError (msg : string)
| ShowTemporary (msg : string)
| RetrySendStepsIn (ms : Z)
| CloseTimeoutIn (call : nat) (ms : Z)
| SetInterval (ms : Z)
| ClearInterval (id : Z)
| AddVisibilityListener
| RemoveVisibilityListener
| PushRequest (payload : list Step)
| SyncRequested (r : SyncRequest)
| CloseRequest.

Inductive Exn :=
| TypeError (msg : string)
| Rejection (e : RequestError).

(** ** State *)

Record PollingBackend := {
  backend_connection : Connection;
  lastPoll : Z;
  lastSave : Z;
  fetchInterval : Z;
  fetchRetryCounter : Z;
  pollActive : bool;
  forcedSave : bool;
  manualSave : bool;
  initialLoadingFinished : bool;
  fetcher : Z
}.

Inductive PromiseState := Pending | Resolved | Rejected.

(** One call of [close]: its local [closed] and the promise it returned. *)
Record CloseCall := {
  closed : bool;
  promise : PromiseState
}.

Record SyncService := {
  connection : ConnectionRef;
  sessions : list Session;
  steps : list Step;
  stepClientIDs : list SessionId;
  lastStepPush : Z;
  version : Version;
  sending : bool;
  backend : option PollingBackend;
  (* _bus: how many times [open] subscribed to change *)
  changeHandlers : nat;
  (* _bus: the calls of [close] that subscribed to save, in order *)
  saveHandlers : list nat;
  closeCalls : list CloseCall
}.

(** ** The monad of a method: state, emitted effects, and exceptions *)

Inductive Outcome (A : Type) :=
| Return (a : A)
| Throw (e : Exn).
Arguments Throw {A} e.

Definition M (A : Type) : Type :=
  SyncService -> Outcome A * SyncService * list Effect.

Definition ret {A} (a : A) : M A := fun s => (Return a, s, []).

Definition bind {A B} (m : M A) (k : A -> M B) : M B :=
  fun s =>
    match m s with
    | (Return a, s1, t1) =>
        match k a s1 with
        | (r, s2, t2) => (r, s2, t1 ++ t2)
        end
    | (Throw e, s1, t1) => (Throw e, s1, t1)
    end.

Declare Scope js_scope.
Delimit Scope js_scope with js.
Notation "x <- c1 ;; c2" := (bind c1 (fun x => c2))
  (at level 100, c1 at next level, right associativity) : js_scope.
Notation "c1 ;; c2" := (bind c1 (fun _ => c2))
  (at level 100, right associativity) : js_scope.
Open Scope js_scope.

Definition get : M SyncService := fun s => (Return s, s, []).
Definition modify (f : SyncService -> SyncService) : M unit :=
  fun s => (Return tt, f s, []).
Definition tell (e : Effect) : M unit := fun s => (Return tt, s, [e]).
Definition throw {A} (e : Exn) : M A := fun s => (Throw e, s, []).

(** [try { m } catch (e) { h e }] *)
Definition try_catch {A} (m : M A) (h : Exn -> M A) : M A :=
  fun s =>
    match m s with
    | (Return a, s1, t1) => (Return a, s1, t1)
    | (Throw e, s1, t1) =>
        match h e s1 with
        | (r, s2, t2) => (r, s2, t1 ++ t2)
        end
    end.

(** [try { m } finally { f }], for an [f] that does not throw. *)
Definition try_finally {A} (m : M A) (f : M unit) : M A :=
  fun s =>
    match m s with
    | (r, s1, t1) =>
        match f s1 with
        | (_, s2, t2) => (r, s2, t1 ++ t2)
        end
    end.

Definition when (b : bool) (m : M unit) : M unit := if b then m else ret tt.

(** The three components of a run. *)
Definition outcome {A} (r : Outcome A * SyncService * list Effect) : Outcome A :=
  fst (fst r).
Definition state_of {A} (r : Outcome A * SyncService * list Effect) : SyncService :=
  snd (fst r).
Definition effects {A} (r : Outcome A * SyncService * list Effect) : list Effect :=
  snd r.

(** ** Field updates *)

Definition set_lastPoll (x : Z) (b : PollingBackend) : PollingBackend :=
  {| backend_connection := backend_connection b; lastPoll := x;
     lastSave := lastSave b; fetchInterval := fetchInterval b;
     fetchRetryCounter := fetchRetryCounter b; pollActive := pollActive b;
     forcedSave := forcedSave b; manualSave := manualSave b;
     initialLoadingFinished := initialLoadingFinished b; fetcher := fetcher b |}.

Definition set_lastSave (x : Z) (b : PollingBackend) : PollingBackend :=
  {| backend_connection := backend_connection b; lastPoll := lastPoll b;
     lastSave := x; fetchInterval := fetchInterval b;
     fetchRetryCounter := fetchRetryCounter b; pollActive := pollActive b;
     forcedSave := forcedSave b; manualSave := manualSave b;
     initialLoadingFinished := initialLoadingFinished b; fetcher := fetcher b |}.

Definition set_fetchInterval (x : Z) (b : PollingBackend) : PollingBackend :=
  {| backend_connection := backend_connection b; lastPoll := lastPoll b;
     lastSave := lastSave b; fetchInterval := x;
     fetchRetryCounter := fetchRetryCounter b; pollActive := pollActive b;
     forcedSave := forcedSave b; manualSave := manualSave b;
     initialLoadingFinished := initialLoadingFinished b; fetcher := fetcher b |}.

Definition set_fetchRetryCounter (x : Z) (b : PollingBackend) : PollingBackend :=
  {| backend_connection := backend_connection b; lastPoll := lastPoll b;
     lastSave := lastSave b; fetchInterval := fetchInterval b;
     fetchRetryCounter := x; pollActive := pollActive b;
     forcedSave := forcedSave b; manualSave := manualSave b;
     initialLoadingFinished := initialLoadingFinished b; fetcher := fetcher b |}.

Definition set_pollActive (x : bool) (b : PollingBackend) : PollingBackend :=
  {| backend_connection := backend_connection b; lastPoll := lastPoll b;
     lastSave := lastSave b; fetchInterval := fetchInterval b;
     fetchRetryCounter := fetchRetryCounter b; pollActive := x;
     forcedSave := forcedSave b; manualSave := manualSave b;
     initialLoadingFinished := initialLoadingFinished b; fetcher := fetcher b |}.

Definition set_forcedSave (x : bool) (b : PollingBackend) : PollingBackend :=
  {| backend_connection := backend_connection b; lastPoll := lastPoll b;
     lastSave := lastSave b; fetchInterval := fetchInterval b;
     fetchRetryCounter := fetchRetryCounter b; pollActive := pollActive b;
     forcedSave := x; manualSave := manualSave b;
     initialLoadingFinished := initialLoadingFinished b; fetcher := fetcher b |}.

Definition set_manualSave (x : bool) (b : PollingBackend) : PollingBackend :=
  {| backend_connection := backend_connection b; lastPoll := lastPoll b;
     lastSave := lastSave b; fetchInterval := fetchInterval b;
     fetchRetryCounter := fetchRetryCounter b; pollActive := pollActive b;
     forcedSave := forcedSave b; manualSave := x;
     initialLoadingFinished := initialLoadingFinished b; fetcher := fetcher b |}.

Definition set_initialLoadingFinished (x : bool) (b : PollingBackend) : PollingBackend :=
  {| backend_connection := backend_connection b; lastPoll := lastPoll b;
     lastSave := lastSave b; fetchInterval := fetchInterval b;
     fetchRetryCounter := fetchRetryCounter b; pollActive := pollActive b;
     forcedSave := forcedSave b; manualSave := manualSave b;
     initialLoadingFinished := x; fetcher := fetcher b |}.

Definition set_fetcher (x : Z) (b : PollingBackend) : PollingBackend :=
  {| backend_connection := backend_connection b; lastPoll := lastPoll b;
     lastSave := lastSave b; fetchInterval := fetchInterval b;
     fetchRetryCounter := fetchRetryCounter b; pollActive := pollActive b;
     forcedSave := forcedSave b; manualSave := manualSave b;
     initialLoadingFinished := initialLoadingFinished b; fetcher := x |}.

Definition set_connection (x : ConnectionRef) (s : SyncService) : SyncService :=
  {| connection := x; sessions := sessions s; steps := steps s;
     stepClientIDs := stepClientIDs s; lastStepPush := lastStepPush s;
     version := version s; sending := sending s; backend := backend s;
     changeHandlers := changeHandlers s; saveHandlers := saveHandlers s;
     closeCalls := closeCalls s |}.

Definition set_sessions (x : list Session) (s : SyncService) : SyncService :=
  {| connection := connection s; sessions := x; steps := steps s;
     stepClientIDs := stepClientIDs s; lastStepPush := lastStepPush s;
     version := version s; sending := sending s; backend := backend s;
     changeHandlers := changeHandlers s; saveHandlers := saveHandlers s;
     closeCalls := closeCalls s |}.

Definition set_steps (x : list Step) (s : SyncService) : SyncService :=
  {| connection := connection s; sessions := sessions s; steps := x;
     stepClientIDs := stepClientIDs s; lastStepPush := lastStepPush s;
     version := version s; sending := sending s; backend := backend s;
     changeHandlers := changeHandlers s; saveHandlers := saveHandlers s;
     closeCalls := closeCalls s |}.

Definition set_lastStepPush (x : Z) (s : SyncService) : SyncService :=
  {| connection := connection s; sessions := sessions s; steps := steps s;
     stepClientIDs := stepClientIDs s; lastStepPush := x;
     version := version s; sending := sending s; backend := backend s;
     changeHandlers := changeHandlers s; saveHandlers := saveHandlers s;
     closeCalls := closeCalls s |}.

Definition set_version (x : Version) (s : SyncService) : SyncService :=
  {| connection := connection s; sessions := sessions s; steps := steps s;
     stepClientIDs := stepClientIDs s; lastStepPush := lastStepPush s;
     version := x; sending := sending s; backend := backend s;
     changeHandlers := changeHandlers s; saveHandlers := saveHandlers s;
     closeCalls := closeCalls s |}.

Definition set_sending (x : bool) (s : SyncService) : SyncService :=
  {| connection := connection s; sessions := sessions s; steps := steps s;
     stepClientIDs := stepClientIDs s; lastStepPush := lastStepPush s;
     version := version s; sending := x; backend := backend s;
     changeHandlers := changeHandlers s; saveHandlers := saveHandlers s;
     closeCalls := closeCalls s |}.

Definition set_backend (x : option PollingBackend) (s : SyncService) : SyncService :=
  {| connection := connection s; sessions := sessions s; steps := steps s;
     stepClientIDs := stepClientIDs s; lastStepPush := lastStepPush s;
     version := version s; sending := sending s; backend := x;
     changeHandlers := changeHandlers s; saveHandlers := saveHandlers s;
     closeCalls := closeCalls s |}.

Definition set_changeHandlers (x : nat) (s : SyncService) : SyncService :=
  {| connection := connection s; sessions := sessions s; steps := steps s;
     stepClientIDs := stepClientIDs s; lastStepPush := lastStepPush s;
     version := version s; sending := sending s; backend := backend s;
     changeHandlers := x; saveHandlers := saveHandlers s;
     closeCalls := closeCalls s |}.

Definition set_saveHandlers (x : list nat) (s : SyncService) : SyncService :=
  {| connection := connection s; sessions := sessions s; steps := steps s;
     stepClientIDs := stepClientIDs s; lastStepPush := lastStepPush s;
     version := version s; sending := sending s; backend := backend s;
     changeHandlers := changeHandlers s; saveHandlers := x;
     closeCalls := closeCalls s |}.

Definition set_closeCalls (x : list CloseCall) (s : SyncService) : SyncService :=
  {| connection := connection s; sessions := sessions s; steps := steps s;
     stepClientIDs := stepClientIDs s; lastStepPush := lastStepPush s;
     version := version s; sending := sending s; backend := backend s;
     changeHandlers := changeHandlers s; saveHandlers := saveHandlers s;
     closeCalls := x |}.

(** [this.backend], from inside the service: reading a property of
    [undefined] throws a TypeError.  Its message is worded by the engine
    and names the property read; one wording stands for all of them here. *)
Definition getBackend : M PollingBackend :=
  fun s =>
    match backend s with
    | Some b => (Return b, s, [])
    | None => (Throw (TypeError "this.backend is undefined"), s, [])
    end.

(** An assignment to a field of the backend. *)
Definition update (f : PollingBackend -> PollingBackend) : M unit :=
  modify (fun s =>
            match backend s with
            | Some b => set_backend (Some (f b)) s
            | None => s
            end).

Fixpoint forEach {A} (f : A -> M unit) (l : list A) : M unit :=
  match l with
  | [] => ret tt
  | a :: l' => f a ;; forEach f l'
  end.

(** [!error.response || error.code === 'ECONNABORTED'] *)
Definition aborted (e : RequestError) : bool :=
  match err_code e with
  | Some c => String.eqb c "ECONNABORTED"
  | None => false
  end.

Definition noResponseOrAborted (e : RequestError) : bool :=
  match err_response e with
  | None => true
  | Some _ => aborted e
  end.

(** ** PollingBackend: the methods that stay inside the backend *)

Module Backend.

(** [constructor(syncService, connection)]; the flags start [undefined],
    which every test treats as [false], and [fetcher] as 0. *)
Definition new (c : Connection) (now : Z) : PollingBackend :=
  {| backend_connection := c; lastPoll := 0; lastSave := now;
     fetchInterval := FETCH_INTERVAL; fetchRetryCounter := 0;
     pollActive := false; forcedSave := false; manualSave := false;
     initialLoadingFinished := false; fetcher := 0 |}.

(** [timer] is the identifier [setInterval] hands back. *)
Definition connect (timer : Z) : M unit :=
  b <- getBackend ;;
  if fetcher b >? 0
  then tell (ConsoleError "Trying to connect, but already connected")
  else
    update (set_initialLoadingFinished false) ;;
    tell (SetInterval 50) ;;
    update (set_fetcher timer) ;;
    tell AddVisibilityListener.

Definition forceSave : M unit := update (set_forcedSave true).

Definition save : M unit := update (set_manualSave true).

Definition disconnect : M unit :=
  b <- getBackend ;;
  tell (ClearInterval (fetcher b)) ;;
  update (set_fetcher 0) ;;
  tell RemoveVisibilityListener.

Definition resetRefetchTimer : M unit :=
  update (set_fetchInterval FETCH_INTERVAL).

Definition increaseRefetchTimer : M unit :=
  update (fun b => set_fetchInterval
                     (Z.min (fetchInterval b * 2) FETCH_INTERVAL_MAX) b).

Definition maximumRefetchTimer : M unit :=
  update (set_fetchInterval FETCH_INTERVAL_SINGLE_EDITOR).

(** [hidden] is [document.visibilityState === 'hidden']. *)
Definition visibilitychange (hidden : bool) : M unit :=
  if hidden
  then update (set_fetchInterval FETCH_INTERVAL_INVISIBLE)
  else resetRefetchTimer.

End Backend.

(** ** SyncService *)

Module Service.

(** [constructor]: [now] is the [Date.now()] stored in [lastStepPush];
    [backend] is not assigned and stays [undefined]. *)
Definition new (now : Z) : SyncService :=
  {| connection := ConnNull; sessions := []; steps := [];
     stepClientIDs := []; lastStepPush := now; version := None;
     sending := false; backend := None; changeHandlers := 0%nat;
     saveHandlers := []; closeCalls := [] |}.

(** *** Closing: the part the bus needs *)

(** What [_close] returns: [Promise.resolve()], or the promise of the
    request [connection.close()] has sent. *)
Inductive ClosePromise := Settled | InFlight.

Definition _close : M ClosePromise :=
  s <- get ;;
  match connection s with
  | ConnNull => ret Settled
  | ConnUndefined =>
      Backend.disconnect ;;
      throw (TypeError "Cannot read properties of undefined (reading 'close')")
  | ConnObject _ =>
      Backend.disconnect ;;
      tell CloseRequest ;;
      ret InFlight
  end.

Fixpoint update_nth {A} (n : nat) (f : A -> A) (l : list A) : list A :=
  match l, n with
  | [], _ => []
  | a :: l', O => f a :: l'
  | a :: l', S n' => a :: update_nth n' f l'
  end.

(** [resolve()]: only a pending promise changes. *)
Definition resolve (call : nat) : M unit :=
  modify (fun s =>
    set_closeCalls
      (update_nth call
         (fun c => {| closed := closed c;
                      promise := match promise c with
                                 | Pending => Resolved
                                 | p => p
                                 end |})
         (closeCalls s)) s).

(** [closed = true] *)
Definition markClosed (call : nat) : M unit :=
  modify (fun s =>
    set_closeCalls
      (update_nth call
         (fun c => {| closed := true; promise := promise c |})
         (closeCalls s)) s).

(** The callbacks chained on [this._close()]: after a save event the
    fulfilment sets [closed] and resolves; after the timeout it only
    resolves; a rejection resolves in both. *)
Definition closeSettled (call : nat) (afterSave ok : bool) : M unit :=
  if ok
  then when afterSave (markClosed call) ;; resolve call
  else resolve call.

(** The handler [close] subscribes to save.  A [Promise.resolve()] runs
    its callback before any other task, so it is run at once here. *)
Definition close_onSave (call : nat) : M unit :=
  p <- _close ;;
  match p with
  | Settled => closeSettled call true true
  | InFlight => ret tt
  end.

(** The callback [close] hands to [setTimeout]. *)
Definition close_onTimeout (call : nat) : M unit :=
  s <- get ;;
  match nth_error (closeCalls s) call with
  | Some c =>
      if closed c then ret tt
      else
        p <- _close ;;
        match p with
        | Settled => closeSettled call false true
        | InFlight => ret tt
        end
  | None => ret tt
  end.

(** *** The bus *)

(** [emit(event, data)]: the emission is recorded for the subscribers
    outside of these two classes, and the handlers the service itself
    subscribed run in subscription order: the one of [open] on change,
    the ones of [close] on save. *)
Definition emit (e : BusEvent) : M unit :=
  tell (Emit e) ;;
  match e with
  | EvChange _ ss =>
      s <- get ;;
      when (0 <? changeHandlers s)%nat (modify (set_sessions ss))
  | EvSave _ _ =>
      s <- get ;;
      forEach close_onSave (saveHandlers s)
  | _ => ret tt
  end.

(** *** Opening *)

Definition _emitError (error : RequestError) : M unit :=
  match err_response error with
  | Some r =>
      if aborted error
      then emit (EvError CONNECTION_FAILED NoData)
      else emit (EvError LOAD_ERROR (OfResponse r))
  | None => emit (EvError CONNECTION_FAILED NoData)
  end.

(** [open] is given an initial session, or else what [this._api.open]
    settled with. *)
Inductive OpenArg :=
| InitialSession (c : Connection)
| ApiOpen (result : Connection + RequestError).

(** [now] is the [Date.now()] of the backend's constructor.  A [Throw]
    is the rejection of the promise [open] returns. *)
Definition open (arg : OpenArg) (now : Z) : M unit :=
  modify (fun s => set_changeHandlers (S (changeHandlers s)) s) ;;
  c <- match arg with
       | InitialSession c => ret (ConnObject c)
       | ApiOpen (inl c) => ret (ConnObject c)
       | ApiOpen (inr error) => _emitError error ;; ret ConnUndefined
       end ;;
  modify (set_connection c) ;;
  match c with
  | ConnObject conn =>
      modify (set_version (Some (conn_lastSavedVersion conn))) ;;
      s <- get ;;
      emit (EvOpened (conn_state conn) (version s)) ;;
      emit (EvLoaded (conn_state conn) (version s)) ;;
      modify (set_backend (Some (Backend.new conn now)))
  | _ =>
      throw (TypeError
        "Cannot read properties of undefined (reading 'lastSavedVersion')")
  end.

Definition startSync (timer : Z) : M unit := Backend.connect timer.

(** *** Sending *)

Inductive SendResult := Rescheduled | Pushing.

Definition hasConnection (s : SyncService) : bool :=
  match connection s with
  | ConnObject _ => true
  | _ => false
  end.

(** Up to the push: [sendable] is what [getSendable()] returns. *)
Definition sendSteps (sendable : list Step) : M SendResult :=
  emit (EvStateChangeDirty true) ;;
  s <- get ;;
  if negb (hasConnection s) || sending s
  then tell (RetrySendStepsIn 200) ;; ret Rescheduled
  else
    modify (set_sending true) ;;
    tell (PushRequest sendable) ;;
    ret Pushing.

(** [.then((response) => ...)] *)
Definition sendSteps_then : M unit := modify (set_sending false).

(** [data.document?.currentVersion === this.version] *)
Definition currentVersionIs (d : ResponseData) (v : Version) : bool :=
  match resp_document d, v with
  | Some doc, Some n => currentVersion doc =? n
  | _, _ => false
  end.

(** [.catch(({ response, code }) => ...)] *)
Definition sendSteps_catch (e : RequestError) : M unit :=
  tell (LogError "failed to apply steps due to collission, retrying") ;;
  modify (set_sending false) ;;
  match err_response e with
  | None => emit (EvError CONNECTION_FAILED NoData)
  | Some response =>
      if aborted e
      then emit (EvError CONNECTION_FAILED NoData)
      else
        if status response =? 403
        then
          when (match resp_document (resp_data response) with
                | None => true
                | Some _ => false
                end)
            (tell (LogError "failed to write to document - not allowed")) ;;
          s <- get ;;
          when (currentVersionIs (resp_data response) (version s))
            (emit (EvError PUSH_FAILURE NoData) ;;
             tell (ShowTemporary "Changes could not be sent yet"))
        else ret tt
  end.

(** *** The step log *)

Definition stepsSince (s : SyncService) (v : Z)
  : list Step * list SessionId :=
  (slice (steps s) v, slice (stepClientIDs s) v).

(** The body of [singleSteps.forEach]: push the step on the log and on
    [newSteps]. *)
Fixpoint pushSteps (sessionId : SessionId) (singleSteps : list Step)
    (newSteps : list (Step * SessionId)) : M (list (Step * SessionId)) :=
  match singleSteps with
  | [] => ret newSteps
  | step :: rest =>
      modify (fun s => set_steps (steps s ++ [step]) s) ;;
      pushSteps sessionId rest (newSteps ++ [(step, sessionId)])
  end.

(** One round of the [for] loop. *)
Definition receiveBucket (b : Bucket) (newSteps : list (Step * SessionId))
  : M (list (Step * SessionId)) :=
  s <- get ;;
  when (version_lt (version s) (bucket_version b))
    (modify (set_version (Some (bucket_version b)))) ;;
  match bucket_data b with
  | DataOther =>
      tell (LogError "Invalid step data, skipping step") ;;
      ret newSteps
  | DataArray singleSteps =>
      pushSteps (bucket_sessionId b) singleSteps newSteps
  end.

Fixpoint receiveBuckets (bs : list Bucket)
    (newSteps : list (Step * SessionId)) : M (list (Step * SessionId)) :=
  match bs with
  | [] => ret newSteps
  | b :: rest =>
      newSteps' <- receiveBucket b newSteps ;;
      receiveBuckets rest newSteps'
  end.

(** [_receiveSteps({ steps, document })]; [now] is the [Date.now()]. *)
Definition _receiveSteps (bs : list Bucket) (now : Z) : M unit :=
  newSteps <- receiveBuckets bs [] ;;
  modify (set_lastStepPush now) ;;
  s <- get ;;
  match connection s with
  | ConnObject c => emit (EvSync newSteps (conn_document c) (version s))
  | _ =>
      throw (TypeError
        "Cannot read properties of null or undefined (reading 'document')")
  end.

(** *** Idleness *)

(** [(Date.now() - this.lastStepPush) / 1000 / 60] *)
Definition lastPushMinutesAgo (now last : Z) : Q :=
  (inject_Z (now - last) / inject_Z 1000 / inject_Z 60)%Q.

Definition Qgt_bool (x y : Q) : bool := negb (Qle_bool x y).

(** The debug line interpolates [this.IDLE_TIMEOUT], which no statement of
    the class assigns: it prints as undefined. *)
Definition checkIdle (now : Z) : M bool :=
  s <- get ;;
  if Qgt_bool (lastPushMinutesAgo now (lastStepPush s))
              (inject_Z SyncServiceConst.IDLE_TIMEOUT)
  then
    tell (LogDebug "[SyncService] Document is idle for undefined minutes, suspending connection") ;;
    emit EvIdle ;;
    ret true
  else ret false.

(** *** Saving and closing *)

(** [this?.backend?.save?.()] *)
Definition save : M unit :=
  s <- get ;;
  match backend s with
  | Some _ => Backend.save
  | None => ret tt
  end.

Definition forceSave (timer : Z) : M unit :=
  Backend.connect timer ;;
  Backend.forceSave.

(** [close()] up to the promise it returns, which is the new entry of
    [closeCalls]: the executor subscribes to save, arms the timer and
    asks for a save. *)
Definition close : M nat :=
  Backend.disconnect ;;
  s <- get ;;
  let call := List.length (closeCalls s) in
  modify (fun s => set_closeCalls
                     (closeCalls s ++ [{| closed := false; promise := Pending |}]) s) ;;
  modify (fun s => set_saveHandlers (saveHandlers s ++ [call]) s) ;;
  tell (CloseTimeoutIn call 2000) ;;
  save ;;
  ret call.

End Service.

(** ** PollingBackend: the fetch loop *)

Module Polling.

(** A session is alive when its last contact, in seconds, is later than
    [disconnect], in milliseconds. *)
Definition alive (disconnect : Z) (sessions : list Session) : list Session :=
  filter (fun s => lastContact s * 1000 >? disconnect) sessions.

(** [_handleResponse({ data })]: [now1] is the [Date.now()] of
    [checkIdle] or of [_receiveSteps], [now2] the one [disconnect] is
    computed from. *)
Definition _handleResponse (data : SyncData) (now1 now2 : Z) : M unit :=
  let document := data_document data in
  let sessions := data_sessions data in
  update (set_fetchRetryCounter 0) ;;
  s <- get ;;
  when (version_lt (version s) (lastSavedVersion document))
    (tell (LogDebug "Saved document") ;;
     update (set_lastSave (lastSavedVersionTime document)) ;;
     Service.emit (EvSave document sessions)) ;;
  Service.emit (EvChange document sessions) ;;
  match data_steps data with
  | [] =>
      b <- getBackend ;;
      when (negb (initialLoadingFinished b))
        (update (set_initialLoadingFinished true) ;;
         update (set_lastSave (lastSavedVersionTime document))) ;;
      idle <- Service.checkIdle now1 ;;
      if idle : bool then ret tt
      else
        let disconnect := now2 - COLLABORATOR_DISCONNECT_TIME in
        (if (List.length (alive disconnect sessions) <? 2)%nat
         then Backend.maximumRefetchTimer
         else Backend.increaseRefetchTimer) ;;
        Service.emit (EvStateChangeDirty false) ;;
        Service.emit (EvStateChangeInitialLoading true)
  | _ :: _ =>
      Service._receiveSteps (data_steps data) now1 ;;
      update (set_forcedSave false) ;;
      b <- getBackend ;;
      when (initialLoadingFinished b) Backend.resetRefetchTimer
  end.

(** [!e.response || e.code === 'ECONNABORTED'], for whatever the [catch]
    of [_fetchSteps] caught: an exception thrown while the response was
    handled has no [response] either. *)
Definition networkFailure (e : Exn) : bool :=
  match e with
  | TypeError _ => true
  | Rejection err => noResponseOrAborted err
  end.

Definition responseOf (e : Exn) : option Response :=
  match e with
  | TypeError _ => None
  | Rejection err => err_response err
  end.

Definition _handleError (e : Exn) : M unit :=
  if networkFailure e
  then
    b <- getBackend ;;
    update (set_fetchRetryCounter (fetchRetryCounter b + 1)) ;;
    if fetchRetryCounter b >=? MAX_RETRY_FETCH_COUNT
    then
      tell (LogError "[PollingBackend:fetchSteps] Network error when fetching steps, emitting CONNECTION_FAILED") ;;
      Service.emit (EvError CONNECTION_FAILED RetryFalse)
    else
      tell (LogError
              (String.append
                 "[PollingBackend:fetchSteps] Network error when fetching steps, retry "
                 (numberToString (fetchRetryCounter b + 1))))
  else
    match responseOf e with
    | None => ret tt
    | Some response =>
        if status response =? 409 then
          tell (LogError "Conflict during file save, please resolve") ;;
          Service.emit (EvError SAVE_COLLISSION
                          (OutsideChange (outsideChange (resp_data response)))) ;;
          Backend.disconnect
        else if status response =? 403 then
          Service.emit (EvError SOURCE_NOT_FOUND NoData) ;;
          Backend.disconnect
        else if status response =? 404 then
          Service.emit (EvError SOURCE_NOT_FOUND NoData) ;;
          Backend.disconnect
        else if status response =? 503 then
          Backend.increaseRefetchTimer ;;
          Service.emit (EvError CONNECTION_FAILED RetryFalse) ;;
          tell (LogError "Failed to fetch steps due to unavailable service")
        else
          Backend.disconnect ;;
          Service.emit (EvError CONNECTION_FAILED RetryFalse) ;;
          tell (LogError "Failed to fetch steps due to other reason")
    end.

(** [_fetchSteps] up to the [await]: the request sent, if any. *)
Definition _fetchSteps_begin (now : Z) : M (option SyncRequest) :=
  b <- getBackend ;;
  if pollActive b then ret None
  else
    let shouldSave := forcedSave b || manualSave b in
    if (lastPoll b >? now - fetchInterval b) && negb shouldSave then ret None
    else if fetcher b =? 0 then
      tell (ConsoleError "No inverval but triggered") ;; ret None
    else
      update (set_pollActive true) ;;
      let shouldAutosave := lastSave b <? now - AUTOSAVE_INTERVAL in
      s <- get ;;
      let request := {| req_version := version s;
                        req_saveData := shouldSave || shouldAutosave;
                        req_force := forcedSave b;
                        req_manualSave := manualSave b |} in
      tell (LogDebug "[PollingBackend] Fetching steps") ;;
      tell (SyncRequested request) ;;
      ret (Some request).

(** [_fetchSteps] from the [await] on: [result] is what
    [connection.sync] settled with, [now3] the [Date.now()] of the
    [finally] block. *)
Definition _fetchSteps_settle (result : SyncData + RequestError)
    (now1 now2 now3 : Z) : M unit :=
  try_finally
    (try_catch
       (match result with
        | inl data => _handleResponse data now1 now2
        | inr e => throw (Rejection e)
        end)
       _handleError)
    (update (set_lastPoll now3) ;;
     update (set_pollActive false) ;;
     update (set_manualSave false) ;;
     update (set_forcedSave false)).

End Polling.

(** * Notions the properties are stated with *)

(** A relation between the state before and the state after holds of a
    method when it holds of every run of it, whether it returns or throws. *)
Definition keeps (R : SyncService -> SyncService -> Prop) {A} (m : M A)
  : Prop :=
  forall s, R s (state_of (m s)).

(** The fields of the service that only [open], [sendSteps] and
    [_receiveSteps] assign. *)
Definition same_log (s s' : SyncService) : Prop :=
  connection s' = connection s /\
  steps s' = steps s /\
  stepClientIDs s' = stepClientIDs s /\
  lastStepPush s' = lastStepPush s /\
  version s' = version s /\
  sending s' = sending s.

(** ** The step log and the version counter *)

(** The steps of a bucket that reach the log: none when [data] is no array. *)
Definition bucketSteps (b : Bucket) : list Step :=
  match bucket_data b with
  | DataArray l => l
  | DataOther => []
  end.

(** The version counter after one round of the loop. *)
Definition nextVersion (v : Version) (b : Bucket) : Version :=
  if version_lt v (bucket_version b) then Some (bucket_version b) else v.

(** The entries one bucket adds to [newSteps]. *)
Definition bucketNewSteps (b : Bucket) : list (Step * SessionId) :=
  map (fun step => (step, bucket_sessionId b)) (bucketSteps b).

(** The largest of a starting number and the versions of the buckets. *)
Definition maxVersion (start : Z) (bs : list Bucket) : Z :=
  fold_left Z.max (map bucket_version bs) start.

(** The largest bucket version of a non-empty list of buckets. *)
Definition maxBucketVersion (bs : list Bucket) : option Z :=
  match bs with
  | [] => None
  | b :: rest => Some (maxVersion (bucket_version b) rest)
  end.

(** How many steps the buckets carry in their data lists. *)
Definition dataLength (bs : list Bucket) : nat :=
  list_sum (map (fun b => List.length (bucketSteps b)) bs).

(** A sequence of calls of [_receiveSteps], each with its buckets and the
    time it ran at; an exception of the final [emit] ends a call, not the
    sequence. *)
Definition receiveAll (calls : list (list Bucket * Z)) (s : SyncService)
  : SyncService :=
  fold_left (fun s c => state_of (Service._receiveSteps (fst c) (snd c) s))
    calls s.

(** ** Sample values *)

Module Sample.

Definition doc (v : Z) : Document :=
  {| doc_id := 42; lastSavedVersion := v; lastSavedVersionTime := 0;
     currentVersion := v |}.

Definition conn (v : Z) : Connection :=
  {| conn_document := doc v;
     conn_state := {| documentSource := "## Hello world";
                      documentState := "" |};
     isPublic := false |}.

(** A service that opened file 42 at version [v], at time [now]. *)
Definition opened (v now : Z) : SyncService :=
  state_of (Service.open (Service.ApiOpen (inl (conn v))) now (Service.new now)).

Definition bucket (v : Z) (sessionId : SessionId) (l : list Step) : Bucket :=
  {| bucket_data := DataArray l; bucket_version := v;
     bucket_sessionId := sessionId |}.

Definition invalidBucket (v : Z) : Bucket :=
  {| bucket_data := DataOther; bucket_version := v;
     bucket_sessionId := "A" |}.

(** The server was not reached. *)
Definition noResponse : RequestError :=
  {| err_response := None; err_code := None |}.

Definition timedOut : RequestError :=
  {| err_response := None; err_code := Some "ECONNABORTED" |}.

Definition failed (st : Z) (d : option Document) : RequestError :=
  {| err_response :=
       Some {| status := st;
               resp_data := {| resp_document := d; outsideChange := None |} |};
     err_code := None |}.

Definition emptyData (v : Z) (ss : list Session) : SyncData :=
  {| data_document := doc v; data_sessions := ss; data_steps := [] |}.

End Sample.

(** ** Closing *)

(** No promise of [close] is rejected. *)
Definition neverRejected (s : SyncService) : Prop :=
  Forall (fun c => promise c <> Rejected) (closeCalls s).

(** A step that rejects no promise of [close]. *)
Definition staysUnrejected (s s' : SyncService) : Prop :=
  neverRejected s -> neverRejected s'.

(** ** Fetching *)

(** The emission of an error of type CONNECTION_FAILED. *)
Definition isConnectionFailed (x : Effect) : bool :=
  match x with
  | Emit (EvError CONNECTION_FAILED _) => true
  | _ => false
  end.

(** How many CONNECTION_FAILED errors a list of effects emits. *)
Definition connectionFailed (t : list Effect) : nat :=
  List.length (filter isConnectionFailed t).

(** A run of fetches that all fail, each with the error the request was
    rejected with and the time its [finally] block reads: what each of them
    does to the outside, in order. *)
Fixpoint failedFetches (run : list (RequestError * Z)) (s : SyncService)
  : list (list Effect) :=
  match run with
  | [] => []
  | (e, now) :: rest =>
      let r := Polling._fetchSteps_settle (inr e) now now now s in
      effects r :: failedFetches rest (state_of r)
  end.

(** [post m s Q]: run from [s], the method returns, and [Q] holds of what
    it returns and of the state it leaves. *)
Definition post {A} (m : M A) (s : SyncService)
    (Q : A -> SyncService -> Prop) : Prop :=
  match m s with
  | (Return a, s', _) => Q a s'
  | (Throw _, _, _) => False
  end.

(** An open service: it holds the connection [c], received its last steps
    at [last], and its backend fetches every [interval] ms. *)
Definition opened (c : Connection) (last interval : Z) (s : SyncService)
  : Prop :=
  connection s = ConnObject c /\
  lastStepPush s = last /\
  exists b, backend s = Some b /\ fetchInterval b = interval.

(** How many of the sessions had their last contact, in seconds, less than
    90000 ms before [now]. *)
Definition aliveCount (now : Z) (sessions : list Session) : nat :=
  List.length (filter (fun x => now - 90000 <? lastContact x * 1000) sessions).

(** The cadence after a response without steps on a service that is not
    idle. *)
Definition cadenceAfter (interval now : Z) (sessions : list Session) : Z :=
  if (aliveCount now sessions <? 2)%nat then 5000
  else Z.min (interval * 2) 5000.

(** A response without steps that is not idle at [now1] and sees at least
    two sessions alive at [now2]. *)
Definition quietRound (last : Z) (r : SyncData * Z * Z) : Prop :=
  let '(data, now1, now2) := r in
  data_steps data = [] /\
  now1 - last <= 1440 * 60 * 1000 /\
  (2 <= aliveCount now2 (data_sessions data))%nat.

(** Responses handled one after the other. *)
Definition handleResponses (rounds : list (SyncData * Z * Z)) : M unit :=
  forEach (fun r => Polling._handleResponse (fst (fst r)) (snd (fst r)) (snd r))
    rounds.

(** The retry counter of the backend is kept. *)
Definition same_retries (s s' : SyncService) : Prop :=
  forall b, backend s = Some b ->
  exists b', backend s' = Some b' /\
             fetchRetryCounter b' = fetchRetryCounter b.

(** ** Sequences of calls *)

(** What can happen to a service, one entry per method the editor calls and
    per continuation or timer the platform runs.  A sequence of them need
    not be one the platform produces (a request may settle that was never
    sent), so what holds of every sequence holds of every run. *)
Inductive Call :=
| CallOpen (arg : Service.OpenArg) (now : Z)
| CallStartSync (timer : Z)
| CallSendSteps (sendable : list Step)
| CallPushSettled (error : option RequestError)
| CallCheckIdle (now : Z)
| CallSave
| CallForceSave (timer : Z)
| CallClose
| CallCloseTimeout (call : nat)
| CallCloseSettled (call : nat) (afterSave ok : bool)
| CallTick (now : Z)
| CallFetchSettled (result : SyncData + RequestError) (now1 now2 now3 : Z)
| CallVisibilityChange (hidden : bool).

(** A method run for what it does, not for what it returns. *)
Definition ignore {A} (m : M A) : M unit := _ <- m ;; ret tt.

Definition perform (c : Call) : M unit :=
  match c with
  | CallOpen arg now => Service.open arg now
  | CallStartSync timer => Service.startSync timer
  | CallSendSteps sendable => ignore (Service.sendSteps sendable)
  | CallPushSettled None => Service.sendSteps_then
  | CallPushSettled (Some error) => Service.sendSteps_catch error
  | CallCheckIdle now => ignore (Service.checkIdle now)
  | CallSave => Service.save
  | CallForceSave timer => Service.forceSave timer
  | CallClose => ignore Service.close
  | CallCloseTimeout call => Service.close_onTimeout call
  | CallCloseSettled call afterSave ok => Service.closeSettled call afterSave ok
  | CallTick now => ignore (Polling._fetchSteps_begin now)
  | CallFetchSettled result now1 now2 now3 =>
      Polling._fetchSteps_settle result now1 now2 now3
  | CallVisibilityChange hidden => Backend.visibilitychange hidden
  end.

(** The state after a sequence of calls; a call that throws ends there and
    the sequence goes on. *)
Definition runCalls (calls : list Call) (s : SyncService) : SyncService :=
  fold_left (fun s c => state_of (perform c s)) calls s.

(** ** The last successful push, in the words of the specification

    The specification measures idleness from the last successful push.  A
    history lists the calls made on a service, each with the time at which
    it ran; the last successful push in it is the last push that settled
    without an error. *)
Fixpoint lastSuccessfulPush (history : list (Z * Call)) : option Z :=
  match history with
  | [] => None
  | (t, c) :: rest =>
      match lastSuccessfulPush rest with
      | Some t' => Some t'
      | None =>
          match c with
          | CallPushSettled None => Some t
          | _ => None
          end
      end
  end.

(** The service constructed at [t0], after a history. *)
Definition afterHistory (t0 : Z) (history : list (Z * Call)) : SyncService :=
  runCalls (map snd history) (Service.new t0).

(** Idle as the specification words it: more than 1440 minutes have passed
    since the last successful push. *)
Definition idleSinceLastSuccessfulPush (history : list (Z * Call)) (now : Z)
  : Prop :=
  exists t, lastSuccessfulPush history = Some t /\ 1440 * 60 * 1000 < now - t.

Definition isOpen (c : Call) : bool :=
  match c with
  | CallOpen _ _ => true
  | _ => false
  end.

(** A fetch that settles with a response that carries steps. *)
Definition bringsSteps (c : Call) : bool :=
  match c with
  | CallFetchSettled (inl data) _ _ _ =>
      match data_steps data with
      | [] => false
      | _ :: _ => true
      end
  | _ => false
  end.

(** The step log, the client log and the version counter are as before. *)
Definition untouched (s s' : SyncService) : Prop :=
  steps s' = steps s /\
  stepClientIDs s' = stepClientIDs s /\
  version s' = version s.

(** The step log has only grown at its end. *)
Definition extended (s s' : SyncService) : Prop :=
  exists l, steps s' = steps s ++ l.

(** The version counter, as a number, has not gone down. *)
Definition notLower (s s' : SyncService) : Prop :=
  toNumber (version s) <= toNumber (version s').

(** The cadence of the backend, if there is one, is between the base
    interval and the one of a hidden window. *)
Definition cadenceInRange (s : SyncService) : Prop :=
  forall b, backend s = Some b ->
  FETCH_INTERVAL <= fetchInterval b <= FETCH_INTERVAL_INVISIBLE.

Definition staysInRange (s s' : SyncService) : Prop :=
  cadenceInRange s -> cadenceInRange s'.

(** ** Counting effects *)

Definition count (p : Effect -> bool) (t : list Effect) : nat :=
  List.length (filter p t).

Definition isPushRequest (x : Effect) : bool :=
  match x with
  | PushRequest _ => true
  | _ => false
  end.

Definition isSyncRequested (x : Effect) : bool :=
  match x with
  | SyncRequested _ => true
  | _ => false
  end.

Definition isCloseRequest (x : Effect) : bool :=
  match x with
  | CloseRequest => true
  | _ => false
  end.

Definition isError (x : Effect) : bool :=
  match x with
  | Emit (EvError _ _) => true
  | _ => false
  end.

Definition isStateChange (x : Effect) : bool :=
  match x with
  | Emit (EvStateChangeDirty _) => true
  | Emit (EvStateChangeInitialLoading _) => true
  | _ => false
  end.

Definition isSetInterval (x : Effect) : bool :=
  match x with
  | SetInterval _ => true
  | _ => false
  end.

(** The handlers subscribed to save are the ones before, and more. *)
Definition handlersKept (s s' : SyncService) : Prop :=
  exists added, saveHandlers s' = saveHandlers s ++ added.

(** The events among the effects, in order. *)
Fixpoint events (t : list Effect) : list BusEvent :=
  match t with
  | [] => []
  | Emit e :: rest => e :: events rest
  | _ :: rest => events rest
  end.

(** ** Pushing and fetching, one at a time *)

(** What a call of [sendSteps] does to the outside when it cannot push:
    it announces the change and puts itself off by 200 ms. *)
Definition putOff : list Effect :=
  [Emit (EvStateChangeDirty true); RetrySendStepsIn 200].

(** Calls of [sendSteps] one after the other, no push settling between
    them. *)
Definition sendAll (payloads : list (list Step)) : M unit :=
  forEach (fun sendable => ignore (Service.sendSteps sendable)) payloads.

(** Ticks of the interval one after the other, no fetch settling between
    them. *)
Definition tickAll (ticks : list Z) : M unit :=
  forEach (fun now => ignore (Polling._fetchSteps_begin now)) ticks.

(** The buckets of a response whose [data] is no array. *)
Definition invalidBuckets (bs : list Bucket) : list Bucket :=
  filter (fun b => match bucket_data b with
                   | DataOther => true
                   | DataArray _ => false
                   end) bs.

(** The state an emission leaves on a service that holds a connection: the
    handler of [open] stores the sessions of a change, the handlers of
    [close] disconnect the backend on a save. *)
Definition afterEmit (e : BusEvent) (s : SyncService) : SyncService :=
  match e with
  | EvChange _ ss =>
      if (0 <? changeHandlers s)%nat then set_sessions ss s else s
  | EvSave _ _ =>
      match saveHandlers s, backend s with
      | _ :: _, Some b => set_backend (Some (set_fetcher 0 b)) s
      | _, _ => s
      end
  | _ => s
  end.

(** The error a failed fetch with a response of the given status is
    reported as. *)
Definition fetchErrorType (st : Z) : ERROR_TYPE :=
  if st =? 409 then SAVE_COLLISSION
  else if (st =? 403) || (st =? 404) then SOURCE_NOT_FOUND
  else CONNECTION_FAILED.

(** * Properties *)

(** ** What a method leaves alone

    A relation between the state before and the state after that is
    reflexive and transitive holds of a method as soon as it holds of the
    assignments the method makes, whether the method returns or throws. *)

Section Frame.

Variable R : SyncService -> SyncService -> Prop.
Hypothesis R_refl : forall s, R s s.
Hypothesis R_trans : forall s1 s2 s3, R s1 s2 -> R s2 s3 -> R s1 s3.

Lemma keeps_ret {A} (a : A) : keeps R (ret a).
Proof. intro s. apply R_refl. Qed.

Lemma keeps_get : keeps R get.
Proof. intro s. apply R_refl. Qed.

Lemma keeps_tell e : keeps R (tell e).
Proof. intro s. apply R_refl. Qed.

Lemma keeps_throw {A} e : keeps R (@throw A e).
Proof. intro s. apply R_refl. Qed.

Lemma keeps_getBackend : keeps R getBackend.
Proof.
  intro s. unfold getBackend, state_of.
  destruct (backend s); apply R_refl.
Qed.

Lemma keeps_modify f : (forall s, R s (f s)) -> keeps R (modify f).
Proof. intros H s. apply H. Qed.

Lemma keeps_bind {A B} (m : M A) (k : A -> M B) :
  keeps R m -> (forall a, keeps R (k a)) -> keeps R (bind m k).
Proof.
  intros Hm Hk s. unfold bind, state_of.
  specialize (Hm s). unfold state_of in Hm.
  destruct (m s) as [[[a|e] s1] t1]; simpl in *; auto.
  specialize (Hk a s1). unfold state_of in Hk.
  destruct (k a s1) as [[r s2] t2]; simpl in *.
  eapply R_trans; eauto.
Qed.

Lemma keeps_when b m : keeps R m -> keeps R (when b m).
Proof. intros H. destruct b; simpl; auto using keeps_ret. Qed.

Lemma keeps_forEach {A} (f : A -> M unit) l :
  (forall a, keeps R (f a)) -> keeps R (forEach f l).
Proof.
  intros H. induction l as [|a l IH]; simpl.
  - apply keeps_ret.
  - apply keeps_bind; auto.
Qed.

Lemma keeps_try_catch {A} (m : M A) h :
  keeps R m -> (forall e, keeps R (h e)) -> keeps R (try_catch m h).
Proof.
  intros Hm Hh s. unfold try_catch, state_of.
  specialize (Hm s). unfold state_of in Hm.
  destruct (m s) as [[[a|e] s1] t1]; simpl in *; auto.
  specialize (Hh e s1). unfold state_of in Hh.
  destruct (h e s1) as [[r s2] t2]; simpl in *.
  eapply R_trans; eauto.
Qed.

Lemma keeps_try_finally {A} (m : M A) f :
  keeps R m -> keeps R f -> keeps R (try_finally m f).
Proof.
  intros Hm Hf s. unfold try_finally, state_of.
  specialize (Hm s). unfold state_of in Hm.
  destruct (m s) as [[r s1] t1]; simpl in *.
  specialize (Hf s1). unfold state_of in Hf.
  destruct (f s1) as [[r' s2] t2]; simpl in *.
  eapply R_trans; eauto.
Qed.

Lemma keeps_if {A} (b : bool) (m1 m2 : M A) :
  keeps R m1 -> keeps R m2 -> keeps R (if b then m1 else m2).
Proof. destruct b; auto. Qed.

End Frame.

Lemma same_log_refl s : same_log s s.
Proof. repeat split. Qed.

Lemma same_log_trans s1 s2 s3 :
  same_log s1 s2 -> same_log s2 s3 -> same_log s1 s3.
Proof.
  unfold same_log. intros (A1 & A2 & A3 & A4 & A5 & A6) (B1 & B2 & B3 & B4 & B5 & B6).
  repeat split; congruence.
Qed.

Lemma same_log_update f : keeps same_log (update f).
Proof.
  apply keeps_modify. intro s. destruct (backend s); repeat split.
Qed.

Create HintDb frame.
#[local] Hint Resolve same_log_refl same_log_trans : frame.
#[local] Hint Resolve keeps_ret keeps_get keeps_tell keeps_throw
  keeps_getBackend same_log_update : frame.

(** Splits a method into its assignments; what is left are the calls of
    other methods, which [eauto] settles from the lemmas in the context. *)
Ltac frame :=
  repeat match goal with
    | |- forall _, _ => intro
    | |- keeps _ (bind _ _) => apply keeps_bind
    | |- keeps _ (when _ _) => apply keeps_when
    | |- keeps _ (forEach _ _) => apply keeps_forEach
    | |- keeps _ (try_catch _ _) => apply keeps_try_catch
    | |- keeps _ (try_finally _ _) => apply keeps_try_finally
    | |- keeps _ (modify _) => apply keeps_modify
    | |- keeps _ (if ?b then _ else _) => destruct b
    | |- keeps _ (match ?x with _ => _ end) => destruct x
    | |- keeps _ _ => solve [eauto with frame]
    | |- _ => solve [eauto with frame | repeat split]
    end.

Lemma same_log_disconnect : keeps same_log Backend.disconnect.
Proof. unfold Backend.disconnect. frame. Qed.

Lemma same_log__close : keeps same_log Service._close.
Proof.
  unfold Service._close.
  pose proof same_log_disconnect. frame.
Qed.

Lemma same_log_closeSettled call afterSave ok :
  keeps same_log (Service.closeSettled call afterSave ok).
Proof.
  unfold Service.closeSettled, Service.markClosed, Service.resolve. frame.
Qed.

Lemma same_log_close_onSave call : keeps same_log (Service.close_onSave call).
Proof.
  unfold Service.close_onSave.
  pose proof same_log__close. pose proof same_log_closeSettled. frame.
Qed.

Lemma same_log_emit e : keeps same_log (Service.emit e).
Proof.
  unfold Service.emit.
  pose proof same_log_close_onSave. frame.
Qed.

Lemma same_log_checkIdle now : keeps same_log (Service.checkIdle now).
Proof.
  unfold Service.checkIdle.
  pose proof same_log_emit. frame.
Qed.

Lemma same_log_timers :
  keeps same_log Backend.resetRefetchTimer /\
  keeps same_log Backend.increaseRefetchTimer /\
  keeps same_log Backend.maximumRefetchTimer.
Proof.
  unfold Backend.resetRefetchTimer, Backend.increaseRefetchTimer,
    Backend.maximumRefetchTimer.
  split; [|split]; frame.
Qed.

Lemma same_log__handleError e : keeps same_log (Polling._handleError e).
Proof.
  unfold Polling._handleError.
  pose proof same_log_emit. pose proof same_log_disconnect.
  destruct same_log_timers as (? & ? & ?). frame.
Qed.

Lemma same_log__handleResponse_empty data now1 now2 :
  data_steps data = [] ->
  keeps same_log (Polling._handleResponse data now1 now2).
Proof.
  intros E. unfold Polling._handleResponse. rewrite E. cbv zeta.
  pose proof same_log_emit. pose proof same_log_checkIdle.
  destruct same_log_timers as (? & ? & ?). frame.
Qed.

Lemma same_log__fetchSteps_settle_empty data now1 now2 now3 :
  data_steps data = [] ->
  keeps same_log (Polling._fetchSteps_settle (inl data) now1 now2 now3).
Proof.
  intros E. unfold Polling._fetchSteps_settle.
  pose proof (@same_log__handleResponse_empty data now1 now2 E).
  pose proof same_log__handleError. frame.
Qed.

(** C7. Handling a fetch response whose steps array is empty leaves the
    step log and the version counter as they were, and with them the
    client log, the time of the last received steps, the in-flight flag of
    the push and the connection: both for [_handleResponse] and for the
    whole rest of [_fetchSteps] around it, with its [catch] and [finally].
    What may change is the state of the backend (cadence, retry counter,
    save and loading flags), the session roster and the promises of pending
    [close] calls. *)
Theorem empty_response_keeps_log_and_version :
  forall (data : SyncData) (now1 now2 now3 : Z) (s : SyncService),
    data_steps data = [] ->
    let s1 := state_of (Polling._handleResponse data now1 now2 s) in
    let s2 := state_of (Polling._fetchSteps_settle (inl data) now1 now2 now3 s) in
    (steps s1 = steps s /\ version s1 = version s) /\
    (steps s2 = steps s /\ version s2 = version s) /\
    same_log s s1 /\ same_log s s2.
Proof.
  intros data now1 now2 now3 s E s1 s2.
  assert (H1 : same_log s s1)
    by (apply same_log__handleResponse_empty; assumption).
  assert (H2 : same_log s s2)
    by (apply same_log__fetchSteps_settle_empty; assumption).
  pose proof H1 as (_ & A & _ & _ & B & _).
  pose proof H2 as (_ & C & _ & _ & D & _).
  auto.
Qed.

Lemma empty_response_keeps_log_and_version_witness :
  let data := Sample.emptyData 3 [{| lastContact := 1 |}] in
  let s := state_of (Service._receiveSteps [Sample.bucket 1 "A" ["stepX"]] 10
                       (Sample.opened 0 0)) in
  data_steps data = [] /\
  steps (state_of (Polling._handleResponse data 20 20 s)) = ["stepX"] /\
  version (state_of (Polling._handleResponse data 20 20 s)) = Some 1.
Proof.
  intros data s. split; [reflexivity|].
  exact (proj1 (@empty_response_keeps_log_and_version data 20 20 20 s eq_refl)).
Defined.

(** ** The step log and the version counter *)

Lemma pushSteps_run sessionId singleSteps : forall newSteps s,
  Service.pushSteps sessionId singleSteps newSteps s =
  (Return (newSteps ++ map (fun step => (step, sessionId)) singleSteps),
   set_steps (steps s ++ singleSteps) s, []).
Proof.
  induction singleSteps as [|step rest IH]; intros newSteps s.
  - destruct s; simpl. unfold ret, set_steps; simpl.
    rewrite !app_nil_r. reflexivity.
  - simpl. unfold bind, modify. rewrite IH.
    destruct s; unfold set_steps; simpl.
    rewrite <- !app_assoc. reflexivity.
Qed.

Lemma receiveBucket_run b newSteps s :
  outcome (Service.receiveBucket b newSteps s) =
    Return (newSteps ++ bucketNewSteps b) /\
  state_of (Service.receiveBucket b newSteps s) =
    set_steps (steps s ++ bucketSteps b)
      (set_version (nextVersion (version s) b) s).
Proof.
  unfold Service.receiveBucket, bucketNewSteps, bucketSteps, nextVersion.
  unfold bind, get, when, outcome, state_of.
  destruct s as [c ss st ids lp v sd bk ch sh cc]; simpl.
  destruct (version_lt v (bucket_version b)); simpl;
    destruct (bucket_data b) as [l|]; simpl;
    rewrite ?pushSteps_run; simpl; unfold set_steps, set_version; simpl;
    rewrite ?app_nil_r; auto.
Qed.

Lemma receiveBuckets_run bs : forall newSteps s,
  outcome (Service.receiveBuckets bs newSteps s) =
    Return (newSteps ++ flat_map bucketNewSteps bs) /\
  state_of (Service.receiveBuckets bs newSteps s) =
    set_steps (steps s ++ flat_map bucketSteps bs)
      (set_version (fold_left nextVersion bs (version s)) s).
Proof.
  induction bs as [|b rest IH]; intros newSteps s.
  - destruct s; simpl. unfold outcome, state_of, ret, set_steps; simpl.
    rewrite !app_nil_r. auto.
  - simpl Service.receiveBuckets. unfold bind.
    destruct (receiveBucket_run b newSteps s) as [Ho Hs].
    unfold outcome, state_of in Ho, Hs.
    destruct (Service.receiveBucket b newSteps s) as [[r s1] t1].
    simpl in Ho, Hs. subst r s1.
    destruct (IH (newSteps ++ bucketNewSteps b)
                 (set_steps (steps s ++ bucketSteps b)
                    (set_version (nextVersion (version s) b) s))) as [Ho Hs].
    unfold outcome, state_of in Ho, Hs |- *.
    destruct (Service.receiveBuckets rest _ _) as [[r s2] t2].
    simpl in Ho, Hs |- *. subst r s2.
    destruct s; unfold set_steps, set_version; simpl.
    rewrite <- !app_assoc. auto.
Qed.

(** The state [_receiveSteps] leaves, whether or not the final [emit]
    finds a connection to read the document from. *)
Lemma _receiveSteps_state bs now s :
  state_of (Service._receiveSteps bs now s) =
  set_lastStepPush now
    (set_steps (steps s ++ flat_map bucketSteps bs)
       (set_version (fold_left nextVersion bs (version s)) s)).
Proof.
  unfold Service._receiveSteps. unfold bind at 1.
  destruct (receiveBuckets_run bs [] s) as [Ho Hs].
  unfold outcome, state_of in Ho, Hs.
  destruct (Service.receiveBuckets bs [] s) as [[r s1] t1].
  simpl in Ho, Hs. subst r s1.
  destruct s as [c ss st ids lp v sd bk ch sh cc].
  destruct c; reflexivity.
Qed.

Lemma toNumber_nextVersion v b :
  toNumber (nextVersion v b) = Z.max (toNumber v) (bucket_version b).
Proof.
  unfold nextVersion, version_lt.
  destruct (Z.ltb_spec (toNumber v) (bucket_version b)); simpl; lia.
Qed.

Lemma toNumber_fold_nextVersion bs : forall v,
  toNumber (fold_left nextVersion bs v) = maxVersion (toNumber v) bs.
Proof.
  unfold maxVersion.
  induction bs as [|b rest IH]; intros v; simpl; auto.
  rewrite IH, toNumber_nextVersion. reflexivity.
Qed.

Lemma maxVersion_ge bs : forall start, start <= maxVersion start bs.
Proof.
  unfold maxVersion.
  induction bs as [|b rest IH]; intros start; simpl; [lia|].
  specialize (IH (Z.max start (bucket_version b))). lia.
Qed.

Lemma maxVersion_app bs1 bs2 start :
  maxVersion start (bs1 ++ bs2) = maxVersion (maxVersion start bs1) bs2.
Proof. unfold maxVersion. rewrite map_app, fold_left_app. reflexivity. Qed.

Lemma dataLength_app bs1 bs2 :
  dataLength (bs1 ++ bs2) = (dataLength bs1 + dataLength bs2)%nat.
Proof. unfold dataLength. rewrite map_app, list_sum_app. reflexivity. Qed.

Lemma length_flat_map_bucketSteps bs :
  List.length (flat_map bucketSteps bs) = dataLength bs.
Proof.
  unfold dataLength. induction bs as [|b rest IH]; simpl; auto.
  rewrite length_app, IH. reflexivity.
Qed.

(** The scenario of the specification: open at version 0, then a fetch
    returns one bucket of version 1 from session A with one step. *)
Example scenario_receive_stepX :
  let s := state_of (Service._receiveSteps
                       [Sample.bucket 1 "A" ["stepX"]] 10 (Sample.opened 0 0)) in
  steps s = ["stepX"] /\ version s = Some 1 /\
  effects (Service._receiveSteps
             [Sample.bucket 1 "A" ["stepX"]] 10 (Sample.opened 0 0)) =
    [Emit (EvSync [("stepX", "A")] (Sample.doc 0) (Some 1))].
Proof. repeat split. Qed.

(** C10. A bucket whose [data] is no array still moves the version counter
    to its own version when that is higher than the counter: the round of
    the loop assigns the version before it looks at [data], and then skips
    only the appending, of which it logs an error; the log and [newSteps]
    stay as they were.  The same holds of a call of [_receiveSteps] with
    that bucket. *)
Theorem invalid_bucket_still_advances_version :
  forall (b : Bucket) (newSteps : list (Step * SessionId)) (now : Z)
         (s : SyncService),
    bucket_data b = DataOther ->
    version_lt (version s) (bucket_version b) = true ->
    let round := Service.receiveBucket b newSteps s in
    let call := Service._receiveSteps [b] now s in
    (outcome round = Return newSteps /\
     version (state_of round) = Some (bucket_version b) /\
     steps (state_of round) = steps s /\
     effects round = [LogError "Invalid step data, skipping step"]) /\
    (version (state_of call) = Some (bucket_version b) /\
     steps (state_of call) = steps s).
Proof.
  intros b newSteps now s Hd Hv round call. split.
  - subst round. unfold Service.receiveBucket, bind, get, when.
    rewrite Hv, Hd. destruct s; simpl. repeat split.
  - subst call. rewrite _receiveSteps_state. simpl.
    unfold nextVersion, bucketSteps. rewrite Hv, Hd. simpl.
    rewrite app_nil_r. auto.
Qed.

Lemma invalid_bucket_still_advances_version_witness :
  let s := Sample.opened 0 0 in
  let b := Sample.invalidBucket 3 in
  version (state_of (Service._receiveSteps [b] 10 s)) = Some 3 /\
  steps (state_of (Service._receiveSteps [b] 10 s)) = steps s.
Proof.
  intros s b.
  exact (proj2 (@invalid_bucket_still_advances_version b [] 10 s
                  eq_refl eq_refl)).
Defined.

(** Nothing [_receiveSteps] does assigns [stepClientIDs]. *)
Lemma _receiveSteps_stepClientIDs bs now s :
  stepClientIDs (state_of (Service._receiveSteps bs now s)) = stepClientIDs s.
Proof. rewrite _receiveSteps_state. reflexivity. Qed.

(** C1. On a service opened at version 0, [_receiveSteps] with one bucket
    of version 1 from session A carrying the step stepX puts stepX on the
    step log and nothing on the client log: the two logs differ in length
    afterwards, and [stepsSince(0)] returns one step and no client id.  The
    session id of the step only reaches the sync event. *)
Theorem receiveSteps_leaves_client_log_empty :
  let call := Service._receiveSteps [Sample.bucket 1 "A" ["stepX"]] 10
                (Sample.opened 0 0) in
  let s := state_of call in
  steps s = ["stepX"] /\
  stepClientIDs s = [] /\
  List.length (steps s) <> List.length (stepClientIDs s) /\
  Service.stepsSince s 0 = (["stepX"], []) /\
  effects call = [Emit (EvSync [("stepX", "A")] (Sample.doc 0) (Some 1))].
Proof. repeat split. discriminate. Qed.

Lemma receiveAll_app calls1 calls2 s :
  receiveAll (calls1 ++ calls2) s = receiveAll calls2 (receiveAll calls1 s).
Proof. unfold receiveAll. apply fold_left_app. Qed.

Lemma receiveAll_run calls : forall s,
  let bs := List.concat (map fst calls) in
  steps (receiveAll calls s) = steps s ++ flat_map bucketSteps bs /\
  toNumber (version (receiveAll calls s)) = maxVersion (toNumber (version s)) bs.
Proof.
  induction calls as [|[bs1 now] rest IH]; intros s; simpl.
  - rewrite app_nil_r. auto.
  - destruct (IH (state_of (Service._receiveSteps bs1 now s))) as [Hs Hv].
    fold (receiveAll rest (state_of (Service._receiveSteps bs1 now s))).
    rewrite Hs, Hv, _receiveSteps_state. simpl.
    rewrite flat_map_app, app_assoc, maxVersion_app.
    rewrite toNumber_fold_nextVersion. auto.
Qed.

(** C2, as stated, fails: on a service opened at version 5, a bucket of
    version 3 leaves the counter at 5, which is not the largest bucket
    version seen. *)
Lemma version_is_not_the_largest_bucket_version :
  let s := Sample.opened 5 0 in
  let bs := [Sample.bucket 3 "A" ["stepX"]] in
  version (state_of (Service._receiveSteps bs 10 s)) = Some 5 /\
  maxBucketVersion bs = Some 3 /\
  version (state_of (Service._receiveSteps bs 10 s)) <> maxBucketVersion bs.
Proof. repeat split. discriminate. Qed.

(** C2, amended. For every sequence of calls of [_receiveSteps], from any
    state: the step log grows by the sum of the lengths of the data lists
    of the buckets (so that on a new service its length is that sum); the
    version counter, read as a number ([null] as 0, the way the comparison
    reads it), is the largest of its value before the calls and the
    versions of the buckets seen; and no call makes it smaller. *)
Theorem receiveSteps_log_length_and_version :
  forall (calls : list (list Bucket * Z)) (s : SyncService),
    let bs := List.concat (map fst calls) in
    List.length (steps (receiveAll calls s)) =
      (List.length (steps s) + dataLength bs)%nat /\
    (forall now, List.length (steps (receiveAll calls (Service.new now))) =
                 dataLength bs) /\
    toNumber (version (receiveAll calls s)) =
      maxVersion (toNumber (version s)) bs /\
    (forall bs1 now,
       toNumber (version s) <=
       toNumber (version (state_of (Service._receiveSteps bs1 now s)))) /\
    toNumber (version s) <= toNumber (version (receiveAll calls s)).
Proof.
  intros calls s bs.
  destruct (receiveAll_run calls s) as [Hs Hv]. fold bs in Hs, Hv.
  repeat split.
  - rewrite Hs, length_app, length_flat_map_bucketSteps. reflexivity.
  - intros now. destruct (receiveAll_run calls (Service.new now)) as [Hs' _].
    fold bs in Hs'. rewrite Hs'. simpl.
    apply length_flat_map_bucketSteps.
  - exact Hv.
  - intros bs1 now. rewrite _receiveSteps_state. simpl.
    rewrite toNumber_fold_nextVersion. apply maxVersion_ge.
  - rewrite Hv. apply maxVersion_ge.
Qed.

(** ** Idleness *)

(** The test of [checkIdle], in milliseconds. *)
Lemma idle_test_in_milliseconds now last :
  Service.Qgt_bool (Service.lastPushMinutesAgo now last)
    (inject_Z SyncServiceConst.IDLE_TIMEOUT) = true <->
  SyncServiceConst.IDLE_TIMEOUT * 60 * 1000 < now - last.
Proof.
  unfold Service.Qgt_bool, Service.lastPushMinutesAgo, Qle_bool,
    SyncServiceConst.IDLE_TIMEOUT.
  rewrite negb_true_iff, Z.leb_gt. simpl. lia.
Qed.

(** C9, as stated, fails: a service opened at time 0 pushes steps a day
    later, and the push succeeds.  One millisecond after that success
    [checkIdle] returns true and emits idle, although far less than 1440
    minutes have passed since the last successful push: the time it
    measures from is the one of the constructor, which no push moves. *)
Lemma checkIdle_true_right_after_a_successful_push :
  let day := 1440 * 60 * 1000 in
  let history :=
    [(0, CallOpen (Service.InitialSession (Sample.conn 0)) 0);
     (day + 1, CallSendSteps ["stepX"]);
     (day + 2, CallPushSettled None)] in
  let s := afterHistory 0 history in
  lastSuccessfulPush history = Some (day + 2) /\
  Service.checkIdle (day + 3) s =
    (Return true, s,
     [LogDebug "[SyncService] Document is idle for undefined minutes, suspending connection";
      Emit EvIdle]) /\
  ~ (outcome (Service.checkIdle (day + 3) s) = Return true <->
     idleSinceLastSuccessfulPush history (day + 3)).
Proof.
  intros day history s.
  split; [reflexivity|]. split; [reflexivity|].
  intros [H _]. destruct (H eq_refl) as (t & Ht & Hlt).
  injection Ht as <-. subst day. lia.
Qed.

(** C9, amended. [checkIdle] returns true exactly when the time since
    [lastStepPush], in minutes, exceeds [IDLE_TIMEOUT] = 1440, that is when
    more than 86400000 ms have passed, and exactly then it emits idle;
    otherwise it returns false and does nothing at all.  It changes no
    state.  [lastStepPush] is the time at which steps were last received:
    the constructor sets it, [_receiveSteps] sets it, and a push leaves it
    alone, when it is sent and when it succeeds. *)
Theorem checkIdle_iff_idle_timeout_exceeded :
  forall (now : Z) (s : SyncService),
    let elapsed := now - lastStepPush s in
    let run := Service.checkIdle now s in
    ((inject_Z SyncServiceConst.IDLE_TIMEOUT <
      Service.lastPushMinutesAgo now (lastStepPush s))%Q <->
     1440 * 60 * 1000 < elapsed) /\
    (outcome run = Return true <-> 1440 * 60 * 1000 < elapsed) /\
    (In (Emit EvIdle) (effects run) <-> 1440 * 60 * 1000 < elapsed) /\
    (outcome run <> Return true -> outcome run = Return false /\ effects run = []) /\
    state_of run = s /\
    (forall bs t, lastStepPush (state_of (Service._receiveSteps bs t s)) = t) /\
    (forall t, lastStepPush (Service.new t) = t) /\
    (forall sendable,
        lastStepPush (state_of (Service.sendSteps sendable s)) =
        lastStepPush s) /\
    lastStepPush (state_of (Service.sendSteps_then s)) = lastStepPush s.
Proof.
  intros now s elapsed run.
  assert (Hpush : (forall t, lastStepPush (Service.new t) = t) /\
                  (forall sendable,
                      lastStepPush (state_of (Service.sendSteps sendable s)) =
                      lastStepPush s) /\
                  lastStepPush (state_of (Service.sendSteps_then s)) =
                  lastStepPush s).
  { split; [reflexivity|]. split; [|reflexivity].
    intros sendable.
    unfold Service.sendSteps, Service.emit, bind, get, tell, modify, ret,
      state_of.
    simpl. destruct (negb (Service.hasConnection s) || sending s); reflexivity. }
  pose proof (idle_test_in_milliseconds now (lastStepPush s)) as Hms.
  change (SyncServiceConst.IDLE_TIMEOUT * 60 * 1000) with (1440 * 60 * 1000) in Hms.
  fold elapsed in Hms.
  assert (Hq : (inject_Z SyncServiceConst.IDLE_TIMEOUT <
                Service.lastPushMinutesAgo now (lastStepPush s))%Q <->
               1440 * 60 * 1000 < elapsed).
  { rewrite <- Hms. unfold Service.Qgt_bool.
    rewrite negb_true_iff, <- not_true_iff_false, Qle_bool_iff.
    split; [apply Qlt_not_le | apply Qnot_le_lt]. }
  split; [exact Hq|].
  subst run. unfold Service.checkIdle, bind, get.
  destruct (Service.Qgt_bool _ _) eqn:E; simpl.
  - assert (1440 * 60 * 1000 < elapsed) by (apply Hms; reflexivity).
    split; [split; auto|].
    split; [split; auto; intros _; right; left; reflexivity|].
    split; [intros H0; exfalso; apply H0; reflexivity|].
    split; [reflexivity|].
    split; [|exact Hpush].
    intros bs t. rewrite _receiveSteps_state. reflexivity.
  - assert (~ 1440 * 60 * 1000 < elapsed)
      by (intros H0; apply Hms in H0; discriminate).
    split; [split; [discriminate | tauto]|].
    split; [split; [intros [] | tauto]|].
    split; [auto|].
    split; [reflexivity|].
    split; [|exact Hpush].
    intros bs t. rewrite _receiveSteps_state. reflexivity.
Qed.

(** ** Failed pushes *)

(** C4. The [catch] of the push of [sendSteps]: on a 403 whose payload
    carries a document with [currentVersion] equal to the local version it
    emits PUSH_FAILURE and shows the temporary notice; on a 403 whose
    payload has no document it only logs; when there is no response, or the
    request was aborted, it emits CONNECTION_FAILED.  In each case the
    first effect is the log line of the handler, and the in-flight flag is
    cleared. *)
Theorem sendSteps_failure_classification :
  forall (e : RequestError) (s : SyncService),
    let run := Service.sendSteps_catch e s in
    let logged :=
      LogError "failed to apply steps due to collission, retrying" in
    (forall response doc,
        err_response e = Some response ->
        aborted e = false ->
        status response = 403 ->
        resp_document (resp_data response) = Some doc ->
        version s = Some (currentVersion doc) ->
        effects run = [logged; Emit (EvError PUSH_FAILURE NoData);
                       ShowTemporary "Changes could not be sent yet"]) /\
    (forall response,
        err_response e = Some response ->
        aborted e = false ->
        status response = 403 ->
        resp_document (resp_data response) = None ->
        effects run = [logged;
                       LogError "failed to write to document - not allowed"]) /\
    (noResponseOrAborted e = true ->
        effects run = [logged; Emit (EvError CONNECTION_FAILED NoData)]) /\
    sending (state_of run) = false.
Proof.
  intros e s run logged. subst run.
  unfold Service.sendSteps_catch, noResponseOrAborted.
  repeat split.
  - intros response doc Hr Ha Hs Hd Hv.
    rewrite Hr, Ha, Hs. simpl. unfold Service.currentVersionIs.
    unfold bind, modify, tell, get, when, effects; simpl.
    rewrite Hd. simpl. rewrite Hv, Z.eqb_refl. reflexivity.
  - intros response Hr Ha Hs Hd.
    rewrite Hr, Ha, Hs. simpl. unfold Service.currentVersionIs.
    unfold bind, modify, tell, get, when, effects; simpl.
    rewrite Hd. reflexivity.
  - intros Hn. destruct (err_response e) as [r|].
    + rewrite Hn. reflexivity.
    + reflexivity.
  - destruct (err_response e) as [r|]; [|reflexivity].
    destruct (aborted e); [reflexivity|].
    destruct (status r =? 403); [|reflexivity].
    unfold bind, modify, tell, get, when, state_of; simpl.
    destruct (resp_document (resp_data r)); simpl;
      destruct (Service.currentVersionIs _ _); reflexivity.
Qed.

Lemma sendSteps_failure_classification_witness :
  effects (Service.sendSteps_catch (Sample.failed 403 (Some (Sample.doc 7)))
             (Sample.opened 7 0)) =
    [LogError "failed to apply steps due to collission, retrying";
     Emit (EvError PUSH_FAILURE NoData);
     ShowTemporary "Changes could not be sent yet"] /\
  effects (Service.sendSteps_catch (Sample.failed 403 None)
             (Sample.opened 7 0)) =
    [LogError "failed to apply steps due to collission, retrying";
     LogError "failed to write to document - not allowed"] /\
  effects (Service.sendSteps_catch Sample.timedOut (Sample.opened 7 0)) =
    [LogError "failed to apply steps due to collission, retrying";
     Emit (EvError CONNECTION_FAILED NoData)].
Proof.
  split; [|split].
  - apply (proj1 (sendSteps_failure_classification
                    (Sample.failed 403 (Some (Sample.doc 7)))
                    (Sample.opened 7 0))
             {| status := 403;
                resp_data := {| resp_document := Some (Sample.doc 7);
                                outsideChange := None |} |}
             (Sample.doc 7));
      reflexivity.
  - apply (proj1 (proj2 (sendSteps_failure_classification
                           (Sample.failed 403 None) (Sample.opened 7 0)))
             {| status := 403;
                resp_data := {| resp_document := None;
                                outsideChange := None |} |});
      reflexivity.
  - apply (proj1 (proj2 (proj2 (sendSteps_failure_classification
                                  Sample.timedOut (Sample.opened 7 0)))));
      reflexivity.
Defined.

(** ** Opening *)

(** [_emitError] emits one error event, CONNECTION_FAILED or LOAD_ERROR,
    and changes nothing. *)
Lemma _emitError_run error s :
  outcome (Service._emitError error s) = Return tt /\
  state_of (Service._emitError error s) = s /\
  (effects (Service._emitError error s) = [Emit (EvError CONNECTION_FAILED NoData)] \/
   exists r, effects (Service._emitError error s) =
             [Emit (EvError LOAD_ERROR (OfResponse r))]).
Proof.
  unfold Service._emitError.
  destruct (err_response error) as [r|]; [destruct (aborted error)|];
    (split; [reflexivity|]); (split; [reflexivity|]);
    first [left; reflexivity | right; eexists; reflexivity].
Qed.

(** C3. When the session cannot be opened, [open] emits one error event,
    of type CONNECTION_FAILED or LOAD_ERROR, and goes on: it stores
    [undefined] as the connection and reads [lastSavedVersion] from it, so
    that the promise it returned is rejected with a TypeError.  Neither
    opened nor loaded is emitted and no backend is created. *)
Theorem open_rejects_when_session_open_fails :
  forall (error : RequestError) (now : Z) (s : SyncService),
    let run := Service.open (Service.ApiOpen (inr error)) now s in
    (effects run = [Emit (EvError CONNECTION_FAILED NoData)] \/
     exists r, effects run = [Emit (EvError LOAD_ERROR (OfResponse r))]) /\
    outcome run =
      Throw (TypeError
        "Cannot read properties of undefined (reading 'lastSavedVersion')") /\
    connection (state_of run) = ConnUndefined /\
    backend (state_of run) = backend s.
Proof.
  intros error now s run. subst run.
  unfold Service.open, Service._emitError.
  destruct (err_response error) as [r|]; [destruct (aborted error)|];
    (split; [first [left; reflexivity | right; eexists; reflexivity]|]);
    repeat split.
Qed.

(** The failing run: the server is not reached when a new service opens
    file 42. *)
Example open_without_network :
  Service.open (Service.ApiOpen (inr Sample.noResponse)) 0 (Service.new 0) =
  (Throw (TypeError
     "Cannot read properties of undefined (reading 'lastSavedVersion')"),
   set_connection ConnUndefined (set_changeHandlers 1%nat (Service.new 0)),
   [Emit (EvError CONNECTION_FAILED NoData)]).
Proof. reflexivity. Qed.

(** ** Closing *)

(** C8. [close] on a service that was never opened, and likewise on one
    whose [open] failed, does not return a promise at all: [this.backend]
    is [undefined] there, and [this.backend.disconnect()] throws a
    TypeError before the promise is made; nothing is subscribed and no
    timer is armed. *)
Theorem close_throws_without_backend :
  forall (now : Z),
    Service.close (Service.new now) =
      (Throw (TypeError "this.backend is undefined"), Service.new now, []) /\
    let failedOpen :=
      state_of (Service.open (Service.ApiOpen (inr Sample.noResponse)) now
                  (Service.new now)) in
    Service.close failedOpen =
      (Throw (TypeError "this.backend is undefined"), failedOpen, []).
Proof. intros now. split; reflexivity. Qed.

(** On a service with a backend, [close] disconnects it, returns a pending
    promise, and arms the 2000 ms timer. *)
Lemma close_run s b :
  backend s = Some b ->
  let call := List.length (closeCalls s) in
  outcome (Service.close s) = Return call /\
  nth_error (closeCalls (state_of (Service.close s))) call =
    Some {| closed := false; promise := Pending |} /\
  saveHandlers (state_of (Service.close s)) = saveHandlers s ++ [call] /\
  effects (Service.close s) =
    [ClearInterval (fetcher b); RemoveVisibilityListener;
     CloseTimeoutIn call 2000].
Proof.
  intros Hb call. unfold Service.close, Backend.disconnect, Service.save,
    Backend.save, bind, getBackend, update, modify, get, tell, ret.
  destruct s as [c ss st ids lp v sd bk ch sh cc]. simpl in *. subst bk.
  simpl. repeat split.
  subst call. simpl. rewrite nth_error_app2 by lia.
  rewrite Nat.sub_diag. reflexivity.
Qed.

Lemma Forall_update_nth {A} (P : A -> Prop) f : forall n (l : list A),
  (forall a, P a -> P (f a)) -> Forall P l -> Forall P (Service.update_nth n f l).
Proof.
  intros n l Hf. revert n.
  induction l as [|a l IH]; intros [|n] H; simpl; auto;
    inversion H; subst; constructor; auto.
Qed.

Lemma staysUnrejected_refl s : staysUnrejected s s.
Proof. unfold staysUnrejected. auto. Qed.

Lemma staysUnrejected_trans s1 s2 s3 :
  staysUnrejected s1 s2 -> staysUnrejected s2 s3 -> staysUnrejected s1 s3.
Proof. unfold staysUnrejected. auto. Qed.

Lemma staysUnrejected_same_calls s s' :
  closeCalls s' = closeCalls s -> staysUnrejected s s'.
Proof. unfold staysUnrejected, neverRejected. intros ->. auto. Qed.

#[local] Hint Resolve staysUnrejected_refl staysUnrejected_trans : frame.

Lemma staysUnrejected_update f : keeps staysUnrejected (update f).
Proof.
  apply keeps_modify. intro s. apply staysUnrejected_same_calls.
  destruct (backend s); reflexivity.
Qed.

#[local] Hint Resolve staysUnrejected_update : frame.

Lemma staysUnrejected_closeSettled call afterSave ok :
  keeps staysUnrejected (Service.closeSettled call afterSave ok).
Proof.
  assert (Hr : keeps staysUnrejected (Service.resolve call)).
  { apply keeps_modify. intros s H. unfold neverRejected in *. simpl.
    apply Forall_update_nth; auto.
    intros c Hc. simpl. destruct (promise c); congruence. }
  assert (Hm : keeps staysUnrejected (Service.markClosed call)).
  { apply keeps_modify. intros s H. unfold neverRejected in *. simpl.
    apply Forall_update_nth; auto. }
  unfold Service.closeSettled. frame.
Qed.

Lemma staysUnrejected__close : keeps staysUnrejected Service._close.
Proof. unfold Service._close, Backend.disconnect. frame. Qed.

Lemma staysUnrejected_emit e : keeps staysUnrejected (Service.emit e).
Proof.
  pose proof staysUnrejected__close. pose proof staysUnrejected_closeSettled.
  unfold Service.emit, Service.close_onSave. frame.
  apply staysUnrejected_same_calls. reflexivity.
Qed.

Lemma staysUnrejected_close_onTimeout call :
  keeps staysUnrejected (Service.close_onTimeout call).
Proof.
  pose proof staysUnrejected__close. pose proof staysUnrejected_closeSettled.
  unfold Service.close_onTimeout. frame.
Qed.

Lemma staysUnrejected_close : keeps staysUnrejected Service.close.
Proof.
  unfold Service.close, Backend.disconnect, Service.save, Backend.save.
  frame.
  - intros H. unfold neverRejected in *. simpl.
    apply Forall_app. split; auto. constructor; auto. simpl. discriminate.
  - apply staysUnrejected_same_calls. reflexivity.
Qed.

(** On an open service, when no save event comes, the timer fires, the
    connection is asked to close, and whichever way that request settles
    the promise of [close] is resolved. *)
Lemma close_resolves_after_timeout s b c ok :
  backend s = Some b ->
  connection s = ConnObject c ->
  let call := List.length (closeCalls s) in
  let s1 := state_of (Service.close s) in
  let s2 := state_of (Service.close_onTimeout call s1) in
  let s3 := state_of (Service.closeSettled call false ok s2) in
  In CloseRequest (effects (Service.close_onTimeout call s1)) /\
  nth_error (closeCalls s3) call =
    Some {| closed := false; promise := Resolved |}.
Proof.
  intros Hb Hc call s1 s2 s3.
  destruct (close_run s Hb) as (_ & Hn & _ & _). fold call s1 in Hn.
  assert (Hb1 : exists b1, backend s1 = Some b1 /\ connection s1 = ConnObject c).
  { subst s1. unfold Service.close, Backend.disconnect, Service.save,
      Backend.save, bind, getBackend, update, modify, get, tell, ret.
    destruct s as [c0 ss st ids lp v sd bk ch sh cc]. simpl in *. subst bk c0.
    simpl. eauto. }
  destruct Hb1 as (b1 & Hb1 & Hc1).
  assert (E : Service.close_onTimeout call s1 =
              (Return tt, set_backend (Some (set_fetcher 0 b1)) s1,
               [ClearInterval (fetcher b1); RemoveVisibilityListener;
                CloseRequest])).
  { unfold Service.close_onTimeout, bind, get. rewrite Hn. simpl.
    unfold Service._close, Backend.disconnect, bind, getBackend, update,
      modify, get, tell, ret.
    rewrite Hc1, Hb1. simpl. rewrite Hb1. reflexivity. }
  split.
  - rewrite E. simpl. auto.
  - subst s3 s2. rewrite E. simpl.
    assert (Hu : forall (l : list CloseCall) n x f,
               nth_error l n = Some x ->
               nth_error (Service.update_nth n f l) n = Some (f x)).
    { induction l as [|a l IH]; intros [|n] x f H; simpl in *;
        try discriminate; auto. congruence. }
    destruct ok; simpl; erewrite Hu by exact Hn; reflexivity.
Qed.

(** ** Failed fetches *)

Lemma _handleError_network e s b :
  backend s = Some b ->
  Polling.networkFailure e = true ->
  Polling._handleError e s =
  (Return tt,
   set_backend (Some (set_fetchRetryCounter (fetchRetryCounter b + 1) b)) s,
   if fetchRetryCounter b >=? MAX_RETRY_FETCH_COUNT
   then [LogError "[PollingBackend:fetchSteps] Network error when fetching steps, emitting CONNECTION_FAILED";
         Emit (EvError CONNECTION_FAILED RetryFalse)]
   else [LogError
           (String.append
              "[PollingBackend:fetchSteps] Network error when fetching steps, retry "
              (numberToString (fetchRetryCounter b + 1)))]).
Proof.
  intros Hb Hn. unfold Polling._handleError. rewrite Hn.
  unfold bind, getBackend, update, modify, tell. rewrite Hb.
  destruct (fetchRetryCounter b >=? MAX_RETRY_FETCH_COUNT); simpl;
    rewrite Hb; reflexivity.
Qed.

Lemma failedFetch_run e now s b :
  backend s = Some b ->
  noResponseOrAborted e = true ->
  let r := Polling._fetchSteps_settle (inr e) now now now s in
  (exists b', backend (state_of r) = Some b' /\
              fetchRetryCounter b' = fetchRetryCounter b + 1) /\
  connectionFailed (effects r) =
    if fetchRetryCounter b >=? MAX_RETRY_FETCH_COUNT then 1%nat else 0%nat.
Proof.
  intros Hb Hn r. subst r.
  unfold Polling._fetchSteps_settle, try_finally, try_catch, throw.
  rewrite (@_handleError_network (Rejection e) s b Hb Hn).
  unfold bind, update, modify, effects, state_of. simpl.
  split.
  - eexists. split; reflexivity.
  - destruct (fetchRetryCounter b >=? MAX_RETRY_FETCH_COUNT); reflexivity.
Qed.

Lemma failedFetches_count run : forall s b k t,
  backend s = Some b ->
  0 <= fetchRetryCounter b ->
  Forall (fun f => noResponseOrAborted (fst f) = true) run ->
  nth_error (failedFetches run s) k = Some t ->
  connectionFailed t =
    if fetchRetryCounter b + Z.of_nat k >=? MAX_RETRY_FETCH_COUNT
    then 1%nat else 0%nat.
Proof.
  induction run as [|[e now] rest IH]; intros s b k t Hb Hc Hall Hk.
  - destruct k; discriminate.
  - inversion Hall as [|x l Hn Hrest]; subst. simpl in Hn.
    destruct (@failedFetch_run e now s b Hb Hn) as ((b' & Hb' & Hc') & Hcount).
    destruct k as [|k]; simpl in Hk.
    + inversion Hk; subst t. rewrite Hcount, Z.add_0_r. reflexivity.
    + rewrite (IH _ b' k t Hb') by (auto; lia).
      rewrite Hc'. replace (fetchRetryCounter b + 1 + Z.of_nat k)
        with (fetchRetryCounter b + Z.of_nat (S k)) by lia.
      reflexivity.
Qed.

(** C5. In a run of fetches that fail without a response, or aborted,
    starting with the retry counter at 0 (where the constructor and every
    handled response put it): none of the first 5 emits CONNECTION_FAILED,
    and the 6th emits it exactly once. *)
Theorem sixth_failed_fetch_emits_connection_failed :
  forall (run : list (RequestError * Z)) (s : SyncService)
         (b : PollingBackend) (k : nat) (t : list Effect),
    backend s = Some b ->
    fetchRetryCounter b = 0 ->
    Forall (fun f => noResponseOrAborted (fst f) = true) run ->
    nth_error (failedFetches run s) k = Some t ->
    ((k < 5)%nat -> connectionFailed t = 0%nat) /\
    (k = 5%nat -> connectionFailed t = 1%nat).
Proof.
  intros run s b k t Hb Hc Hall Hk.
  rewrite (@failedFetches_count run s b k t Hb) by (auto; lia).
  rewrite Hc. unfold MAX_RETRY_FETCH_COUNT. split; intros H.
  - destruct (Z.geb_spec (0 + Z.of_nat k) 5); [lia | reflexivity].
  - subst k. reflexivity.
Qed.

Lemma sixth_failed_fetch_emits_connection_failed_witness :
  let run := repeat (Sample.timedOut, 100) 6 in
  let t := [LogError "[PollingBackend:fetchSteps] Network error when fetching steps, emitting CONNECTION_FAILED";
            Emit (EvError CONNECTION_FAILED RetryFalse)] in
  nth_error (failedFetches run (Sample.opened 0 0)) 5 = Some t /\
  connectionFailed t = 1%nat.
Proof.
  intros run t. split; [reflexivity|].
  apply (proj2 (@sixth_failed_fetch_emits_connection_failed run
                  (Sample.opened 0 0) (Backend.new (Sample.conn 0) 0) 5 t
                  eq_refl eq_refl
                  ltac:(repeat constructor) eq_refl)).
  reflexivity.
Defined.

(** ** The fetch cadence *)

Lemma post_ret {A} (a : A) s (Q : A -> SyncService -> Prop) :
  Q a s -> post (ret a) s Q.
Proof. auto. Qed.

Lemma post_bind {A B} (m : M A) (k : A -> M B) s Q :
  post m s (fun a s' => post (k a) s' Q) -> post (bind m k) s Q.
Proof.
  unfold post, bind. destruct (m s) as [[[a|e] s1] t1]; auto.
  destruct (k a s1) as [[[b|e] s2] t2]; auto.
Qed.

Lemma post_weaken {A} (m : M A) s (Q Q' : A -> SyncService -> Prop) :
  post m s Q -> (forall a s', Q a s' -> Q' a s') -> post m s Q'.
Proof.
  unfold post. destruct (m s) as [[[a|e] s1] t1]; auto.
Qed.

Lemma post_get s (Q : SyncService -> SyncService -> Prop) :
  Q s s -> post get s Q.
Proof. auto. Qed.

Lemma post_tell e s (Q : unit -> SyncService -> Prop) :
  Q tt s -> post (tell e) s Q.
Proof. auto. Qed.

Lemma post_modify f s (Q : unit -> SyncService -> Prop) :
  Q tt (f s) -> post (modify f) s Q.
Proof. auto. Qed.

Lemma post_when (b : bool) m s (Q : unit -> SyncService -> Prop) :
  (b = true -> post m s Q) -> (b = false -> Q tt s) -> post (when b m) s Q.
Proof.
  destruct b; simpl; intros H1 H2; [apply H1 | apply post_ret, H2]; reflexivity.
Qed.

Lemma post_forEach {A} (f : A -> M unit) (I : SyncService -> Prop) l :
  (forall a s, I s -> post (f a) s (fun _ => I)) ->
  forall s, I s -> post (forEach f l) s (fun _ => I).
Proof.
  intros Hf. induction l as [|a l IH]; intros s Hs; simpl.
  - apply post_ret. assumption.
  - apply post_bind. eapply post_weaken; [apply Hf; assumption|].
    intros ? s' Hs'. apply IH. assumption.
Qed.

Lemma post_run {A} (m : M A) s Q :
  post m s Q -> exists a, outcome (m s) = Return a /\ Q a (state_of (m s)).
Proof.
  unfold post, outcome, state_of.
  destruct (m s) as [[[a|e] s1] t1]; simpl; [eauto | tauto].
Qed.

Section Opened.

Variables (c : Connection) (last interval : Z).

Lemma opened_same s s' :
  connection s' = connection s -> lastStepPush s' = lastStepPush s ->
  backend s' = backend s ->
  opened c last interval s -> opened c last interval s'.
Proof. unfold opened. intros -> -> ->. auto. Qed.

Lemma opened_update f s :
  (forall b, fetchInterval (f b) = fetchInterval b) ->
  opened c last interval s ->
  post (update f) s (fun _ => opened c last interval).
Proof.
  intros Hf (Hc & Hl & b & Hb & Hi). apply post_modify.
  rewrite Hb. repeat split; auto. exists (f b). split; [reflexivity|].
  rewrite Hf. assumption.
Qed.

Lemma opened_getBackend s :
  opened c last interval s ->
  post getBackend s
    (fun b s' => opened c last interval s' /\ fetchInterval b = interval).
Proof.
  intros H. pose proof H as (Hc & Hl & b & Hb & Hi).
  unfold post, getBackend. rewrite Hb. auto.
Qed.

Lemma opened_disconnect s :
  opened c last interval s ->
  post Backend.disconnect s (fun _ => opened c last interval).
Proof.
  intros H. unfold Backend.disconnect.
  apply post_bind. eapply post_weaken; [apply opened_getBackend, H|].
  intros b s1 [H1 _]. apply post_bind, post_tell, post_bind.
  eapply post_weaken; [apply opened_update; [reflexivity | exact H1]|].
  intros ? s2 H2. apply post_tell. exact H2.
Qed.

(** With a connection to close, the handler of save returns: it sends
    the request and waits for it. *)
Lemma opened_close_onSave call s :
  opened c last interval s ->
  post (Service.close_onSave call) s (fun _ => opened c last interval).
Proof.
  intros H. unfold Service.close_onSave, Service._close.
  apply post_bind, post_bind, post_get.
  destruct H as (Hc & H'). rewrite Hc.
  apply post_bind.
  eapply post_weaken; [apply opened_disconnect; split; eauto|].
  intros ? s1 H1. apply post_bind, post_tell, post_ret, post_ret. exact H1.
Qed.

Lemma opened_emit e s :
  opened c last interval s ->
  post (Service.emit e) s (fun _ => opened c last interval).
Proof.
  intros H. unfold Service.emit. apply post_bind, post_tell.
  destruct e; try (apply post_ret; exact H).
  - apply post_bind, post_get, post_when; auto;
      intros _; apply post_modify;
      revert H; apply opened_same; reflexivity.
  - apply post_bind, post_get.
    apply post_forEach; auto. intros. apply opened_close_onSave. assumption.
Qed.

Lemma opened_checkIdle now s :
  opened c last interval s ->
  now - last <= SyncServiceConst.IDLE_TIMEOUT * 60 * 1000 ->
  post (Service.checkIdle now) s
    (fun idle s' => idle = false /\ opened c last interval s').
Proof.
  intros H Hle. unfold Service.checkIdle.
  apply post_bind, post_get.
  pose proof H as (_ & Hl & _). rewrite Hl.
  destruct (Service.Qgt_bool _ _) eqn:E.
  - apply idle_test_in_milliseconds in E. lia.
  - apply post_ret. auto.
Qed.

End Opened.

Lemma aliveCount_alive now sessions :
  List.length (Polling.alive (now - COLLABORATOR_DISCONNECT_TIME) sessions) =
  aliveCount now sessions.
Proof.
  unfold aliveCount, Polling.alive. f_equal. apply filter_ext.
  intros x. apply Z.gtb_ltb.
Qed.

Ltac step tac :=
  cbv beta; apply post_bind; eapply post_weaken;
  [tac | intros ? ? ?; cbv beta in *].

Lemma opened__handleResponse_empty c last interval data now1 now2 s :
  opened c last interval s ->
  data_steps data = [] ->
  now1 - last <= 1440 * 60 * 1000 ->
  post (Polling._handleResponse data now1 now2) s
    (fun _ => opened c last (cadenceAfter interval now2 (data_sessions data))).
Proof.
  intros H E Hidle. unfold Polling._handleResponse. rewrite E. cbv zeta.
  step ltac:(apply opened_update; [reflexivity | exact H]).
  apply post_bind, post_get.
  step ltac:(apply post_when with (Q := fun _ => opened c last interval);
             [intros _ | intros _; eassumption]).
  { apply post_bind, post_tell.
    step ltac:(apply opened_update; [reflexivity | eassumption]).
    apply opened_emit. assumption. }
  step ltac:(apply opened_emit; eassumption).
  step ltac:(apply opened_getBackend; eassumption).
  match goal with H : _ /\ _ |- _ => destruct H as [Ho _] end.
  step ltac:(apply post_when with (Q := fun _ => opened c last interval);
             [intros _ | intros _; eassumption]).
  { step ltac:(apply opened_update; [reflexivity | eassumption]).
    apply opened_update; [reflexivity | assumption]. }
  step ltac:(apply opened_checkIdle; [eassumption | exact Hidle]).
  match goal with H : _ /\ _ |- _ => destruct H as [-> Hc] end.
  rewrite aliveCount_alive. unfold cadenceAfter.
  assert (Hset : forall i st,
             opened c last interval st ->
             post (update (set_fetchInterval i)) st (fun _ => opened c last i)).
  { intros i st (Hc' & Hl & b & Hb & Hi). apply post_modify. rewrite Hb.
    repeat split; auto. eexists. split; reflexivity. }
  assert (Hinc : forall st,
             opened c last interval st ->
             post Backend.increaseRefetchTimer st
               (fun _ => opened c last (Z.min (interval * 2) 5000))).
  { intros st (Hc' & Hl & b & Hb & Hi). apply post_modify. rewrite Hb.
    repeat split; auto. eexists. split; [reflexivity|].
    simpl. rewrite Hi. reflexivity. }
  destruct (aliveCount now2 (data_sessions data) <? 2)%nat.
  - step ltac:(apply Hset; eassumption).
    step ltac:(apply opened_emit; eassumption).
    apply opened_emit. assumption.
  - step ltac:(apply Hinc; eassumption).
    step ltac:(apply opened_emit; eassumption).
    apply opened_emit. assumption.
Qed.

Lemma min_scaled_capped a p :
  1 <= p -> Z.min (Z.min a 5000 * p) 5000 = Z.min (a * p) 5000.
Proof.
  intros Hp. destruct (Z.le_gt_cases a 5000).
  - rewrite (Z.min_l a) by lia. reflexivity.
  - rewrite (Z.min_r a) by lia. rewrite !Z.min_r by nia. reflexivity.
Qed.

Lemma opened_quiet_rounds c last rounds : forall interval s,
  opened c last interval s ->
  Forall (quietRound last) rounds ->
  post (handleResponses rounds) s
    (fun _ => opened c last
                (match rounds with
                 | [] => interval
                 | _ :: _ =>
                     Z.min (interval * 2 ^ Z.of_nat (List.length rounds)) 5000
                 end)).
Proof.
  unfold handleResponses.
  induction rounds as [|[[data now1] now2] rest IH]; intros interval s H Hall.
  - apply post_ret. exact H.
  - inversion Hall as [|x l Hq Hrest]; subst.
    simpl in Hq. destruct Hq as (E & Hidle & Halive).
    simpl forEach.
    step ltac:(apply opened__handleResponse_empty; eassumption).
    eapply post_weaken; [apply IH; eassumption|].
    intros ? st H'. simpl in H'. unfold cadenceAfter in H'.
    destruct (Nat.ltb_spec (aliveCount now2 (data_sessions data)) 2); [lia|].
    replace (Z.of_nat (List.length ((data, now1, now2) :: rest)))
      with (Z.of_nat (List.length rest) + 1) by (simpl List.length; lia).
    rewrite Z.pow_add_r, Z.pow_1_r by lia.
    destruct rest as [|r rest'].
    + simpl. exact H'.
    + assert (Hp : 0 < 2 ^ Z.of_nat (List.length (r :: rest')))
        by (apply Z.pow_pos_nonneg; lia).
      rewrite min_scaled_capped in H' by lia.
      replace (interval * (2 ^ Z.of_nat (List.length (r :: rest')) * 2))
        with (interval * 2 * 2 ^ Z.of_nat (List.length (r :: rest'))) by ring.
      exact H'.
Qed.

(** C6. A response without steps, handled by an open service that is not
    idle, sets the cadence from the number of sessions whose last contact
    is less than 90000 ms (1.5 times the invisible interval) old: to
    5000 ms when fewer than 2 are alive, and otherwise to twice the cadence
    it had, capped at 5000 ms.  Hence after any number n > 0 of such
    responses in a row with 2 or more alive, the cadence is its starting
    value times 2^n, capped at 5000 ms. *)
Theorem empty_response_sets_cadence :
  forall (data : SyncData) (now1 now2 : Z) (s : SyncService)
         (b : PollingBackend) (c : Connection),
    backend s = Some b ->
    connection s = ConnObject c ->
    data_steps data = [] ->
    now1 - lastStepPush s <= 1440 * 60 * 1000 ->
    let run := Polling._handleResponse data now1 now2 s in
    let n := aliveCount now2 (data_sessions data) in
    COLLABORATOR_DISCONNECT_TIME = 90000 /\
    outcome run = Return tt /\
    (exists b',
        backend (state_of run) = Some b' /\
        ((n < 2)%nat -> fetchInterval b' = 5000) /\
        ((2 <= n)%nat -> fetchInterval b' = Z.min (fetchInterval b * 2) 5000)) /\
    (forall rounds,
        rounds <> [] ->
        Forall (quietRound (lastStepPush s)) rounds ->
        exists b',
          backend (state_of (handleResponses rounds s)) = Some b' /\
          fetchInterval b' =
            Z.min (fetchInterval b * 2 ^ Z.of_nat (List.length rounds)) 5000).
Proof.
  intros data now1 now2 s b c Hb Hc E Hidle run n.
  assert (Ho : opened c (lastStepPush s) (fetchInterval b) s)
    by (repeat split; eauto).
  split; [reflexivity|].
  pose proof (@opened__handleResponse_empty c _ _ data now1 now2 s
                Ho E Hidle) as Hp.
  apply post_run in Hp. destruct Hp as ([] & Hout & _ & _ & b' & Hb' & Hi).
  split; [exact Hout|]. split.
  - exists b'. split; [exact Hb'|]. rewrite Hi. unfold cadenceAfter. fold n.
    split; intros Hn.
    + apply Nat.ltb_lt in Hn. rewrite Hn. reflexivity.
    + destruct (Nat.ltb_spec n 2); [lia | reflexivity].
  - intros rounds Hne Hall.
    pose proof (@opened_quiet_rounds c _ rounds _ s Ho Hall) as Hp.
    apply post_run in Hp. destruct Hp as (? & _ & _ & _ & b2 & Hb2 & Hi2).
    exists b2. split; [exact Hb2|].
    destruct rounds; [congruence | exact Hi2].
Qed.

Lemma empty_response_sets_cadence_witness :
  let two := [{| lastContact := 1 |}; {| lastContact := 1 |}] in
  exists b',
    backend (state_of (Polling._handleResponse (Sample.emptyData 0 two)
                         1000 1000 (Sample.opened 0 0))) = Some b' /\
    fetchInterval b' = 600.
Proof.
  intros two.
  destruct (@empty_response_sets_cadence (Sample.emptyData 0 two) 1000 1000
              (Sample.opened 0 0) (Backend.new (Sample.conn 0) 0)
              (Sample.conn 0) eq_refl eq_refl eq_refl
              ltac:(vm_compute; discriminate))
    as (_ & _ & (b' & Hb' & _ & Hi) & _).
  exists b'. split; [exact Hb'|].
  rewrite Hi by (vm_compute; lia). reflexivity.
Defined.

(** ** Where the retry counter starts *)

Lemma same_retries_refl s : same_retries s s.
Proof. intros b Hb. eauto. Qed.

Lemma same_retries_trans s1 s2 s3 :
  same_retries s1 s2 -> same_retries s2 s3 -> same_retries s1 s3.
Proof.
  intros H12 H23 b Hb.
  destruct (H12 b Hb) as (b2 & Hb2 & E2).
  destruct (H23 b2 Hb2) as (b3 & Hb3 & E3).
  exists b3. split; [assumption | congruence].
Qed.

Lemma same_retries_backend s s' : backend s' = backend s -> same_retries s s'.
Proof. intros E b Hb. rewrite E. eauto. Qed.

Lemma same_retries_update f :
  (forall b, fetchRetryCounter (f b) = fetchRetryCounter b) ->
  keeps same_retries (update f).
Proof.
  intros Hf. apply keeps_modify. intros s b Hb. rewrite Hb. simpl. eauto.
Qed.

#[local] Hint Resolve same_retries_refl same_retries_trans
  same_retries_backend same_retries_update : frame.

Lemma same_retries_emit e : keeps same_retries (Service.emit e).
Proof.
  unfold Service.emit, Service.close_onSave, Service._close,
    Service.closeSettled, Service.markClosed, Service.resolve,
    Backend.disconnect.
  frame.
Qed.

Lemma same_retries__receiveSteps bs now :
  keeps same_retries (Service._receiveSteps bs now).
Proof.
  intros s. rewrite _receiveSteps_state. apply same_retries_backend.
  reflexivity.
Qed.

(** The backend starts with the retry counter at 0, and handling a
    response puts it back to 0, whatever the response carries and whether
    or not the handling runs to its end. *)
Lemma retry_counter_starts_at_zero :
  (forall c now, fetchRetryCounter (Backend.new c now) = 0) /\
  (forall data now1 now2 s b,
      backend s = Some b ->
      exists b', backend (state_of (Polling._handleResponse data now1 now2 s))
                 = Some b' /\ fetchRetryCounter b' = 0).
Proof.
  split; [reflexivity|].
  intros data now1 now2 s b Hb.
  pose proof same_retries_emit. pose proof same_retries__receiveSteps.
  assert (Hrest : forall k : unit -> M unit,
             keeps same_retries (k tt) ->
             exists b', backend (state_of
                          (bind (update (set_fetchRetryCounter 0)) k s))
                        = Some b' /\ fetchRetryCounter b' = 0).
  { intros k Hk.
    specialize (Hk (set_backend (Some (set_fetchRetryCounter 0 b)) s)
                   (set_fetchRetryCounter 0 b) eq_refl).
    unfold bind, update, modify, state_of in *. rewrite Hb.
    destruct (k tt _) as [[r s2] t2]. exact Hk. }
  unfold Polling._handleResponse. cbv zeta. apply Hrest.
  unfold Service.checkIdle, Backend.maximumRefetchTimer,
    Backend.increaseRefetchTimer, Backend.resetRefetchTimer.
  frame.
Qed.

(** * Further properties *)

(** ** What changes the step log and the version counter *)

Lemma keeps_weaken (R1 R2 : SyncService -> SyncService -> Prop) {A} (m : M A) :
  (forall s s', R1 s s' -> R2 s s') -> keeps R1 m -> keeps R2 m.
Proof. intros H Hm s. apply H, Hm. Qed.

Lemma untouched_refl s : untouched s s.
Proof. repeat split. Qed.

Lemma untouched_trans s1 s2 s3 :
  untouched s1 s2 -> untouched s2 s3 -> untouched s1 s3.
Proof.
  unfold untouched. intros (A1 & A2 & A3) (B1 & B2 & B3).
  repeat split; congruence.
Qed.

Lemma untouched_fields s s' :
  steps s' = steps s -> stepClientIDs s' = stepClientIDs s ->
  version s' = version s -> untouched s s'.
Proof. unfold untouched. auto. Qed.

Lemma same_log_untouched s s' : same_log s s' -> untouched s s'.
Proof. intros (_ & A & B & _ & C & _). repeat split; assumption. Qed.

Lemma untouched_of_same_log {A} (m : M A) :
  keeps same_log m -> keeps untouched m.
Proof. apply keeps_weaken. exact same_log_untouched. Qed.

Lemma untouched_update f : keeps untouched (update f).
Proof. apply untouched_of_same_log, same_log_update. Qed.

#[local] Hint Resolve untouched_refl untouched_trans untouched_fields
  untouched_update : frame.

Lemma untouched_emit e : keeps untouched (Service.emit e).
Proof. apply untouched_of_same_log, same_log_emit. Qed.

Lemma untouched__handleError e : keeps untouched (Polling._handleError e).
Proof. apply untouched_of_same_log, same_log__handleError. Qed.

(** Every call but [open] and a fetch that brings steps leaves the step
    log, the client log and the version counter as they are. *)
Lemma untouched_perform c :
  isOpen c = false -> bringsSteps c = false -> keeps untouched (perform c).
Proof.
  pose proof untouched_emit. pose proof untouched__handleError.
  destruct c as [arg now|timer|sendable|[error|]|now| |timer| |call
                |call afterSave ok|now|[data|error] now1 now2 now3|hidden];
    simpl; intros Ho Hb; try discriminate.
  - unfold Service.startSync, Backend.connect. frame.
  - unfold ignore, Service.sendSteps. frame.
  - unfold Service.sendSteps_catch. frame.
  - unfold Service.sendSteps_then. frame.
  - unfold ignore, Service.checkIdle. frame.
  - unfold Service.save, Backend.save. frame.
  - unfold Service.forceSave, Backend.connect, Backend.forceSave. frame.
  - unfold ignore, Service.close, Backend.disconnect, Service.save,
      Backend.save. frame.
  - unfold Service.close_onTimeout, Service._close, Backend.disconnect,
      Service.closeSettled, Service.markClosed, Service.resolve. frame.
  - unfold Service.closeSettled, Service.markClosed, Service.resolve. frame.
  - unfold ignore, Polling._fetchSteps_begin. frame.
  - apply untouched_of_same_log, same_log__fetchSteps_settle_empty.
    destruct (data_steps data); [reflexivity | discriminate].
  - unfold Polling._fetchSteps_settle. frame.
  - unfold Backend.visibilitychange, Backend.resetRefetchTimer. frame.
Qed.

Section Growing.

Variable R : SyncService -> SyncService -> Prop.
Hypothesis R_refl : forall s, R s s.
Hypothesis R_trans : forall s1 s2 s3, R s1 s2 -> R s2 s3 -> R s1 s3.
Hypothesis R_untouched : forall s s', untouched s s' -> R s s'.
Hypothesis R_receiveSteps :
  forall bs now, keeps R (Service._receiveSteps bs now).

(** What holds of untouched logs and of [_receiveSteps] holds of every
    call but [open]. *)
Lemma growing_perform c : isOpen c = false -> keeps R (perform c).
Proof.
  intros Ho. destruct (bringsSteps c) eqn:Hb.
  - destruct c as [| | | | | | | | | | |[data|error] now1 now2 now3|];
      try discriminate.
    pose proof (fun e => @keeps_weaken untouched R _ _ R_untouched
                            (untouched_emit e)).
    pose proof (fun e => @keeps_weaken untouched R _ _ R_untouched
                            (untouched__handleError e)).
    pose proof (fun f => @keeps_weaken untouched R _ _ R_untouched
                            (untouched_update f)).
    simpl. unfold Polling._fetchSteps_settle, Polling._handleResponse,
      Service.checkIdle, Backend.maximumRefetchTimer,
      Backend.increaseRefetchTimer, Backend.resetRefetchTimer.
    cbv zeta.
    repeat match goal with
    | |- forall _, _ => intro
    | |- keeps _ (bind _ _) => apply keeps_bind; [exact R_trans| |]
    | |- keeps _ (when _ _) => apply keeps_when; [exact R_refl|]
    | |- keeps _ (try_catch _ _) => apply keeps_try_catch; [exact R_trans| |]
    | |- keeps _ (try_finally _ _) => apply keeps_try_finally; [exact R_trans| |]
    | |- keeps _ (if ?b then _ else _) => destruct b
    | |- keeps _ (match ?x with _ => _ end) => destruct x
    | |- keeps _ (ret _) => apply keeps_ret; exact R_refl
    | |- keeps _ get => apply keeps_get; exact R_refl
    | |- keeps _ getBackend => apply keeps_getBackend; exact R_refl
    | |- keeps _ (tell _) => apply keeps_tell; exact R_refl
    | |- keeps _ _ => solve [auto]
    end.
  - apply keeps_weaken with (R1 := untouched); [exact R_untouched|].
    apply untouched_perform; assumption.
Qed.

Lemma growing_runCalls calls : forall s,
  existsb isOpen calls = false -> R s (runCalls calls s).
Proof.
  induction calls as [|c rest IH]; intros s H; simpl in *.
  - apply R_refl.
  - apply orb_false_iff in H. destruct H as [Hc Hrest].
    eapply R_trans; [apply growing_perform; exact Hc|].
    apply IH. exact Hrest.
Qed.

End Growing.

Lemma extended_refl s : extended s s.
Proof. exists []. rewrite app_nil_r. reflexivity. Qed.

Lemma extended_trans s1 s2 s3 :
  extended s1 s2 -> extended s2 s3 -> extended s1 s3.
Proof.
  intros [l1 H1] [l2 H2]. exists (l1 ++ l2).
  rewrite H2, H1, app_assoc. reflexivity.
Qed.

Lemma extended_untouched s s' : untouched s s' -> extended s s'.
Proof.
  intros (H & _). exists []. rewrite app_nil_r. exact H.
Qed.

Lemma extended__receiveSteps bs now :
  keeps extended (Service._receiveSteps bs now).
Proof.
  intros s. rewrite _receiveSteps_state. eexists. reflexivity.
Qed.

Lemma extended_open arg now : keeps extended (Service.open arg now).
Proof.
  pose proof (fun e => @keeps_weaken untouched extended _ _ extended_untouched
                          (untouched_emit e)) as He.
  assert (Hf : forall f, (forall s, steps (f s) = steps s) ->
                         keeps extended (modify f)).
  { intros f Hf s. exists []. simpl. rewrite app_nil_r. apply Hf. }
  unfold Service.open, Service._emitError.
  repeat match goal with
  | |- forall _, _ => intro
  | |- keeps _ (bind _ _) =>
      apply keeps_bind; [exact extended_trans| |]
  | |- keeps _ (modify _) => apply Hf; reflexivity
  | |- keeps _ (match ?x with _ => _ end) => destruct x
  | |- keeps _ (if ?b then _ else _) => destruct b
  | |- keeps _ (ret _) => apply keeps_ret; exact extended_refl
  | |- keeps _ get => apply keeps_get; exact extended_refl
  | |- keeps _ (throw _) => apply keeps_throw; exact extended_refl
  | |- keeps _ _ => solve [auto]
  end.
Qed.

Lemma notLower_refl s : notLower s s.
Proof. unfold notLower. lia. Qed.

Lemma notLower_trans s1 s2 s3 :
  notLower s1 s2 -> notLower s2 s3 -> notLower s1 s3.
Proof. unfold notLower. lia. Qed.

Lemma notLower_untouched s s' : untouched s s' -> notLower s s'.
Proof. intros (_ & _ & H). unfold notLower. rewrite H. lia. Qed.

Lemma notLower__receiveSteps bs now :
  keeps notLower (Service._receiveSteps bs now).
Proof.
  intros s. unfold notLower. rewrite _receiveSteps_state. simpl.
  rewrite toNumber_fold_nextVersion. apply maxVersion_ge.
Qed.

(** X1. Only [open] and a fetch that settles with steps change the step
    log, the client log or the version counter.  In particular a push that
    succeeds does not advance the version counter: it moves when the
    pushed steps come back with a fetch. *)
Theorem only_open_and_received_steps_change_the_log :
  forall (c : Call) (s : SyncService),
    isOpen c = false ->
    bringsSteps c = false ->
    steps (state_of (perform c s)) = steps s /\
    stepClientIDs (state_of (perform c s)) = stepClientIDs s /\
    version (state_of (perform c s)) = version s.
Proof. intros c s Ho Hb. apply untouched_perform; assumption. Qed.

Lemma only_open_and_received_steps_change_the_log_witness :
  let s := state_of (Service.sendSteps ["stepX"] (Sample.opened 0 0)) in
  sending s = true /\
  version (state_of (perform (CallPushSettled None) s)) = Some 0.
Proof.
  intros s. split; [reflexivity|].
  exact (proj2 (proj2 (@only_open_and_received_steps_change_the_log
                         (CallPushSettled None) s eq_refl eq_refl))).
Defined.

(** X2. The step log is append-only: whatever is called, in whatever
    order, [open] included, the log afterwards is the log before with
    steps added at its end.  Nothing removes or replaces a step. *)
Theorem step_log_is_append_only :
  forall (calls : list Call) (s : SyncService),
    exists added, steps (runCalls calls s) = steps s ++ added.
Proof.
  induction calls as [|c rest IH]; intros s; simpl.
  - apply extended_refl.
  - apply extended_trans with (s2 := state_of (perform c s)); [|apply IH].
    destruct (isOpen c) eqn:Ho.
    + destruct c; try discriminate. apply extended_open.
    + apply (@growing_perform extended extended_refl extended_trans
               extended_untouched extended__receiveSteps c Ho).
Qed.

(** X3. Between two calls of [open] the version counter, as a number,
    never goes down, whatever else is called; [open] with a session sets
    it to the session's last saved version, whatever it was. *)
Theorem version_only_lowered_by_open :
  forall (calls : list Call) (s : SyncService),
    (existsb isOpen calls = false ->
     toNumber (version s) <= toNumber (version (runCalls calls s))) /\
    (forall conn now,
        version (state_of (Service.open (Service.ApiOpen (inl conn)) now s)) =
        Some (conn_lastSavedVersion conn)).
Proof.
  intros calls s. split.
  - intros H.
    apply (@growing_runCalls notLower notLower_refl notLower_trans
             notLower_untouched notLower__receiveSteps calls s H).
  - reflexivity.
Qed.

Lemma version_only_lowered_by_open_witness :
  let calls := [CallStartSync 7; CallSendSteps ["stepX"];
                CallFetchSettled
                  (inl {| data_document := Sample.doc 0; data_sessions := [];
                          data_steps := [Sample.bucket 3 "A" ["stepX"]] |})
                  10 10 10;
                CallFetchSettled (inr Sample.noResponse) 20 20 20;
                CallClose] in
  toNumber (version (Sample.opened 0 0)) <=
  toNumber (version (runCalls calls (Sample.opened 0 0))).
Proof.
  intros calls.
  exact (proj1 (@version_only_lowered_by_open calls (Sample.opened 0 0))
           eq_refl).
Defined.

(** ** What holds in every state a service can reach *)

Ltac unfold_calls :=
  unfold ignore, Service.open, Service._emitError, Service.startSync,
    Service.sendSteps, Service.sendSteps_then, Service.sendSteps_catch,
    Service.forceSave, Service.close, Service.close_onTimeout,
    Service._close, Service.closeSettled, Service.markClosed,
    Service.resolve, Service.save, Polling._fetchSteps_begin,
    Polling._fetchSteps_settle, Polling._handleResponse,
    Polling._handleError, Service.checkIdle, Backend.connect,
    Backend.forceSave, Backend.save, Backend.disconnect,
    Backend.visibilitychange, Backend.resetRefetchTimer,
    Backend.increaseRefetchTimer, Backend.maximumRefetchTimer;
  cbv zeta.

#[local] Hint Resolve staysUnrejected_same_calls : frame.

Lemma staysUnrejected__receiveSteps bs now :
  keeps staysUnrejected (Service._receiveSteps bs now).
Proof.
  intros s. apply staysUnrejected_same_calls.
  rewrite _receiveSteps_state. reflexivity.
Qed.

Lemma staysUnrejected_perform c : keeps staysUnrejected (perform c).
Proof.
  pose proof staysUnrejected_emit. pose proof staysUnrejected__receiveSteps.
  pose proof staysUnrejected_close. pose proof staysUnrejected_close_onTimeout.
  pose proof staysUnrejected_closeSettled.
  destruct c as [arg now|timer|sendable|[error|]|now| |timer| |call
                |call afterSave ok|now|result now1 now2 now3|hidden];
    simpl; try solve [unfold ignore; frame]; unfold_calls; frame.
Qed.

(** X4. No promise that [close] returned is ever rejected: from a new
    service, after any sequence of calls, every such promise is pending or
    resolved. *)
Theorem close_promises_are_never_rejected :
  forall (calls : list Call) (now : Z),
    Forall (fun c => promise c = Pending \/ promise c = Resolved)
      (closeCalls (runCalls calls (Service.new now))).
Proof.
  intros calls now.
  assert (H : forall s, neverRejected s -> neverRejected (runCalls calls s)).
  { induction calls as [|c rest IH]; intros s Hs; simpl; [exact Hs|].
    apply IH. apply (staysUnrejected_perform c). exact Hs. }
  specialize (H (Service.new now) (Forall_nil _)).
  unfold neverRejected in H. eapply Forall_impl; [|exact H].
  intros c Hc. simpl in Hc. destruct (promise c); auto. congruence.
Qed.

Lemma staysInRange_refl s : staysInRange s s.
Proof. unfold staysInRange. auto. Qed.

Lemma staysInRange_trans s1 s2 s3 :
  staysInRange s1 s2 -> staysInRange s2 s3 -> staysInRange s1 s3.
Proof. unfold staysInRange. auto. Qed.

Lemma staysInRange_same_backend s s' :
  backend s' = backend s -> staysInRange s s'.
Proof. unfold staysInRange, cadenceInRange. intros ->. auto. Qed.

Lemma staysInRange_update f :
  (forall b,
      FETCH_INTERVAL <= fetchInterval b <= FETCH_INTERVAL_INVISIBLE ->
      FETCH_INTERVAL <= fetchInterval (f b) <= FETCH_INTERVAL_INVISIBLE) ->
  keeps staysInRange (update f).
Proof.
  intros Hf. apply keeps_modify. intros s Hs.
  destruct (backend s) as [b|] eqn:Hb.
  - intros b' Hb'. simpl in Hb'. injection Hb' as <-. apply Hf, Hs, Hb.
  - exact Hs.
Qed.

#[local] Hint Resolve staysInRange_refl staysInRange_trans
  staysInRange_same_backend : frame.

Ltac range_finish :=
  match goal with
  | |- keeps staysInRange (update _) =>
      apply staysInRange_update; intros ? ?; simpl;
      unfold FETCH_INTERVAL, FETCH_INTERVAL_MAX, FETCH_INTERVAL_SINGLE_EDITOR,
        FETCH_INTERVAL_INVISIBLE in *; lia
  | |- staysInRange _ _ =>
      let H := fresh in
      unfold staysInRange, cadenceInRange; intros _ ? H; simpl in H;
      injection H as <-; simpl;
      unfold FETCH_INTERVAL, FETCH_INTERVAL_INVISIBLE; lia
  end.

Lemma staysInRange_emit e : keeps staysInRange (Service.emit e).
Proof.
  unfold Service.emit, Service.close_onSave. unfold_calls.
  frame; range_finish.
Qed.

Lemma staysInRange__receiveSteps bs now :
  keeps staysInRange (Service._receiveSteps bs now).
Proof.
  intros s. apply staysInRange_same_backend.
  rewrite _receiveSteps_state. reflexivity.
Qed.

Lemma staysInRange_perform c : keeps staysInRange (perform c).
Proof.
  pose proof staysInRange_emit. pose proof staysInRange__receiveSteps.
  destruct c as [arg now|timer|sendable|[error|]|now| |timer| |call
                |call afterSave ok|now|result now1 now2 now3|hidden];
    simpl; unfold_calls; frame; range_finish.
Qed.

(** X5. The cadence of the backend stays between the base interval of
    300 ms and the 60000 ms of a hidden window, whatever is called, and so
    stays below the time after which a collaborator counts as disconnected
    (the source asks for that next to [COLLABORATOR_DISCONNECT_TIME]). *)
Theorem cadence_stays_in_range :
  forall (calls : list Call) (now : Z) (b : PollingBackend),
    backend (runCalls calls (Service.new now)) = Some b ->
    300 <= fetchInterval b <= 60000 /\
    fetchInterval b < COLLABORATOR_DISCONNECT_TIME.
Proof.
  intros calls now b Hb.
  assert (H : forall s, cadenceInRange s -> cadenceInRange (runCalls calls s)).
  { clear. induction calls as [|c rest IH]; intros s Hs; simpl; [exact Hs|].
    apply IH. apply (staysInRange_perform c). exact Hs. }
  assert (H0 : cadenceInRange (Service.new now))
    by (intros b0 Hb0; discriminate).
  specialize (H _ H0 b Hb).
  unfold FETCH_INTERVAL, FETCH_INTERVAL_INVISIBLE in H.
  split; [exact H|]. change COLLABORATOR_DISCONNECT_TIME with 90000. lia.
Qed.

Lemma cadence_stays_in_range_witness :
  let calls := [CallOpen (Service.InitialSession (Sample.conn 0)) 0;
                CallStartSync 7; CallVisibilityChange true;
                CallFetchSettled (inr (Sample.failed 503 None)) 10 10 10] in
  exists b, backend (runCalls calls (Service.new 0)) = Some b /\
            fetchInterval b = 5000 /\
            fetchInterval b < COLLABORATOR_DISCONNECT_TIME.
Proof.
  intros calls. eexists. split; [reflexivity|]. split; [reflexivity|].
  exact (proj2 (@cadence_stays_in_range calls 0 _ eq_refl)).
Defined.

(** ** One push in flight *)

Lemma emit_plain e s :
  match e with
  | EvChange _ _ | EvSave _ _ => True
  | _ => Service.emit e s = (Return tt, s, [Emit e])
  end.
Proof. destruct e; auto. Qed.

Lemma sendSteps_blocked sendable s :
  negb (Service.hasConnection s) || sending s = true ->
  Service.sendSteps sendable s =
  (Return Service.Rescheduled, s,
   [Emit (EvStateChangeDirty true); RetrySendStepsIn 200]).
Proof.
  intros H. unfold Service.sendSteps, bind, get. simpl.
  rewrite H. reflexivity.
Qed.

Lemma sendSteps_free sendable s :
  negb (Service.hasConnection s) || sending s = false ->
  Service.sendSteps sendable s =
  (Return Service.Pushing, set_sending true s,
   [Emit (EvStateChangeDirty true); PushRequest sendable]).
Proof.
  intros H. unfold Service.sendSteps, bind, get. simpl.
  rewrite H. reflexivity.
Qed.

Lemma bind_run {A B} (m : M A) (k : A -> M B) s a s1 t1 :
  m s = (Return a, s1, t1) ->
  bind m k s = (outcome (k a s1), state_of (k a s1), t1 ++ effects (k a s1)).
Proof.
  intros H. unfold bind, outcome, state_of, effects. rewrite H.
  destruct (k a s1) as [[r s2] t2]. reflexivity.
Qed.

Arguments bind_run {A B m} k {s a s1 t1} _.

Lemma bind_throws {A B} (m : M A) (k : A -> M B) s e s1 t1 :
  m s = (Throw e, s1, t1) -> bind m k s = (Throw e, s1, t1).
Proof. intros H. unfold bind. rewrite H. reflexivity. Qed.

Arguments bind_throws {A B m} k {s e s1 t1} _.

Lemma ignore_run {A} (m : M A) s a s1 t1 :
  m s = (Return a, s1, t1) -> ignore m s = (Return tt, s1, t1).
Proof.
  intros H. unfold ignore. rewrite (bind_run _ H). simpl.
  rewrite app_nil_r. reflexivity.
Qed.

Arguments ignore_run {A m s a s1 t1} _.

Lemma sendAll_blocked payloads : forall s,
  negb (Service.hasConnection s) || sending s = true ->
  state_of (sendAll payloads s) = s /\
  filter isPushRequest (effects (sendAll payloads s)) = [] /\
  events (effects (sendAll payloads s)) =
    repeat (EvStateChangeDirty true) (List.length payloads).
Proof.
  unfold sendAll.
  induction payloads as [|p rest IH]; intros s H; simpl; [auto|].
  rewrite (bind_run _ (ignore_run (sendSteps_blocked p s H))).
  destruct (IH s H) as (Hs & Ht & He). simpl.
  rewrite Ht, He. auto.
Qed.

Lemma sendAll_blocked_effects payloads : forall s,
  negb (Service.hasConnection s) || sending s = true ->
  effects (sendAll payloads s) = flat_map (fun _ => putOff) payloads.
Proof.
  unfold sendAll.
  induction payloads as [|p rest IH]; intros s H; simpl; [reflexivity|].
  rewrite (bind_run _ (ignore_run (sendSteps_blocked p s H))).
  cbn [effects snd]. rewrite (IH s H). reflexivity.
Qed.

(** X6. However often [sendSteps] is called before a push settles, at most
    one push request is sent: the first call on a service that holds a
    connection and has no push in flight sends its payload, and every
    other call puts itself off by 200 ms and sends nothing.  Each call
    emits stateChange with dirty set. *)
Theorem one_push_in_flight :
  forall (payloads : list (list Step)) (s : SyncService),
    let t := effects (sendAll payloads s) in
    (count isPushRequest t <= 1)%nat /\
    (sending s = true -> count isPushRequest t = 0%nat) /\
    (Service.hasConnection s = false -> count isPushRequest t = 0%nat) /\
    (forall p rest,
        payloads = p :: rest ->
        Service.hasConnection s = true -> sending s = false ->
        filter isPushRequest t = [PushRequest p] /\
        sending (state_of (sendAll payloads s)) = true) /\
    events t = repeat (EvStateChangeDirty true) (List.length payloads) /\
    (sending s = true \/ Service.hasConnection s = false ->
     t = flat_map (fun _ => putOff) payloads) /\
    (forall p rest,
        payloads = p :: rest ->
        Service.hasConnection s = true -> sending s = false ->
        t = [Emit (EvStateChangeDirty true); PushRequest p] ++
            flat_map (fun _ => putOff) rest).
Proof.
  intros payloads s t.
  assert (Hoff : sending s = true \/ Service.hasConnection s = false ->
                 t = flat_map (fun _ => putOff) payloads).
  { intros H. subst t. apply sendAll_blocked_effects.
    destruct H as [H|H]; rewrite H; [apply orb_true_r | reflexivity]. }
  assert (Hsent : forall p rest,
             payloads = p :: rest ->
             Service.hasConnection s = true -> sending s = false ->
             t = [Emit (EvStateChangeDirty true); PushRequest p] ++
                 flat_map (fun _ => putOff) rest).
  { intros p rest -> Hc Hs. subst t. unfold sendAll. simpl forEach.
    assert (H : negb (Service.hasConnection s) || sending s = false)
      by (rewrite Hc, Hs; reflexivity).
    rewrite (bind_run _ (ignore_run (sendSteps_free p s H))).
    cbn [effects snd state_of fst].
    fold (sendAll rest (set_sending true s)).
    rewrite sendAll_blocked_effects by (simpl; apply orb_true_r).
    reflexivity. }
  cut ((count isPushRequest t <= 1)%nat /\
       (sending s = true -> count isPushRequest t = 0%nat) /\
       (Service.hasConnection s = false -> count isPushRequest t = 0%nat) /\
       (forall p rest,
           payloads = p :: rest ->
           Service.hasConnection s = true -> sending s = false ->
           filter isPushRequest t = [PushRequest p] /\
           sending (state_of (sendAll payloads s)) = true) /\
       events t = repeat (EvStateChangeDirty true) (List.length payloads)).
  { intros (H1 & H2 & H3 & H4 & H5). repeat (split; [assumption|]).
    exact Hsent. }
  clear Hoff Hsent.
  assert (Hblocked : negb (Service.hasConnection s) || sending s = true ->
                     count isPushRequest t = 0%nat /\
                     events t =
                       repeat (EvStateChangeDirty true) (List.length payloads)).
  { intros H. subst t. unfold count.
    destruct (sendAll_blocked payloads s H) as (_ & -> & ->). auto. }
  assert (Hfree : forall p rest,
             payloads = p :: rest ->
             negb (Service.hasConnection s) || sending s = false ->
             filter isPushRequest t = [PushRequest p] /\
             sending (state_of (sendAll payloads s)) = true /\
             events t =
               repeat (EvStateChangeDirty true) (List.length payloads)).
  { intros p rest -> H. subst t. unfold sendAll. simpl forEach.
    rewrite (bind_run _ (ignore_run (sendSteps_free p s H))).
    destruct (sendAll_blocked rest (set_sending true s)) as (Hs & Ht & He).
    { simpl. apply orb_true_r. }
    unfold sendAll in *. simpl. rewrite Hs, Ht, He. auto. }
  destruct (negb (Service.hasConnection s) || sending s) eqn:H.
  - destruct (Hblocked eq_refl) as [Hc He]. rewrite Hc.
    split; [lia|]. split; [auto|]. split; [auto|]. split; [|exact He].
    intros p rest _ Hc' Hs'. rewrite Hc', Hs' in H. discriminate.
  - apply orb_false_iff in H. destruct H as [Hc Hs].
    apply negb_false_iff in Hc.
    split; [|split; [congruence|]; split; [congruence|]; split].
    + destruct payloads as [|p rest]; [subst t; cbv; lia|].
      destruct (Hfree p rest eq_refl eq_refl) as (Hf & _).
      unfold count. rewrite Hf. simpl. lia.
    + intros p rest E _ _.
      destruct (Hfree p rest E eq_refl) as (Hf & Hsend & _). auto.
    + destruct payloads as [|p rest]; [reflexivity|].
      destruct (Hfree p rest eq_refl eq_refl) as (_ & _ & He). exact He.
Qed.

Lemma one_push_in_flight_witness :
  filter isPushRequest
    (effects (sendAll [["a"]; ["b"]; ["c"]] (Sample.opened 0 0))) =
  [PushRequest ["a"]].
Proof.
  exact (proj1 (proj1 (proj2 (proj2 (proj2
           (@one_push_in_flight [["a"]; ["b"]; ["c"]] (Sample.opened 0 0)))))
           ["a"] [["b"]; ["c"]] eq_refl eq_refl eq_refl)).
Defined.

(** ** Failed pushes, all of them *)

Lemma sendSteps_catch_effects e s :
  effects (Service.sendSteps_catch e s) =
  LogError "failed to apply steps due to collission, retrying" ::
  match err_response e with
  | None => [Emit (EvError CONNECTION_FAILED NoData)]
  | Some r =>
      if aborted e then [Emit (EvError CONNECTION_FAILED NoData)]
      else if status r =? 403 then
        match resp_document (resp_data r) with
        | None => [LogError "failed to write to document - not allowed"]
        | Some _ => []
        end ++
        (if Service.currentVersionIs (resp_data r) (version s)
         then [Emit (EvError PUSH_FAILURE NoData);
               ShowTemporary "Changes could not be sent yet"]
         else [])
      else []
  end.
Proof.
  unfold Service.sendSteps_catch.
  destruct (err_response e) as [r|]; [|reflexivity].
  destruct (aborted e); [reflexivity|].
  destruct (status r =? 403); [|reflexivity].
  unfold bind, modify, tell, get, when, effects; simpl.
  destruct (resp_document (resp_data r)); simpl;
    destruct (Service.currentVersionIs _ _); reflexivity.
Qed.

(** X7. A failed push reports PUSH_FAILURE, and shows the notice, exactly
    when the response is a 403 that carries a document whose current
    version is the local version; it reports CONNECTION_FAILED exactly
    when there is no response or the request was aborted.  It never
    reports anything else and never more than one error: a 403 with
    another version, a 409 and every other status are only logged. *)
Theorem push_failure_reported_iff :
  forall (e : RequestError) (s : SyncService),
    let t := effects (Service.sendSteps_catch e s) in
    (In (Emit (EvError PUSH_FAILURE NoData)) t <->
     exists r doc,
       err_response e = Some r /\ aborted e = false /\ status r = 403 /\
       resp_document (resp_data r) = Some doc /\
       version s = Some (currentVersion doc)) /\
    (In (ShowTemporary "Changes could not be sent yet") t <->
     In (Emit (EvError PUSH_FAILURE NoData)) t) /\
    (In (Emit (EvError CONNECTION_FAILED NoData)) t <->
     noResponseOrAborted e = true) /\
    (count isError t <= 1)%nat /\
    (forall type data,
        In (Emit (EvError type data)) t ->
        (type = PUSH_FAILURE \/ type = CONNECTION_FAILED) /\ data = NoData).
Proof.
  intros e s t. subst t. rewrite sendSteps_catch_effects.
  unfold noResponseOrAborted, Service.currentVersionIs, count.
  destruct (err_response e) as [r|] eqn:Hr.
  2:{ simpl. repeat split; try tauto; try lia.
      - intros [H|[H|[]]]; discriminate.
      - intros (r & doc & H & _). discriminate.
      - intros [H|[H|[]]]; discriminate.
      - intros [H|[H|[]]]; discriminate.
      - destruct H as [H|[H|[]]]; try discriminate. injection H. auto.
      - destruct H as [H|[H|[]]]; try discriminate. injection H. auto. }
  destruct (aborted e) eqn:Ha.
  { simpl. repeat split; try tauto; try lia.
    - intros [H|[H|[]]]; discriminate.
    - intros (r' & doc & _ & H & _). discriminate.
    - intros [H|[H|[]]]; discriminate.
    - intros [H|[H|[]]]; discriminate.
    - destruct H as [H|[H|[]]]; try discriminate. injection H. auto.
    - destruct H as [H|[H|[]]]; try discriminate. injection H. auto. }
  destruct (Z.eqb_spec (status r) 403) as [Hs|Hs].
  2:{ simpl. repeat split; try tauto; try lia; try discriminate.
      - intros [H|[]]; discriminate.
      - intros (r' & doc & Hr' & _ & Hs' & _).
        injection Hr' as <-. contradiction.
      - intros [H|[]]; discriminate.
      - intros [H|[]]; discriminate.
      - intros [H|[]]; discriminate.
      - destruct H as [H|[]]; discriminate.
      - destruct H as [H|[]]; discriminate. }
  destruct (resp_document (resp_data r)) as [doc|] eqn:Hd.
  2:{ simpl. repeat split; try tauto; try lia; try discriminate.
      - intros [H|[H|[]]]; discriminate.
      - intros (r' & doc & Hr' & _ & _ & Hd' & _).
        injection Hr' as <-. congruence.
      - intros [H|[H|[]]]; discriminate.
      - intros [H|[H|[]]]; discriminate.
      - intros [H|[H|[]]]; discriminate.
      - destruct H as [H|[H|[]]]; discriminate.
      - destruct H as [H|[H|[]]]; discriminate. }
  destruct (version s) as [n|] eqn:Hv.
  2:{ simpl. repeat split; try tauto; try lia; try discriminate.
      - intros [H|[]]; discriminate.
      - intros (r' & doc' & _ & _ & _ & _ & H). discriminate.
      - intros [H|[]]; discriminate.
      - intros [H|[]]; discriminate.
      - intros [H|[]]; discriminate.
      - destruct H as [H|[]]; discriminate.
      - destruct H as [H|[]]; discriminate. }
  destruct (Z.eqb_spec (currentVersion doc) n) as [Hn|Hn].
  - simpl. repeat split; try tauto; try lia; try discriminate.
    + intros _. exists r, doc. repeat split; auto. congruence.
    + intros [H|[H|[H|[]]]]; discriminate.
    + destruct H as [H|[H|[H|[]]]]; try discriminate. injection H. auto.
    + destruct H as [H|[H|[H|[]]]]; try discriminate. injection H. auto.
  - simpl. repeat split; try tauto; try lia; try discriminate.
    + intros [H|[]]; discriminate.
    + intros (r' & doc' & Hr' & _ & _ & Hd' & Hv').
      injection Hr' as <-. rewrite Hd in Hd'. injection Hd' as <-.
      injection Hv' as Hv'. congruence.
    + intros [H|[]]; discriminate.
    + intros [H|[]]; discriminate.
    + intros [H|[]]; discriminate.
    + destruct H as [H|[]]; discriminate.
    + destruct H as [H|[]]; discriminate.
Qed.

(** ** Reading the log *)

Lemma slice_skipn {A} (l : list A) v :
  exists k, slice l v = skipn k l /\
    Z.of_nat k = (if v <? 0 then Z.max (Z.of_nat (List.length l) + v) 0
                  else Z.min v (Z.of_nat (List.length l))).
Proof.
  unfold slice. eexists. split; [reflexivity|].
  rewrite Z2Nat.id; [reflexivity|].
  destruct (v <? 0) eqn:E; [lia|]. apply Z.ltb_ge in E. lia.
Qed.

(** X8. [stepsSince] never fails and always returns an end piece of the
    step log: the steps from index [version] on for a version inside the
    log, nothing for a version at or beyond its length, the last [-version]
    steps for a negative version, and the whole log when that reaches
    before its start. *)
Theorem stepsSince_returns_an_end_piece :
  forall (s : SyncService) (v : Z),
    let since := fst (Service.stepsSince s v) in
    let len := Z.of_nat (List.length (steps s)) in
    (exists before, steps s = before ++ since) /\
    (0 <= v <= len ->
     since = skipn (Z.to_nat v) (steps s) /\
     Z.of_nat (List.length since) = len - v) /\
    (len <= v -> since = []) /\
    (- len <= v < 0 -> Z.of_nat (List.length since) = - v) /\
    (v <= - len -> since = steps s).
Proof.
  intros s v since len. subst since. simpl.
  destruct (slice_skipn (steps s) v) as (k & -> & Hk). fold len in Hk.
  split; [|split; [|split; [|split]]].
  - exists (firstn k (steps s)). symmetry. apply firstn_skipn.
  - intros Hv. destruct (Z.ltb_spec v 0); [lia|].
    replace k with (Z.to_nat v) by lia. split; [reflexivity|].
    rewrite length_skipn. lia.
  - intros Hv. destruct (Z.ltb_spec v 0); [lia|].
    apply skipn_all2. lia.
  - intros Hv. destruct (Z.ltb_spec v 0); [|lia].
    rewrite length_skipn. lia.
  - intros Hv. destruct (Z.ltb_spec v 0).
    + replace k with 0%nat by lia. reflexivity.
    + assert (len = 0) by lia. replace k with 0%nat by lia. reflexivity.
Qed.

Lemma stepsSince_returns_an_end_piece_witness :
  let s := state_of (Service._receiveSteps
                       [Sample.bucket 1 "A" ["a"; "b"; "c"]] 10
                       (Sample.opened 0 0)) in
  fst (Service.stepsSince s 5) = [] /\
  Z.of_nat (List.length (fst (Service.stepsSince s (-2)))) = 2.
Proof.
  intros s. split.
  - apply (proj1 (proj2 (proj2 (@stepsSince_returns_an_end_piece s 5)))).
    vm_compute. intro H. discriminate H.
  - apply (proj1 (proj2 (proj2 (proj2
             (@stepsSince_returns_an_end_piece s (-2)))))).
    vm_compute. split; [intro H; discriminate H | reflexivity].
Defined.

(** ** Receiving steps *)

Lemma receiveBuckets_effects bs : forall newSteps s,
  effects (Service.receiveBuckets bs newSteps s) =
  map (fun _ => LogError "Invalid step data, skipping step")
    (invalidBuckets bs).
Proof.
  induction bs as [|b rest IH]; intros newSteps s; [reflexivity|].
  simpl Service.receiveBuckets. unfold bind.
  destruct (receiveBucket_run b newSteps s) as [Ho Hs].
  assert (He : effects (Service.receiveBucket b newSteps s) =
               match bucket_data b with
               | DataOther => [LogError "Invalid step data, skipping step"]
               | DataArray _ => []
               end).
  { unfold Service.receiveBucket, bind, get, when, effects.
    destruct s as [c ss st ids lp v sd bk ch sh cc]; simpl.
    destruct (version_lt v (bucket_version b)); simpl;
      destruct (bucket_data b); simpl; rewrite ?pushSteps_run; reflexivity. }
  unfold outcome, state_of, effects in Ho, Hs, He.
  destruct (Service.receiveBucket b newSteps s) as [[r s1] t1].
  simpl in Ho, Hs, He. subst r t1.
  specialize (IH (newSteps ++ bucketNewSteps b) s1).
  unfold effects in IH |- *.
  destruct (Service.receiveBuckets rest _ s1) as [[r s2] t2].
  simpl in IH |- *. subst t2. unfold invalidBuckets. simpl.
  destruct (bucket_data b); reflexivity.
Qed.

(** X9. With a connection, [_receiveSteps] returns, and after one log line
    per bucket whose data is no array it emits one sync event: its steps
    are, in order, the steps it appended to the log, each with the session
    id of its bucket, and its version is the counter after the call.
    [stepsSince] at the old length of the log returns those same steps.
    Without a connection the steps are appended and the counter advanced
    all the same, but the call throws where it reads the document and no
    sync event is emitted. *)
Theorem receiveSteps_emits_what_it_appended :
  forall (bs : list Bucket) (now : Z) (s : SyncService),
    let run := Service._receiveSteps bs now s in
    let s' := state_of run in
    let appended := flat_map bucketSteps bs in
    steps s' = steps s ++ appended /\
    map fst (flat_map bucketNewSteps bs) = appended /\
    fst (Service.stepsSince s' (Z.of_nat (List.length (steps s)))) = appended /\
    (forall c,
        connection s = ConnObject c ->
        outcome run = Return tt /\
        effects run =
          map (fun _ => LogError "Invalid step data, skipping step")
            (invalidBuckets bs) ++
          [Emit (EvSync (flat_map bucketNewSteps bs) (conn_document c)
                   (version s'))]) /\
    (Service.hasConnection s = false ->
     events (effects run) = [] /\ exists msg, outcome run = Throw (TypeError msg)).
Proof.
  intros bs now s run s' appended.
  assert (Hs' : s' = set_lastStepPush now
                       (set_steps (steps s ++ flat_map bucketSteps bs)
                          (set_version (fold_left nextVersion bs (version s)) s)))
    by apply _receiveSteps_state.
  assert (Hmap : map fst (flat_map bucketNewSteps bs) = appended).
  { subst appended. clear. induction bs as [|b rest IH]; [reflexivity|].
    simpl. rewrite map_app, IH. f_equal.
    unfold bucketNewSteps. rewrite map_map. simpl. apply map_id. }
  split; [rewrite Hs'; reflexivity|]. split; [exact Hmap|]. split.
  { rewrite Hs'. simpl. unfold slice. rewrite length_app.
    destruct (Z.ltb_spec (Z.of_nat (List.length (steps s))) 0); [lia|].
    rewrite Z.min_l by lia. rewrite Nat2Z.id.
    rewrite skipn_app, skipn_all, Nat.sub_diag. reflexivity. }
  assert (Hrun : forall r s1 t1,
             Service.receiveBuckets bs [] s = (r, s1, t1) ->
             r = Return (flat_map bucketNewSteps bs) /\
             t1 = map (fun _ => LogError "Invalid step data, skipping step")
                    (invalidBuckets bs) /\
             connection s1 = connection s /\
             version s1 = fold_left nextVersion bs (version s)).
  { intros r s1 t1 E.
    destruct (receiveBuckets_run bs [] s) as [Ho Hs].
    pose proof (receiveBuckets_effects bs [] s) as He.
    rewrite E in Ho, Hs, He. unfold outcome, state_of, effects in *.
    simpl in Ho, Hs, He. subst r s1 t1. repeat split. }
  subst run s'. unfold Service._receiveSteps.
  destruct (Service.receiveBuckets bs [] s) as [[r s1] t1] eqn:E.
  destruct (Hrun r s1 t1 eq_refl) as (-> & -> & Hc1 & Hv1).
  split.
  - intros c Hc. rewrite (bind_run _ E). simpl.
    unfold bind, modify, get. simpl. rewrite Hc1, Hc. simpl.
    rewrite Hv1. auto.
  - intros Hc. rewrite (bind_run _ E). simpl.
    unfold bind, modify, get. simpl. rewrite Hc1.
    unfold Service.hasConnection in Hc.
    assert (Hev : forall l : list Bucket,
               events (map (fun _ => LogError "Invalid step data, skipping step") l ++ []) = []).
    { induction l; simpl; auto. }
    destruct (connection s); try discriminate; simpl; rewrite Hev;
      (split; [reflexivity | eexists; reflexivity]).
Qed.

Lemma receiveSteps_emits_what_it_appended_witness :
  let bs := [Sample.bucket 1 "A" ["a"; "b"]; Sample.invalidBucket 2;
             Sample.bucket 3 "B" ["c"]] in
  effects (Service._receiveSteps bs 10 (Sample.opened 0 0)) =
  [LogError "Invalid step data, skipping step";
   Emit (EvSync [("a", "A"); ("b", "A"); ("c", "B")] (Sample.doc 0) (Some 3))].
Proof.
  intros bs.
  exact (proj2 (proj1 (proj2 (proj2 (proj2
           (@receiveSteps_emits_what_it_appended bs 10 (Sample.opened 0 0)))))
           (Sample.conn 0) eq_refl)).
Defined.

(** ** One fetch in flight *)

(** What a tick does, case by case. *)
Lemma _fetchSteps_begin_run now s b :
  backend s = Some b ->
  Polling._fetchSteps_begin now s =
  if pollActive b then (Return None, s, [])
  else if (lastPoll b >? now - fetchInterval b)
          && negb (forcedSave b || manualSave b)
  then (Return None, s, [])
  else if fetcher b =? 0
  then (Return None, s, [ConsoleError "No inverval but triggered"])
  else
    let request :=
      {| req_version := version s;
         req_saveData := (forcedSave b || manualSave b)
                         || (lastSave b <? now - AUTOSAVE_INTERVAL);
         req_force := forcedSave b;
         req_manualSave := manualSave b |} in
    (Return (Some request), set_backend (Some (set_pollActive true b)) s,
     [LogDebug "[PollingBackend] Fetching steps"; SyncRequested request]).
Proof.
  intros Hb. unfold Polling._fetchSteps_begin, bind, getBackend.
  rewrite Hb.
  destruct (pollActive b); [reflexivity|].
  destruct ((lastPoll b >? now - fetchInterval b)
            && negb (forcedSave b || manualSave b)); [reflexivity|].
  destruct (fetcher b =? 0); [reflexivity|].
  unfold update, modify, get, tell, ret. rewrite Hb. reflexivity.
Qed.

Lemma tick_run now s :
  (state_of (Polling._fetchSteps_begin now s) = s /\
   filter isSyncRequested (effects (Polling._fetchSteps_begin now s)) = []) \/
  (exists b request,
      backend s = Some b /\ pollActive b = false /\ fetcher b <> 0 /\
      Polling._fetchSteps_begin now s =
        (Return (Some request), set_backend (Some (set_pollActive true b)) s,
         [LogDebug "[PollingBackend] Fetching steps"; SyncRequested request])).
Proof.
  destruct (backend s) as [b|] eqn:Hb.
  - rewrite (_fetchSteps_begin_run now s Hb).
    destruct (pollActive b) eqn:Hp; [left; auto|].
    destruct ((lastPoll b >? now - fetchInterval b)
              && negb (forcedSave b || manualSave b)); [left; auto|].
    destruct (Z.eqb_spec (fetcher b) 0); [left; auto|].
    right. eexists. eexists. repeat split; auto.
  - left. unfold Polling._fetchSteps_begin, bind, getBackend. rewrite Hb. auto.
Qed.

Lemma tickAll_active ticks : forall s b,
  backend s = Some b -> pollActive b = true ->
  state_of (tickAll ticks s) = s /\
  filter isSyncRequested (effects (tickAll ticks s)) = [].
Proof.
  unfold tickAll.
  induction ticks as [|now rest IH]; intros s b Hb Hp; simpl; [auto|].
  assert (E : Polling._fetchSteps_begin now s = (Return None, s, []))
    by (rewrite (_fetchSteps_begin_run now s Hb), Hp; reflexivity).
  rewrite (bind_run _ (ignore_run E)). simpl. apply (@IH s b Hb Hp).
Qed.

(** X10. However often the interval ticks before a fetch settles, at most
    one sync request is sent: a tick that sends one marks the poll active,
    and a tick that finds it active returns at once. *)
Theorem one_fetch_in_flight :
  forall (ticks : list Z) (s : SyncService),
    (count isSyncRequested (effects (tickAll ticks s)) <= 1)%nat /\
    (forall b, backend s = Some b -> pollActive b = true ->
               effects (tickAll ticks s) = [] /\
               state_of (tickAll ticks s) = s).
Proof.
  intros ticks s. split.
  - revert s. unfold tickAll, count.
    induction ticks as [|now rest IH]; intros s; [simpl; lia|].
    simpl forEach.
    destruct (tick_run now s) as [[Hs Ht]|(b & request & Hb & Hp & Hf & E)].
    + destruct (Polling._fetchSteps_begin now s) as [[[r|e] s1] t1] eqn:E;
        unfold state_of, effects in Hs, Ht; simpl in Hs, Ht; subst s1.
      * rewrite (bind_run _ (ignore_run E)). simpl.
        rewrite filter_app, Ht. apply IH.
      * assert (E' : ignore (Polling._fetchSteps_begin now) s = (Throw e, s, t1))
          by (unfold ignore; apply bind_throws; exact E).
        rewrite (bind_throws _ E'). simpl. rewrite Ht. simpl. lia.
    + rewrite (bind_run _ (ignore_run E)). simpl.
      destruct (@tickAll_active rest
                  (set_backend (Some (set_pollActive true b)) s)
                  (set_pollActive true b) eq_refl eq_refl) as [_ Ht].
      unfold tickAll in Ht. rewrite Ht. simpl. lia.
  - intros b Hb Hp. revert s b Hb Hp. unfold tickAll.
    induction ticks as [|now rest IH]; intros s b Hb Hp; [auto|].
    simpl forEach.
    assert (E : Polling._fetchSteps_begin now s = (Return None, s, []))
      by (rewrite (_fetchSteps_begin_run now s Hb), Hp; reflexivity).
    rewrite (bind_run _ (ignore_run E)). simpl.
    destruct (@IH s b Hb Hp) as [-> ->]. auto.
Qed.

Lemma one_fetch_in_flight_witness :
  let s := state_of (Service.startSync 7 (Sample.opened 0 0)) in
  count isSyncRequested (effects (tickAll [1000; 1050; 1100] s)) = 1%nat /\
  effects (tickAll [1050; 1100] (state_of (tickAll [1000] s))) = [].
Proof.
  intros s. split; [reflexivity|].
  exact (proj1 (proj2 (@one_fetch_in_flight [1050; 1100]
                         (state_of (tickAll [1000] s)))
                  _ eq_refl eq_refl)).
Defined.

(** ** Settling a fetch *)

Lemma emit_error_run type data s :
  Service.emit (EvError type data) s = (Return tt, s, [Emit (EvError type data)]).
Proof. reflexivity. Qed.

(** What [_handleError] does with an error that has a response and was
    not aborted. *)
Lemma _handleError_response_run e r s b :
  backend s = Some b ->
  err_response e = Some r ->
  aborted e = false ->
  exists t,
    Polling._handleError (Rejection e) s =
      (Return tt,
       set_backend
         (Some (if status r =? 409 then set_fetcher 0 b
                else if status r =? 403 then set_fetcher 0 b
                else if status r =? 404 then set_fetcher 0 b
                else if status r =? 503
                then set_fetchInterval
                       (Z.min (fetchInterval b * 2) FETCH_INTERVAL_MAX) b
                else set_fetcher 0 b)) s,
       t) /\
    events t =
      [EvError (fetchErrorType (status r))
         (if status r =? 409 then OutsideChange (outsideChange (resp_data r))
          else if (status r =? 403) || (status r =? 404) then NoData
          else RetryFalse)].
Proof.
  intros Hb Hr Ha.
  unfold Polling._handleError, fetchErrorType.
  cbn [Polling.networkFailure Polling.responseOf].
  unfold noResponseOrAborted. rewrite Hr, Ha.
  unfold Backend.disconnect, Backend.increaseRefetchTimer, Service.emit,
    bind, getBackend, update, modify, tell, ret.
  destruct (status r =? 409); [|destruct (status r =? 403);
    [|destruct (status r =? 404); [|destruct (status r =? 503)]]];
    simpl; rewrite ?Hb; simpl; rewrite ?Hb; simpl;
    (eexists; split; [reflexivity | reflexivity]).
Qed.

Lemma _handleError_returns e s b :
  backend s = Some b ->
  exists s' t b',
    Polling._handleError e s = (Return tt, s', t) /\ backend s' = Some b'.
Proof.
  intros Hb. destruct (Polling.networkFailure e) eqn:Hn.
  - rewrite (_handleError_network e s Hb Hn).
    eexists. eexists. eexists. split; reflexivity.
  - destruct e as [msg|err]; [discriminate|].
    simpl in Hn. unfold noResponseOrAborted in Hn.
    destruct (err_response err) as [r|] eqn:Hr; [|discriminate].
    destruct (_handleError_response_run err s Hb Hr Hn) as (t & E & _).
    rewrite E. eexists. eexists. eexists. split; reflexivity.
Qed.

(** X11. However a fetch settles, with steps, without, with an error, or
    with a response whose handling throws, the rest of [_fetchSteps]
    returns: the exception is handled as a failed fetch, and the [finally]
    block has run, so that the poll is no longer active, the pending manual
    and forced save are forgotten, and the last poll is now. *)
Theorem fetch_settles_without_throwing :
  forall (result : SyncData + RequestError) (now1 now2 now3 : Z)
         (s : SyncService) (b : PollingBackend),
    backend s = Some b ->
    let run := Polling._fetchSteps_settle result now1 now2 now3 s in
    outcome run = Return tt /\
    exists b',
      backend (state_of run) = Some b' /\
      pollActive b' = false /\ manualSave b' = false /\
      forcedSave b' = false /\ lastPoll b' = now3.
Proof.
  intros result now1 now2 now3 s b Hb run. subst run.
  unfold Polling._fetchSteps_settle, try_finally.
  set (inner := try_catch _ _).
  assert (Hin : exists s2 t2 b2,
             inner s = (Return tt, s2, t2) /\ backend s2 = Some b2).
  { subst inner. unfold try_catch. destruct result as [data|err].
    - destruct (proj2 retry_counter_starts_at_zero data now1 now2 s b Hb)
        as (b1 & Hb1 & _).
      unfold state_of in Hb1.
      destruct (Polling._handleResponse data now1 now2 s)
        as [[[[]|e] s1] t1]; simpl in Hb1.
      + eauto.
      + destruct (_handleError_returns e s1 Hb1) as (s2 & t2 & b2 & E & Hb2).
        rewrite E. eauto.
    - unfold throw.
      destruct (_handleError_returns (Rejection err) s Hb)
        as (s2 & t2 & b2 & E & Hb2).
      rewrite E. eauto. }
  destruct Hin as (s2 & t2 & b2 & E & Hb2). rewrite E.
  unfold bind, update, modify, outcome, state_of. simpl.
  rewrite Hb2. simpl. split; [reflexivity|].
  eexists. split; [reflexivity|]. repeat split.
Qed.

Lemma fetch_settles_without_throwing_witness :
  let failedOpen :=
    state_of (Service.open (Service.ApiOpen (inr Sample.noResponse)) 5
                (state_of (Service.forceSave 7 (Sample.opened 0 0)))) in
  let data := {| data_document := Sample.doc 0; data_sessions := [];
                 data_steps := [Sample.bucket 1 "A" ["stepX"]] |} in
  outcome (Service._receiveSteps (data_steps data) 10 failedOpen) <> Return tt /\
  outcome (Polling._fetchSteps_settle (inl data) 10 10 11 failedOpen) = Return tt.
Proof.
  intros failedOpen data. split; [discriminate|].
  exact (proj1 (@fetch_settles_without_throwing (inl data) 10 10 11 failedOpen
                  _ eq_refl)).
Defined.

(** ** Failed fetches with a response *)

Lemma tickAll_stopped ticks : forall s b,
  backend s = Some b -> fetcher b = 0 ->
  state_of (tickAll ticks s) = s /\
  filter isSyncRequested (effects (tickAll ticks s)) = [].
Proof.
  unfold tickAll.
  induction ticks as [|now rest IH]; intros s b Hb Hf; simpl; [auto|].
  assert (E : exists t, Polling._fetchSteps_begin now s = (Return None, s, t) /\
                        filter isSyncRequested t = []).
  { rewrite (_fetchSteps_begin_run now s Hb), Hf. simpl.
    destruct (pollActive b); [eauto|].
    destruct ((lastPoll b >? now - fetchInterval b)
              && negb (forcedSave b || manualSave b)); eauto. }
  destruct E as (t & E & Ht).
  rewrite (bind_run _ (ignore_run E)). simpl.
  destruct (@IH s b Hb Hf) as [Hs Hr]. rewrite filter_app, Ht, Hr. auto.
Qed.

(** X12. A fetch that fails with a response, and was not aborted, emits
    exactly one error: SAVE_COLLISSION with the outside change on 409,
    SOURCE_NOT_FOUND on 403 and 404, CONNECTION_FAILED otherwise.  It
    leaves the retry counter alone.  On 503 it keeps the interval running
    and doubles the cadence up to 5000 ms; on every other status it stops
    the interval, after which no tick sends a request. *)
Theorem failed_fetch_with_response :
  forall (e : RequestError) (r : Response) (s : SyncService)
         (b : PollingBackend),
    backend s = Some b ->
    err_response e = Some r ->
    aborted e = false ->
    let run := Polling._handleError (Rejection e) s in
    outcome run = Return tt /\
    events (effects run) =
      [EvError (fetchErrorType (status r))
         (if status r =? 409 then OutsideChange (outsideChange (resp_data r))
          else if (status r =? 403) || (status r =? 404) then NoData
          else RetryFalse)] /\
    exists b',
      backend (state_of run) = Some b' /\
      fetchRetryCounter b' = fetchRetryCounter b /\
      (status r = 503 ->
       fetcher b' = fetcher b /\
       fetchInterval b' = Z.min (fetchInterval b * 2) 5000) /\
      (status r <> 503 ->
       fetcher b' = 0 /\ fetchInterval b' = fetchInterval b /\
       forall ticks,
         count isSyncRequested (effects (tickAll ticks (state_of run))) = 0%nat).
Proof.
  intros e r s b Hb Hr Ha run. subst run.
  destruct (_handleError_response_run e s Hb Hr Ha) as (t & E & Hev).
  rewrite E. cbn [outcome state_of effects fst snd].
  split; [reflexivity|]. split; [exact Hev|].
  eexists. split; [reflexivity|].
  split; [|split].
  - destruct (status r =? 409); [reflexivity|].
    destruct (status r =? 403); [reflexivity|].
    destruct (status r =? 404); [reflexivity|].
    destruct (status r =? 503); reflexivity.
  - intros Hs. rewrite Hs. simpl. auto.
  - intros Hs.
    assert (Hb' : (if status r =? 409 then set_fetcher 0 b
                   else if status r =? 403 then set_fetcher 0 b
                   else if status r =? 404 then set_fetcher 0 b
                   else if status r =? 503
                   then set_fetchInterval
                          (Z.min (fetchInterval b * 2) FETCH_INTERVAL_MAX) b
                   else set_fetcher 0 b) = set_fetcher 0 b).
    { destruct (status r =? 409); [reflexivity|].
      destruct (status r =? 403); [reflexivity|].
      destruct (status r =? 404); [reflexivity|].
      destruct (Z.eqb_spec (status r) 503); [contradiction | reflexivity]. }
    rewrite Hb'. split; [reflexivity|]. split; [reflexivity|].
    intros ticks. unfold count.
    rewrite (proj2 (@tickAll_stopped ticks
                      (set_backend (Some (set_fetcher 0 b)) s)
                      (set_fetcher 0 b) eq_refl eq_refl)).
    reflexivity.
Qed.

Lemma failed_fetch_with_response_witness :
  let s := state_of (Service.startSync 7 (Sample.opened 0 0)) in
  events (effects (Polling._handleError
                     (Rejection (Sample.failed 409 None)) s)) =
    [EvError SAVE_COLLISSION (OutsideChange None)] /\
  count isSyncRequested
    (effects (tickAll [1000; 2000]
                (state_of (Polling._handleError
                             (Rejection (Sample.failed 409 None)) s)))) = 0%nat.
Proof.
  intros s.
  destruct (@failed_fetch_with_response (Sample.failed 409 None) _ s _
              eq_refl eq_refl eq_refl)
    as (_ & Hev & b' & _ & _ & _ & Hstop).
  split; [exact Hev|].
  apply Hstop. discriminate.
Defined.

(** ** Saving and the gate of the fetch loop *)

(** X13. [close] asks the backend for a save, but it has stopped the
    interval first: on the service it leaves, the save stays pending and
    no tick sends a request, so the save is only sent if a fetch was
    already under way. *)
Theorem close_stops_the_interval_before_the_save :
  forall (s : SyncService) (b : PollingBackend),
    backend s = Some b ->
    let s1 := state_of (Service.close s) in
    (exists b1, backend s1 = Some b1 /\ fetcher b1 = 0 /\ manualSave b1 = true) /\
    forall ticks,
      count isSyncRequested (effects (tickAll ticks s1)) = 0%nat /\
      state_of (tickAll ticks s1) = s1.
Proof.
  intros s b Hb s1.
  assert (H1 : exists b1, backend s1 = Some b1 /\ fetcher b1 = 0 /\
                          manualSave b1 = true).
  { subst s1. unfold Service.close, Backend.disconnect, Service.save,
      Backend.save, bind, getBackend, update, modify, get, tell, ret.
    destruct s as [c ss st ids lp v sd bk ch sh cc]. simpl in *. subst bk.
    simpl. eexists. repeat split. }
  split; [exact H1|].
  destruct H1 as (b1 & Hb1 & Hf1 & _). intros ticks.
  destruct (@tickAll_stopped ticks s1 b1 Hb1 Hf1) as [Hs Ht].
  unfold count. rewrite Ht. auto.
Qed.

Lemma close_stops_the_interval_before_the_save_witness :
  let s := state_of (Service.startSync 7 (Sample.opened 0 0)) in
  count isSyncRequested
    (effects (tickAll [1000; 40000] (state_of (Service.close s)))) = 0%nat.
Proof.
  intros s.
  exact (proj1 (proj2 (@close_stops_the_interval_before_the_save s _ eq_refl)
                  [1000; 40000])).
Defined.

(** X14. On a connected backend with no fetch under way, a tick right
    after [save] or [forceSave] sends a request with the content attached
    and the manual or forced flag set, however recently the last poll was;
    with no save pending, a tick sooner than one cadence after the last
    poll sends nothing. *)
Theorem pending_save_bypasses_the_gate :
  forall (s : SyncService) (b : PollingBackend) (now timer : Z),
    backend s = Some b ->
    pollActive b = false ->
    0 < fetcher b ->
    outcome (Polling._fetchSteps_begin now (state_of (Service.save s))) =
      Return (Some {| req_version := version s; req_saveData := true;
                      req_force := forcedSave b; req_manualSave := true |}) /\
    outcome (Polling._fetchSteps_begin now
               (state_of (Service.forceSave timer s))) =
      Return (Some {| req_version := version s; req_saveData := true;
                      req_force := true; req_manualSave := manualSave b |}) /\
    (forcedSave b = false -> manualSave b = false ->
     now - fetchInterval b < lastPoll b ->
     Polling._fetchSteps_begin now s = (Return None, s, [])).
Proof.
  intros s b now timer Hb Hp Hf.
  assert (Hf0 : (fetcher b =? 0) = false) by (apply Z.eqb_neq; lia).
  assert (Hgt : (fetcher b >? 0) = true) by (apply Z.gtb_lt; lia).
  split; [|split].
  - assert (E : state_of (Service.save s) =
                set_backend (Some (set_manualSave true b)) s).
    { unfold Service.save, Backend.save, bind, get, update, modify, state_of.
      rewrite Hb. simpl. rewrite Hb. reflexivity. }
    rewrite E.
    rewrite (@_fetchSteps_begin_run now
               (set_backend (Some (set_manualSave true b)) s)
               (set_manualSave true b) eq_refl).
    simpl. rewrite Hp, Hf0, orb_true_r, andb_false_r. reflexivity.
  - assert (E : state_of (Service.forceSave timer s) =
                set_backend (Some (set_forcedSave true b)) s).
    { unfold Service.forceSave, Backend.connect, Backend.forceSave, bind,
        getBackend, update, modify, tell, state_of.
      rewrite Hb, Hgt. simpl. rewrite Hb. reflexivity. }
    rewrite E.
    rewrite (@_fetchSteps_begin_run now
               (set_backend (Some (set_forcedSave true b)) s)
               (set_forcedSave true b) eq_refl).
    simpl. rewrite Hp, Hf0, andb_false_r. reflexivity.
  - intros H1 H2 Hl. rewrite (_fetchSteps_begin_run now s Hb).
    rewrite Hp, H1, H2. simpl.
    replace (lastPoll b >? now - fetchInterval b) with true
      by (symmetry; apply Z.gtb_lt; lia).
    reflexivity.
Qed.

Lemma pending_save_bypasses_the_gate_witness :
  let s := state_of (Polling._fetchSteps_settle
                       (inl (Sample.emptyData 0 [])) 1000 1000 1000
                       (state_of (Service.startSync 7 (Sample.opened 0 0)))) in
  Polling._fetchSteps_begin 1001 s = (Return None, s, []) /\
  outcome (Polling._fetchSteps_begin 1001 (state_of (Service.save s))) =
    Return (Some {| req_version := Some 0; req_saveData := true;
                    req_force := false; req_manualSave := true |}).
Proof.
  intros s.
  destruct (@pending_save_bypasses_the_gate s _ 1001 7 eq_refl eq_refl eq_refl)
    as (H1 & _ & H3).
  split; [|exact H1].
  apply H3; reflexivity.
Defined.

(** X15. Starting the sync twice starts one interval: the second call
    finds the identifier of the first, logs an error and changes nothing.
    The first marks the initial loading as not finished. *)
Theorem second_connect_is_ignored :
  forall (s : SyncService) (b : PollingBackend) (timer1 timer2 : Z),
    backend s = Some b ->
    fetcher b = 0 ->
    0 < timer1 ->
    let once := Service.startSync timer1 s in
    let twice := Service.startSync timer2 (state_of once) in
    effects once = [SetInterval 50; AddVisibilityListener] /\
    effects twice =
      [ConsoleError "Trying to connect, but already connected"] /\
    state_of twice = state_of once /\
    exists b',
      backend (state_of once) = Some b' /\ fetcher b' = timer1 /\
      initialLoadingFinished b' = false.
Proof.
  intros s b timer1 timer2 Hb Hf Ht once twice.
  assert (E : once =
              (Return tt,
               set_backend
                 (Some (set_fetcher timer1
                          (set_initialLoadingFinished false b))) s,
               [SetInterval 50; AddVisibilityListener])).
  { subst once. unfold Service.startSync, Backend.connect, bind, getBackend,
      update, modify, tell.
    rewrite Hb, Hf. simpl. rewrite Hb. reflexivity. }
  assert (E2 : twice =
               (Return tt, state_of once,
                [ConsoleError "Trying to connect, but already connected"])).
  { subst twice. rewrite E. simpl state_of.
    unfold Service.startSync, Backend.connect, bind, getBackend. simpl.
    replace (timer1 >? 0) with true by (symmetry; apply Z.gtb_lt; lia).
    reflexivity. }
  rewrite E2. rewrite E. simpl.
  repeat split. eexists. repeat split.
Qed.

Lemma second_connect_is_ignored_witness :
  count isSetInterval
    (effects (Service.startSync 7 (Sample.opened 0 0)) ++
     effects (Service.startSync 8
                (state_of (Service.startSync 7 (Sample.opened 0 0))))) = 1%nat.
Proof.
  destruct (@second_connect_is_ignored (Sample.opened 0 0) _ 7 8
              eq_refl eq_refl eq_refl) as (-> & -> & _).
  reflexivity.
Defined.

(** ** Closing an open service *)

Lemma update_nth_last {A} (l : list A) (x : A) f :
  Service.update_nth (List.length l) f (l ++ [x]) = l ++ [f x].
Proof. induction l as [|a l IH]; simpl; [reflexivity|]. rewrite IH. reflexivity. Qed.

Lemma nth_error_last {A} (l : list A) (x : A) :
  nth_error (l ++ [x]) (List.length l) = Some x.
Proof. rewrite nth_error_app2, Nat.sub_diag by lia. reflexivity. Qed.

Lemma close_onSave_run call s b c :
  backend s = Some b ->
  connection s = ConnObject c ->
  Service.close_onSave call s =
  (Return tt, set_backend (Some (set_fetcher 0 b)) s,
   [ClearInterval (fetcher b); RemoveVisibilityListener; CloseRequest]).
Proof.
  intros Hb Hc.
  unfold Service.close_onSave, Service._close, Backend.disconnect, bind, get,
    getBackend, update, modify, tell, ret.
  rewrite Hc, Hb. simpl. rewrite Hb. reflexivity.
Qed.

Lemma close_onTimeout_run call s b c cc :
  backend s = Some b ->
  connection s = ConnObject c ->
  nth_error (closeCalls s) call = Some cc ->
  Service.close_onTimeout call s =
  if closed cc then (Return tt, s, [])
  else (Return tt, set_backend (Some (set_fetcher 0 b)) s,
        [ClearInterval (fetcher b); RemoveVisibilityListener; CloseRequest]).
Proof.
  intros Hb Hc Hn.
  unfold Service.close_onTimeout, bind, get. rewrite Hn.
  destruct (closed cc); [reflexivity|].
  unfold Service._close, Backend.disconnect, bind, get, getBackend, update,
    modify, tell, ret.
  rewrite Hc, Hb. simpl. rewrite Hb. reflexivity.
Qed.

(** X16. After [close] on an open service, a save event makes its handler
    ask the connection to close.  When the timer fires after that, it asks
    again unless that first request has already succeeded: while it is
    pending, and after it failed, the connection gets a second close
    request.  The promise is resolved as soon as the first request has
    settled, either way. *)
Theorem timer_closes_again_unless_closed :
  forall (s : SyncService) (b : PollingBackend) (c : Connection),
    backend s = Some b ->
    connection s = ConnObject c ->
    let call := List.length (closeCalls s) in
    let s1 := state_of (Service.close s) in
    let s2 := state_of (Service.close_onSave call s1) in
    let succeeded := state_of (Service.closeSettled call true true s2) in
    let failed := state_of (Service.closeSettled call true false s2) in
    count isCloseRequest (effects (Service.close_onSave call s1)) = 1%nat /\
    nth_error (closeCalls succeeded) call =
      Some {| closed := true; promise := Resolved |} /\
    nth_error (closeCalls failed) call =
      Some {| closed := false; promise := Resolved |} /\
    effects (Service.close_onTimeout call succeeded) = [] /\
    count isCloseRequest (effects (Service.close_onTimeout call failed)) = 1%nat /\
    count isCloseRequest (effects (Service.close_onTimeout call s2)) = 1%nat.
Proof.
  intros s b c Hb Hc call s1 s2 succeeded failed.
  destruct s as [c0 ss st ids lp v sd bk ch sh cc]. simpl in Hb, Hc, call.
  subst bk c0.
  assert (E1 : s1 =
    {| connection := ConnObject c; sessions := ss; steps := st;
       stepClientIDs := ids; lastStepPush := lp; version := v; sending := sd;
       backend := Some (set_manualSave true (set_fetcher 0 b));
       changeHandlers := ch; saveHandlers := sh ++ [call];
       closeCalls := cc ++ [{| closed := false; promise := Pending |}] |})
    by reflexivity.
  assert (E2 : Service.close_onSave call s1 =
               (Return tt,
                set_backend
                  (Some (set_fetcher 0 (set_manualSave true (set_fetcher 0 b))))
                  s1,
                [ClearInterval 0; RemoveVisibilityListener; CloseRequest])).
  { rewrite E1. apply close_onSave_run with (c := c); reflexivity. }
  assert (Hcalls : closeCalls s2 =
                   cc ++ [{| closed := false; promise := Pending |}]).
  { subst s2. rewrite E2, E1. reflexivity. }
  assert (Hb2 : backend s2 =
                Some (set_fetcher 0 (set_manualSave true (set_fetcher 0 b)))).
  { subst s2. rewrite E2. reflexivity. }
  assert (Hc2 : connection s2 = ConnObject c).
  { subst s2. rewrite E2, E1. reflexivity. }
  assert (Hcount : count isCloseRequest
                      (effects (Service.close_onSave call s1)) = 1%nat)
    by (rewrite E2; reflexivity).
  clearbody s2. clear E2.
  assert (Hsucc : closeCalls succeeded =
                  cc ++ [{| closed := true; promise := Resolved |}]).
  { subst succeeded. simpl. rewrite Hcalls. subst call.
    rewrite !update_nth_last. reflexivity. }
  assert (Hfail : closeCalls failed =
                  cc ++ [{| closed := false; promise := Resolved |}]).
  { subst failed. simpl. rewrite Hcalls. subst call.
    rewrite !update_nth_last. reflexivity. }
  split; [exact Hcount|].
  split; [rewrite Hsucc; apply nth_error_last|].
  split; [rewrite Hfail; apply nth_error_last|].
  split; [|split].
  - rewrite (@close_onTimeout_run call succeeded
               (set_fetcher 0 (set_manualSave true (set_fetcher 0 b))) c
               {| closed := true; promise := Resolved |}).
    + reflexivity.
    + subst succeeded. simpl. exact Hb2.
    + subst succeeded. simpl. exact Hc2.
    + rewrite Hsucc. apply nth_error_last.
  - rewrite (@close_onTimeout_run call failed
               (set_fetcher 0 (set_manualSave true (set_fetcher 0 b))) c
               {| closed := false; promise := Resolved |}).
    + reflexivity.
    + subst failed. simpl. exact Hb2.
    + subst failed. simpl. exact Hc2.
    + rewrite Hfail. apply nth_error_last.
  - rewrite (@close_onTimeout_run call s2
               (set_fetcher 0 (set_manualSave true (set_fetcher 0 b))) c
               {| closed := false; promise := Pending |} Hb2 Hc2).
    + reflexivity.
    + rewrite Hcalls. apply nth_error_last.
Qed.

Lemma timer_closes_again_unless_closed_witness :
  let s := state_of (Service.startSync 7 (Sample.opened 0 0)) in
  let s2 := state_of (Service.close_onSave 0 (state_of (Service.close s))) in
  count isCloseRequest (effects (Service.close_onTimeout 0 s2)) = 1%nat.
Proof.
  intros s s2.
  exact (proj2 (proj2 (proj2 (proj2 (proj2
           (@timer_closes_again_unless_closed s _ (Sample.conn 0)
              eq_refl eq_refl)))))).
Defined.

(** ** Emitting on a service that holds a connection *)

Lemma events_app t1 t2 : events (t1 ++ t2) = events t1 ++ events t2.
Proof.
  induction t1 as [|x t1 IH]; [reflexivity|].
  destruct x; simpl; rewrite ?IH; reflexivity.
Qed.

Lemma count_app p t1 t2 : count p (t1 ++ t2) = (count p t1 + count p t2)%nat.
Proof. unfold count. rewrite filter_app, length_app. reflexivity. Qed.

Lemma forEach_close_onSave_run l : forall s b c,
  backend s = Some b ->
  connection s = ConnObject c ->
  exists t,
    forEach Service.close_onSave l s =
      (Return tt,
       match l with
       | [] => s
       | _ :: _ => set_backend (Some (set_fetcher 0 b)) s
       end, t) /\
    events t = [] /\
    count isCloseRequest t = List.length l.
Proof.
  induction l as [|call rest IH]; intros s b c Hb Hc.
  - exists []. repeat split.
  - simpl forEach.
    rewrite (bind_run _ (close_onSave_run call s Hb Hc)).
    destruct (IH (set_backend (Some (set_fetcher 0 b)) s) (set_fetcher 0 b) c
                eq_refl Hc) as (t & E & Hev & Hcount).
    rewrite E. cbn [outcome state_of effects fst snd].
    eexists. split; [|split].
    + destruct rest; reflexivity.
    + simpl. exact Hev.
    + rewrite count_app, Hcount. reflexivity.
Qed.

Lemma emit_run e s b c :
  backend s = Some b ->
  connection s = ConnObject c ->
  exists t,
    Service.emit e s = (Return tt, afterEmit e s, Emit e :: t) /\
    events t = [] /\
    count isCloseRequest t =
      match e with
      | EvSave _ _ => List.length (saveHandlers s)
      | _ => 0%nat
      end.
Proof.
  intros Hb Hc. unfold Service.emit.
  destruct e; try (exists []; repeat split; reflexivity).
  - exists []. unfold bind, tell, get, when, afterEmit. simpl.
    destruct (0 <? changeHandlers s)%nat; repeat split.
  - destruct (forEach_close_onSave_run (saveHandlers s) s Hb Hc)
      as (t & E & Hev & Hcount).
    exists t. unfold bind, tell, get. rewrite E. unfold afterEmit. rewrite Hb.
    repeat split; auto.
Qed.

Lemma handlersKept_refl s : handlersKept s s.
Proof. exists []. rewrite app_nil_r. reflexivity. Qed.

Lemma handlersKept_trans s1 s2 s3 :
  handlersKept s1 s2 -> handlersKept s2 s3 -> handlersKept s1 s3.
Proof.
  intros [l1 H1] [l2 H2]. exists (l1 ++ l2).
  rewrite H2, H1, app_assoc. reflexivity.
Qed.

Lemma handlersKept_same s s' :
  saveHandlers s' = saveHandlers s -> handlersKept s s'.
Proof. intros H. exists []. rewrite app_nil_r. exact H. Qed.

Lemma handlersKept_update f : keeps handlersKept (update f).
Proof.
  apply keeps_modify. intros s. apply handlersKept_same.
  destruct (backend s); reflexivity.
Qed.

#[local] Hint Resolve handlersKept_refl handlersKept_trans handlersKept_same
  handlersKept_update : frame.

Lemma handlersKept_emit e : keeps handlersKept (Service.emit e).
Proof.
  unfold Service.emit, Service.close_onSave. unfold_calls. frame.
Qed.

Lemma handlersKept__receiveSteps bs now :
  keeps handlersKept (Service._receiveSteps bs now).
Proof.
  intros s. apply handlersKept_same. rewrite _receiveSteps_state. reflexivity.
Qed.

Lemma handlersKept_perform c : keeps handlersKept (perform c).
Proof.
  pose proof handlersKept_emit. pose proof handlersKept__receiveSteps.
  destruct c as [arg now|timer|sendable|[error|]|now| |timer| |call
                |call afterSave ok|now|result now1 now2 now3|hidden];
    simpl; unfold_calls; frame.
  eexists. reflexivity.
Qed.

(** X17. The handler that [close] subscribes to save is never
    unsubscribed: whatever is called afterwards, the handlers stay, in
    order.  So on a service that holds a connection every save event makes
    each call of [close] there has been, settled or not, send a close
    request of its own. *)
Theorem save_handlers_are_never_removed :
  forall (calls : list Call) (s : SyncService),
    (exists added,
        saveHandlers (runCalls calls s) = saveHandlers s ++ added) /\
    (forall b c d ss,
        backend s = Some b ->
        connection s = ConnObject c ->
        outcome (Service.emit (EvSave d ss) s) = Return tt /\
        events (effects (Service.emit (EvSave d ss) s)) = [EvSave d ss] /\
        count isCloseRequest (effects (Service.emit (EvSave d ss) s)) =
          List.length (saveHandlers s)).
Proof.
  intros calls s. split.
  - revert s. induction calls as [|c rest IH]; intros s; simpl.
    + apply handlersKept_refl.
    + apply handlersKept_trans with (s2 := state_of (perform c s));
        [apply handlersKept_perform | apply IH].
  - intros b c d ss Hb Hc.
    destruct (emit_run (EvSave d ss) s Hb Hc) as (t & E & Hev & Hcount).
    rewrite E. cbn [outcome state_of effects fst snd].
    split; [reflexivity|]. split.
    + simpl. rewrite Hev. reflexivity.
    + rewrite <- Hcount. reflexivity.
Qed.

Lemma save_handlers_are_never_removed_witness :
  let s := runCalls [CallClose; CallCloseTimeout 0;
                     CallCloseSettled 0 false true;
                     CallOpen (Service.InitialSession (Sample.conn 0)) 9;
                     CallClose]
             (Sample.opened 0 0) in
  count isCloseRequest (effects (Service.emit (EvSave (Sample.doc 1) []) s)) =
  2%nat.
Proof.
  intros s.
  exact (proj2 (proj2 (proj2 (@save_handlers_are_never_removed [] s)
                         _ (Sample.conn 0) (Sample.doc 1) []
                         eq_refl eq_refl))).
Defined.

(** ** Handling a response, path by path *)

Lemma bind_assoc {A B C} (m : M A) (k1 : A -> M B) (k2 : B -> M C) s :
  bind (bind m k1) k2 s = bind m (fun a => bind (k1 a) k2) s.
Proof.
  unfold bind. destruct (m s) as [[[a|e] s1] t1]; [|reflexivity].
  destruct (k1 a s1) as [[[b|e] s2] t2]; [|reflexivity].
  destruct (k2 b s2) as [[r s3] t3]. rewrite app_assoc. reflexivity.
Qed.

Lemma checkIdle_run now s :
  Service.checkIdle now s =
  if Service.Qgt_bool (Service.lastPushMinutesAgo now (lastStepPush s))
       (inject_Z SyncServiceConst.IDLE_TIMEOUT)
  then (Return true, s,
        [LogDebug "[SyncService] Document is idle for undefined minutes, suspending connection";
         Emit EvIdle])
  else (Return false, s, []).
Proof.
  unfold Service.checkIdle, bind, get.
  destruct (Service.Qgt_bool _ _); reflexivity.
Qed.

Ltac fields :=
  cbn [backend connection sessions steps stepClientIDs lastStepPush version
       sending changeHandlers saveHandlers closeCalls
       backend_connection lastPoll lastSave fetchInterval fetchRetryCounter
       pollActive forcedSave manualSave initialLoadingFinished fetcher
       set_lastPoll set_lastSave set_fetchInterval set_fetchRetryCounter
       set_pollActive set_forcedSave set_manualSave
       set_initialLoadingFinished set_fetcher
       set_backend set_sessions set_steps set_version set_lastStepPush
       afterEmit outcome state_of effects fst snd].

Ltac decided :=
  repeat match goal with
  | H : ?c = true |- context [?c] => rewrite H
  | H : ?c = false |- context [?c] => rewrite H
  | |- context [when true ?m] => change (when true m) with m
  | |- context [when false ?m] => change (when false m) with (ret tt)
  | |- context [negb true] => change (negb true) with false
  | |- context [negb false] => change (negb false) with true
  end.

Ltac run_emit e S :=
  let t := fresh "t" in
  let E := fresh "E" in
  let Hev := fresh "Hev" in
  let Hc := fresh "Hcount" in
  destruct (@emit_run e S _ _ eq_refl eq_refl) as (t & E & Hev & Hc);
  cbn [saveHandlers set_backend set_sessions] in Hc.

Ltac head_step :=
  lazymatch goal with
  | |- context [bind (bind ?m ?k1) ?k2 ?S] => rewrite (bind_assoc m k1 k2 S)
  | |- context [bind (Service.emit (EvSave ?d ?l)) ?k ?S] =>
      run_emit (EvSave d l) S;
      match goal with E : Service.emit _ S = _ |- _ =>
        rewrite (bind_run k E); clear E end
  | |- context [bind (Service.emit (EvChange ?d ?l)) ?k ?S] =>
      run_emit (EvChange d l) S;
      match goal with E : Service.emit _ S = _ |- _ =>
        rewrite (bind_run k E); clear E end
  | |- context [bind (Service.checkIdle ?now) ?k ?S] =>
      let E := fresh "E" in
      pose proof (checkIdle_run now S) as E; fields; cbn [lastStepPush set_backend set_sessions] in E;
      match goal with
      | H : Service.Qgt_bool _ _ = _ |- _ => rewrite H in E
      end;
      rewrite (bind_run _ E); clear E
  | |- context [bind ?m ?k ?S] =>
      let r1 := eval cbv beta delta
                 [update modify get getBackend tell ret throw bind
                  Service.emit Backend.maximumRefetchTimer
                  Backend.increaseRefetchTimer Backend.resetRefetchTimer] in (m S) in
      let r := eval cbn in r1 in
      lazymatch r with
      | (Return ?a, ?S', ?t) =>
          rewrite (@bind_run _ _ m k S a S' t eq_refl)
      end
  end; cbv beta; fields; decided.

Ltac last_step :=
  lazymatch goal with
  | |- context [Service.emit (EvSave ?d ?l) ?S] =>
      run_emit (EvSave d l) S;
      match goal with E : Service.emit _ S = _ |- _ => rewrite E; clear E end
  | |- context [Service.emit (EvChange ?d ?l) ?S] =>
      run_emit (EvChange d l) S;
      match goal with E : Service.emit _ S = _ |- _ => rewrite E; clear E end
  | |- context [Service.emit ?e ?S] =>
      change (Service.emit e S) with (Return tt, S, [Emit e])
  | |- context [ret ?a ?S] => change (ret a S) with (Return a, S, @nil Effect)
  | |- context [update ?f ?S] =>
      let r1 := eval cbv beta delta [update modify] in (update f S) in
      let r := eval cbn in r1 in
      change (update f S) with r
  end; fields.

Ltac tally :=
  rewrite ?events_app, ?count_app;
  cbn [events count filter app isCloseRequest List.length];
  rewrite ?events_app, ?count_app;
  cbn [events count filter app isCloseRequest List.length];
  repeat match goal with
  | H : events ?t = [] |- context [events ?t] => rewrite H
  | H : count isCloseRequest ?t = _ |- context [filter isCloseRequest ?t] =>
      change (List.length (filter isCloseRequest t)) with (count isCloseRequest t);
      rewrite H
  end;
  cbn [app List.length Nat.add].

(** The first part of [_handleResponse], up to the change event, before
    whatever follows. *)
Lemma response_prefix_run (k : M unit) data s b c :
  backend s = Some b -> connection s = ConnObject c ->
  let document := data_document data in
  let ss := data_sessions data in
  let saved := version_lt (version s) (lastSavedVersion document) in
  let b0 := set_fetchRetryCounter 0 b in
  let b1 := if saved then set_lastSave (lastSavedVersionTime document) b0
            else b0 in
  let b2 := if saved && (0 <? List.length (saveHandlers s))%nat
            then set_fetcher 0 b1 else b1 in
  let s1 := set_backend (Some b2) s in
  let s2 := if (0 <? changeHandlers s)%nat then set_sessions ss s1 else s1 in
  exists t1,
    (update (set_fetchRetryCounter 0) ;;
     s0 <- get ;;
     when (version_lt (version s0) (lastSavedVersion document))
       (tell (LogDebug "Saved document") ;;
        update (set_lastSave (lastSavedVersionTime document)) ;;
        Service.emit (EvSave document ss)) ;;
     Service.emit (EvChange document ss) ;;
     k) s =
    (outcome (k s2), state_of (k s2), t1 ++ effects (k s2)) /\
    events t1 = (if saved then [EvSave document ss] else []) ++
                [EvChange document ss] /\
    count isCloseRequest t1 =
      (if saved then List.length (saveHandlers s) else 0%nat).
Proof.
  intros Hb Hc.
  destruct s as [c0 ss st ids lp v sd bk ch sh cc]. simpl in *. subst bk c0.
  cbv zeta.
  destruct (version_lt v (lastSavedVersion (data_document data))) eqn:Hsaved;
  destruct sh as [|h sh];
  destruct (0 <? ch)%nat eqn:Hch.
  all: repeat head_step.
  all: cbn [andb List.length Nat.ltb Nat.leb].
  all: rewrite ?app_assoc.
  all: eexists; split; [reflexivity|]; split; tally; try reflexivity; try lia.
Qed.

Lemma _receiveSteps_run bs now s c :
  connection s = ConnObject c ->
  let s1 := set_lastStepPush now
              (set_steps (steps s ++ flat_map bucketSteps bs)
                 (set_version (fold_left nextVersion bs (version s)) s)) in
  Service._receiveSteps bs now s =
  (Return tt, s1,
   map (fun _ => LogError "Invalid step data, skipping step")
     (invalidBuckets bs) ++
   [Emit (EvSync (flat_map bucketNewSteps bs) (conn_document c) (version s1))]).
Proof.
  intros Hc s1.
  destruct (receiveBuckets_run bs [] s) as [Ho Hs].
  pose proof (receiveBuckets_effects bs [] s) as He.
  unfold Service._receiveSteps.
  destruct (Service.receiveBuckets bs [] s) as [[r s0] t0] eqn:E.
  unfold outcome, state_of, effects in Ho, Hs, He. simpl in Ho, Hs, He.
  subst r s0 t0.
  rewrite (bind_run _ E). unfold bind, modify, get. simpl.
  rewrite Hc. simpl. reflexivity.
Qed.

(** The rest of [_handleResponse] when the response has no steps. *)
Lemma response_quiet_tail_run time now1 now2 ss s b c :
  backend s = Some b -> connection s = ConnObject c ->
  let idle := Service.Qgt_bool
                (Service.lastPushMinutesAgo now1 (lastStepPush s))
                (inject_Z SyncServiceConst.IDLE_TIMEOUT) in
  let b1 := if initialLoadingFinished b then b
            else set_lastSave time (set_initialLoadingFinished true b) in
  let b2 := if idle then b1
            else set_fetchInterval
                   (if (List.length
                          (Polling.alive (now2 - COLLABORATOR_DISCONNECT_TIME) ss)
                        <? 2)%nat
                    then FETCH_INTERVAL_SINGLE_EDITOR
                    else Z.min (fetchInterval b * 2) FETCH_INTERVAL_MAX) b1 in
  (b0 <- getBackend ;;
   when (negb (initialLoadingFinished b0))
     (update (set_initialLoadingFinished true) ;;
      update (set_lastSave time)) ;;
   idle <- Service.checkIdle now1 ;;
   if idle : bool then ret tt
   else
     (if (List.length (Polling.alive (now2 - COLLABORATOR_DISCONNECT_TIME) ss)
          <? 2)%nat
      then Backend.maximumRefetchTimer
      else Backend.increaseRefetchTimer) ;;
     Service.emit (EvStateChangeDirty false) ;;
     Service.emit (EvStateChangeInitialLoading true)) s =
  (Return tt, set_backend (Some b2) s,
   if idle
   then [LogDebug "[SyncService] Document is idle for undefined minutes, suspending connection";
         Emit EvIdle]
   else [Emit (EvStateChangeDirty false);
         Emit (EvStateChangeInitialLoading true)]).
Proof.
  intros Hb Hc.
  destruct s as [c0 ss0 st ids lp v sd bk ch sh cc]. simpl in *. subst bk c0.
  cbv zeta.
  destruct (initialLoadingFinished b) eqn:Hilf;
  destruct (Service.Qgt_bool (Service.lastPushMinutesAgo now1 lp)
              (inject_Z SyncServiceConst.IDLE_TIMEOUT)) eqn:Hidle;
  destruct (Datatypes.length
             (Polling.alive (now2 - COLLABORATOR_DISCONNECT_TIME) ss) <? 2)%nat
    eqn:Halive.
  all: repeat head_step.
  all: repeat last_step.
  all: reflexivity.
Qed.

(** The rest of [_handleResponse] when the response has steps. *)
Lemma response_steps_tail_run bs now1 s b c :
  backend s = Some b -> connection s = ConnObject c ->
  let s1 := set_lastStepPush now1
              (set_steps (steps s ++ flat_map bucketSteps bs)
                 (set_version (fold_left nextVersion bs (version s)) s)) in
  let b1 := set_forcedSave false b in
  let b2 := if initialLoadingFinished b
            then set_fetchInterval FETCH_INTERVAL b1 else b1 in
  (Service._receiveSteps bs now1 ;;
   update (set_forcedSave false) ;;
   b0 <- getBackend ;;
   when (initialLoadingFinished b0) Backend.resetRefetchTimer) s =
  (Return tt, set_backend (Some b2) s1,
   map (fun _ => LogError "Invalid step data, skipping step")
     (invalidBuckets bs) ++
   [Emit (EvSync (flat_map bucketNewSteps bs) (conn_document c) (version s1))]).
Proof.
  intros Hb Hc s1 b1 b2.
  rewrite (bind_run _ (@_receiveSteps_run bs now1 s c Hc)). fold s1.
  assert (Hb1 : backend s1 = Some b) by exact Hb.
  unfold bind, update, modify, getBackend, when, Backend.resetRefetchTimer,
    update, modify, ret, outcome, state_of, effects.
  cbn [fst snd]. rewrite Hb1. cbn [backend set_backend initialLoadingFinished set_forcedSave].
  subst b2 b1. destruct (initialLoadingFinished b); cbn; rewrite ?app_nil_r; reflexivity.
Qed.

(** [_handleResponse] on a response without steps, as a whole. *)
Lemma _handleResponse_quiet_run data now1 now2 s b c :
  backend s = Some b -> connection s = ConnObject c ->
  data_steps data = [] ->
  let document := data_document data in
  let ss := data_sessions data in
  let saved := version_lt (version s) (lastSavedVersion document) in
  let idle := Service.Qgt_bool
                (Service.lastPushMinutesAgo now1 (lastStepPush s))
                (inject_Z SyncServiceConst.IDLE_TIMEOUT) in
  let b0 := set_fetchRetryCounter 0 b in
  let b1 := if saved then set_lastSave (lastSavedVersionTime document) b0
            else b0 in
  let b2 := if saved && (0 <? List.length (saveHandlers s))%nat
            then set_fetcher 0 b1 else b1 in
  let b3 := if initialLoadingFinished b then b2
            else set_lastSave (lastSavedVersionTime document)
                   (set_initialLoadingFinished true b2) in
  let b4 := if idle then b3
            else set_fetchInterval
                   (if (List.length
                          (Polling.alive (now2 - COLLABORATOR_DISCONNECT_TIME) ss)
                        <? 2)%nat
                    then FETCH_INTERVAL_SINGLE_EDITOR
                    else Z.min (fetchInterval b * 2) FETCH_INTERVAL_MAX) b3 in
  let s1 := set_backend (Some b4) s in
  let s2 := if (0 <? changeHandlers s)%nat then set_sessions ss s1 else s1 in
  exists t1,
    Polling._handleResponse data now1 now2 s =
      (Return tt, s2,
       t1 ++
       if idle
       then [LogDebug "[SyncService] Document is idle for undefined minutes, suspending connection";
             Emit EvIdle]
       else [Emit (EvStateChangeDirty false);
             Emit (EvStateChangeInitialLoading true)]) /\
    events t1 = (if saved then [EvSave document ss] else []) ++
                [EvChange document ss] /\
    count isCloseRequest t1 =
      (if saved then List.length (saveHandlers s) else 0%nat).
Proof.
  intros Hb Hc E. cbv zeta.
  unfold Polling._handleResponse. rewrite E. cbv zeta.
  match goal with
  | |- context [bind (Service.emit (EvChange _ _)) (fun _ => ?k)] =>
      destruct (@response_prefix_run k data s b c Hb Hc) as (t1 & Erun & Hev & Hcount)
  end.
  cbv zeta in Erun. rewrite Erun. clear Erun.
  exists t1. split; [|split; assumption].
  destruct s as [c0 ss st ids lp v sd bk ch sh cc]. simpl in Hb, Hc. subst bk c0.
  cbn [version saveHandlers changeHandlers lastStepPush].
  destruct (version_lt v (lastSavedVersion (data_document data)));
  destruct (0 <? Datatypes.length sh)%nat;
  destruct (0 <? ch)%nat; cbn [andb].
  all: match goal with
       | |- context [state_of (?m ?S)] =>
           match m with
           | bind _ _ =>
               rewrite (@response_quiet_tail_run
                          (lastSavedVersionTime (data_document data))
                          now1 now2 (data_sessions data) S _ c eq_refl eq_refl)
           end
       end.
  all: cbn [outcome state_of effects fst snd lastStepPush set_sessions set_backend
            initialLoadingFinished fetchInterval set_fetcher set_lastSave
            set_fetchRetryCounter].
  all: reflexivity.
Qed.

(** [_handleResponse] on a response with steps, as a whole. *)
Lemma _handleResponse_steps_run data now1 now2 s b c :
  backend s = Some b -> connection s = ConnObject c ->
  data_steps data <> [] ->
  let document := data_document data in
  let ss := data_sessions data in
  let bs := data_steps data in
  let saved := version_lt (version s) (lastSavedVersion document) in
  let b0 := set_fetchRetryCounter 0 b in
  let b1 := if saved then set_lastSave (lastSavedVersionTime document) b0
            else b0 in
  let b2 := if saved && (0 <? List.length (saveHandlers s))%nat
            then set_fetcher 0 b1 else b1 in
  let b3 := set_forcedSave false b2 in
  let b4 := if initialLoadingFinished b
            then set_fetchInterval FETCH_INTERVAL b3 else b3 in
  let s1 := set_backend (Some b4) s in
  let s2 := if (0 <? changeHandlers s)%nat then set_sessions ss s1 else s1 in
  let s3 := set_lastStepPush now1
              (set_steps (steps s ++ flat_map bucketSteps bs)
                 (set_version (fold_left nextVersion bs (version s)) s2)) in
  exists t1,
    Polling._handleResponse data now1 now2 s =
      (Return tt, s3,
       t1 ++
       map (fun _ => LogError "Invalid step data, skipping step")
         (invalidBuckets bs) ++
       [Emit (EvSync (flat_map bucketNewSteps bs) (conn_document c)
                (version s3))]) /\
    events t1 = (if saved then [EvSave document ss] else []) ++
                [EvChange document ss] /\
    count isCloseRequest t1 =
      (if saved then List.length (saveHandlers s) else 0%nat).
Proof.
  intros Hb Hc E. cbv zeta.
  unfold Polling._handleResponse.
  destruct (data_steps data) as [|b0 bs] eqn:Hbs; [congruence|]. clear E.
  cbv zeta.
  match goal with
  | |- context [bind (Service.emit (EvChange _ _)) (fun _ => ?k)] =>
      destruct (@response_prefix_run k data s b c Hb Hc)
        as (t1 & Erun & Hev & Hcount)
  end.
  cbv zeta in Erun. rewrite Erun. clear Erun.
  exists t1. split; [|split; assumption].
  destruct s as [c0 ss st ids lp v sd bk ch sh cc]. simpl in Hb, Hc. subst bk c0.
  cbn [version saveHandlers changeHandlers lastStepPush steps].
  destruct (version_lt v (lastSavedVersion (data_document data)));
  destruct (0 <? Datatypes.length sh)%nat;
  destruct (0 <? ch)%nat; cbn [andb].
  all: match goal with
       | |- context [state_of (?m ?S)] =>
           match m with
           | bind _ _ =>
               rewrite (@response_steps_tail_run (b0 :: bs) now1 S _ c
                          eq_refl eq_refl)
           end
       end.
  all: cbn [outcome state_of effects fst snd lastStepPush set_sessions set_backend
            initialLoadingFinished fetchInterval set_fetcher set_lastSave
            set_fetchRetryCounter steps version set_lastStepPush set_steps
            set_version].
  all: reflexivity.
Qed.

(** The rest of [_fetchSteps] after a response that was handled without
    an exception. *)
Lemma _fetchSteps_settle_run data now1 now2 now3 s s1 t1 b1 :
  Polling._handleResponse data now1 now2 s = (Return tt, s1, t1) ->
  backend s1 = Some b1 ->
  Polling._fetchSteps_settle (inl data) now1 now2 now3 s =
  (Return tt,
   set_backend
     (Some (set_forcedSave false
              (set_manualSave false
                 (set_pollActive false (set_lastPoll now3 b1))))) s1,
   t1).
Proof.
  intros E Hb1.
  unfold Polling._fetchSteps_settle, try_finally, try_catch. rewrite E.
  unfold bind, update, modify. cbn. rewrite Hb1. cbn.
  rewrite app_nil_r. reflexivity.
Qed.

Lemma events_log_lines {A} msg (l : list A) :
  events (map (fun _ => LogError msg) l) = [].
Proof. induction l; simpl; auto. Qed.

Lemma count_log_lines {A} p msg (l : list A) :
  p (LogError msg) = false ->
  count p (map (fun _ => LogError msg) l) = 0%nat.
Proof. intros H. unfold count. induction l; simpl; rewrite ?H; auto. Qed.

Lemma idle_test_decided now last :
  Service.Qgt_bool (Service.lastPushMinutesAgo now last)
    (inject_Z SyncServiceConst.IDLE_TIMEOUT) =
  (SyncServiceConst.IDLE_TIMEOUT * 60 * 1000 <? now - last).
Proof.
  destruct (Z.ltb_spec (SyncServiceConst.IDLE_TIMEOUT * 60 * 1000) (now - last))
    as [H|H].
  - apply idle_test_in_milliseconds. exact H.
  - destruct (Service.Qgt_bool _ _) eqn:E; [|reflexivity].
    apply idle_test_in_milliseconds in E. lia.
Qed.

(** X18. A response without steps, handled by a service that holds a
    connection, is always handled to the end, and what it emits is fixed
    by two tests: a save event first, exactly when the saved version of
    the document is above the version counter; then the change event; then
    either idle alone, when the last steps are more than 1440 minutes old,
    or the two state changes, dirty false and initial loading true. *)
Theorem response_without_steps_events :
  forall (data : SyncData) (now1 now2 : Z) (s : SyncService)
         (b : PollingBackend) (c : Connection),
    backend s = Some b ->
    connection s = ConnObject c ->
    data_steps data = [] ->
    let run := Polling._handleResponse data now1 now2 s in
    let document := data_document data in
    let ss := data_sessions data in
    outcome run = Return tt /\
    events (effects run) =
      (if version_lt (version s) (lastSavedVersion document)
       then [EvSave document ss] else []) ++
      EvChange document ss ::
      (if SyncServiceConst.IDLE_TIMEOUT * 60 * 1000 <? now1 - lastStepPush s
       then [EvIdle]
       else [EvStateChangeDirty false; EvStateChangeInitialLoading true]).
Proof.
  intros data now1 now2 s b c Hb Hc E run document ss.
  destruct (@_handleResponse_quiet_run data now1 now2 s b c Hb Hc E)
    as (t1 & Erun & Hev & _).
  cbv zeta in Erun, Hev. subst run. rewrite Erun.
  cbn [outcome effects fst snd]. split; [reflexivity|].
  rewrite events_app, Hev, idle_test_decided, <- app_assoc.
  destruct (_ <? now1 - _); reflexivity.
Qed.

Lemma response_without_steps_events_witness :
  events (effects (Polling._handleResponse (Sample.emptyData 3 []) 100 100
                     (Sample.opened 0 0))) =
  [EvSave (Sample.doc 3) []; EvChange (Sample.doc 3) [];
   EvStateChangeDirty false; EvStateChangeInitialLoading true].
Proof.
  exact (proj2 (@response_without_steps_events (Sample.emptyData 3 []) 100 100
                  (Sample.opened 0 0) _ (Sample.conn 0)
                  eq_refl eq_refl eq_refl)).
Defined.

(** X19. Finding the document idle suspends nothing in these two
    classes: with no [close] pending, the fetch that found it settles with
    the cadence and the interval as they were, and a tick one cadence
    later, or more, sends the next request. *)
Theorem idle_response_does_not_stop_the_polling :
  forall (data : SyncData) (now1 now2 now3 now4 : Z) (s : SyncService)
         (b : PollingBackend) (c : Connection),
    backend s = Some b ->
    connection s = ConnObject c ->
    data_steps data = [] ->
    SyncServiceConst.IDLE_TIMEOUT * 60 * 1000 < now1 - lastStepPush s ->
    saveHandlers s = [] ->
    0 < fetcher b ->
    now3 + fetchInterval b <= now4 ->
    let settled :=
      state_of (Polling._fetchSteps_settle (inl data) now1 now2 now3 s) in
    (exists b',
        backend settled = Some b' /\
        fetchInterval b' = fetchInterval b /\ fetcher b' = fetcher b) /\
    count isSyncRequested (effects (Polling._fetchSteps_begin now4 settled)) =
      1%nat.
Proof.
  intros data now1 now2 now3 now4 s b c Hb Hc E Hidle Hsh Hf Hnow settled.
  destruct (@_handleResponse_quiet_run data now1 now2 s b c Hb Hc E)
    as (t1 & Erun & _).
  cbv zeta in Erun.
  apply Z.ltb_lt in Hidle. rewrite <- idle_test_decided in Hidle.
  rewrite Hidle, Hsh in Erun.
  change (0 <? List.length (@nil nat))%nat with false in Erun.
  rewrite andb_false_r in Erun.
  match type of Erun with
  | _ = (_, ?S, _) =>
      assert (Hb1 : exists b1,
                 backend S = Some b1 /\ fetchInterval b1 = fetchInterval b /\
                 fetcher b1 = fetcher b)
  end.
  { destruct (0 <? changeHandlers s)%nat,
      (version_lt (version s) (lastSavedVersion (data_document data))),
      (initialLoadingFinished b); eexists; repeat split. }
  destruct Hb1 as (b1 & Hb1 & Hi1 & Hf1).
  subst settled.
  rewrite (@_fetchSteps_settle_run data now1 now2 now3 s _ _ _ Erun Hb1).
  cbn [state_of fst snd]. split.
  - eexists. split; [reflexivity|]. split; assumption.
  - erewrite _fetchSteps_begin_run by reflexivity.
    cbn [pollActive set_forcedSave set_manualSave set_pollActive set_lastPoll
         lastPoll fetchInterval forcedSave manualSave fetcher].
    rewrite Hi1, Hf1.
    replace (now3 >? now4 - fetchInterval b) with false
      by (symmetry; rewrite Z.gtb_ltb; apply Z.ltb_ge; lia).
    replace (fetcher b =? 0) with false by (symmetry; apply Z.eqb_neq; lia).
    reflexivity.
Qed.

Lemma idle_response_does_not_stop_the_polling_witness :
  let s := state_of (Service.startSync 7 (Sample.opened 0 0)) in
  let day := 1440 * 60 * 1000 in
  count isSyncRequested
    (effects (Polling._fetchSteps_begin (day + 400)
                (state_of (Polling._fetchSteps_settle
                             (inl (Sample.emptyData 0 [])) (day + 1) (day + 1)
                             (day + 2) s)))) = 1%nat.
Proof.
  intros s day.
  exact (proj2 (@idle_response_does_not_stop_the_polling
                  (Sample.emptyData 0 []) (day + 1) (day + 1) (day + 2)
                  (day + 400) s _ (Sample.conn 0)
                  eq_refl eq_refl eq_refl eq_refl eq_refl eq_refl
                  ltac:(vm_compute; intro H; discriminate H))).
Defined.

Lemma open_subscribes arg now s :
  changeHandlers (state_of (Service.open arg now s)) = S (changeHandlers s).
Proof.
  unfold Service.open, Service._emitError.
  destruct arg as [c|[c|e]].
  - reflexivity.
  - reflexivity.
  - destruct (err_response e), (aborted e); reflexivity.
Qed.

(** X20. The session roster is replaced as a whole by the sessions of
    every response that is handled, with steps or without, once [open]
    has been called: it is the handler [open] subscribes to change, before
    anything else, that stores them.  Without that handler the roster
    stays as it is. *)
Theorem response_replaces_the_roster :
  forall (data : SyncData) (now1 now2 now3 : Z) (s : SyncService)
         (b : PollingBackend) (c : Connection),
    backend s = Some b ->
    connection s = ConnObject c ->
    let s' :=
      state_of (Polling._fetchSteps_settle (inl data) now1 now2 now3 s) in
    (changeHandlers s = 0%nat -> sessions s' = sessions s) /\
    ((0 < changeHandlers s)%nat -> sessions s' = data_sessions data) /\
    forall arg now s0,
      (0 < changeHandlers (state_of (Service.open arg now s0)))%nat.
Proof.
  intros data now1 now2 now3 s b c Hb Hc s'.
  assert (H : sessions s' =
              if (0 <? changeHandlers s)%nat then data_sessions data
              else sessions s).
  { subst s'. destruct (data_steps data) as [|b0 bs] eqn:E.
    - destruct (@_handleResponse_quiet_run data now1 now2 s b c Hb Hc E)
        as (t1 & Erun & _).
      cbv zeta in Erun.
      erewrite _fetchSteps_settle_run;
        [|exact Erun|destruct (0 <? changeHandlers s)%nat; reflexivity].
      destruct (0 <? changeHandlers s)%nat; reflexivity.
    - assert (E' : data_steps data <> []) by congruence.
      destruct (@_handleResponse_steps_run data now1 now2 s b c Hb Hc E')
        as (t1 & Erun & _).
      cbv zeta in Erun.
      erewrite _fetchSteps_settle_run;
        [|exact Erun|destruct (0 <? changeHandlers s)%nat; reflexivity].
      destruct (0 <? changeHandlers s)%nat; reflexivity. }
  split; [|split].
  - intros H0. rewrite H, H0. reflexivity.
  - intros H0. apply Nat.ltb_lt in H0. rewrite H, H0. reflexivity.
  - intros arg now s0. rewrite open_subscribes. lia.
Qed.

Lemma response_replaces_the_roster_witness :
  sessions (state_of (Polling._fetchSteps_settle
                        (inl (Sample.emptyData 0 [{| lastContact := 5 |}]))
                        1 2 3 (Sample.opened 0 0))) =
  [{| lastContact := 5 |}].
Proof.
  exact (proj1 (proj2 (@response_replaces_the_roster
                         (Sample.emptyData 0 [{| lastContact := 5 |}]) 1 2 3
                         (Sample.opened 0 0) _ (Sample.conn 0)
                         eq_refl eq_refl))
           ltac:(vm_compute; reflexivity)).
Defined.

(** X21. A response with steps is handled to the end without a look at
    idleness: it emits save, if the saved version is above the counter,
    then change, then the sync event of [_receiveSteps], and no state
    change.  The time of the last steps becomes the time of the call and a
    forced save is forgotten.  The cadence goes back to the base interval
    only if the initial loading had finished, which such a response never
    brings about. *)
Theorem response_with_steps_is_received :
  forall (data : SyncData) (now1 now2 : Z) (s : SyncService)
         (b : PollingBackend) (c : Connection),
    backend s = Some b ->
    connection s = ConnObject c ->
    data_steps data <> [] ->
    let run := Polling._handleResponse data now1 now2 s in
    let s' := state_of run in
    let document := data_document data in
    let ss := data_sessions data in
    outcome run = Return tt /\
    events (effects run) =
      (if version_lt (version s) (lastSavedVersion document)
       then [EvSave document ss] else []) ++
      [EvChange document ss;
       EvSync (flat_map bucketNewSteps (data_steps data)) (conn_document c)
         (version s')] /\
    lastStepPush s' = now1 /\
    exists b',
      backend s' = Some b' /\
      forcedSave b' = false /\
      initialLoadingFinished b' = initialLoadingFinished b /\
      fetchInterval b' =
        if initialLoadingFinished b then FETCH_INTERVAL else fetchInterval b.
Proof.
  intros data now1 now2 s b c Hb Hc E run s' document ss.
  destruct (@_handleResponse_steps_run data now1 now2 s b c Hb Hc E)
    as (t1 & Erun & Hev & _).
  cbv zeta in Erun, Hev. subst s' run. rewrite Erun.
  cbn [outcome state_of effects fst snd]. split; [reflexivity|]. split.
  - rewrite !events_app, Hev, events_log_lines, <- app_assoc. reflexivity.
  - split; [reflexivity|].
    destruct (0 <? changeHandlers s)%nat,
      (version_lt (version s) (lastSavedVersion (data_document data))),
      (0 <? List.length (saveHandlers s))%nat,
      (initialLoadingFinished b) eqn:Hilf;
      cbn; eexists; (split; [reflexivity|]); cbn; rewrite ?Hilf; auto.
Qed.

Lemma response_with_steps_is_received_witness :
  let data := {| data_document := Sample.doc 0; data_sessions := [];
                 data_steps := [Sample.bucket 1 "A" ["a"]] |} in
  events (effects (Polling._handleResponse data 10 10 (Sample.opened 0 0))) =
  [EvChange (Sample.doc 0) []; EvSync [("a", "A")] (Sample.doc 0) (Some 1)].
Proof.
  intros data.
  exact (proj1 (proj2 (@response_with_steps_is_received data 10 10
                         (Sample.opened 0 0) _ (Sample.conn 0)
                         eq_refl eq_refl
                         ltac:(intro H; discriminate H)))).
Defined.

(** X22. The time of the last save, which decides on the next autosave,
    is taken from the document of a response in two cases: when its saved
    version is above the version counter, and when it is the first
    response without steps, which also ends the initial loading.  In every
    other case it stays. *)
Theorem last_save_follows_the_document :
  forall (data : SyncData) (now1 now2 : Z) (s : SyncService)
         (b : PollingBackend) (c : Connection),
    backend s = Some b ->
    connection s = ConnObject c ->
    let s' := state_of (Polling._handleResponse data now1 now2 s) in
    let document := data_document data in
    let saved := version_lt (version s) (lastSavedVersion document) in
    let quiet := match data_steps data with [] => true | _ :: _ => false end in
    exists b',
      backend s' = Some b' /\
      initialLoadingFinished b' = initialLoadingFinished b || quiet /\
      lastSave b' =
        if saved || (quiet && negb (initialLoadingFinished b))
        then lastSavedVersionTime document else lastSave b.
Proof.
  intros data now1 now2 s b c Hb Hc s' document saved quiet.
  subst s' saved quiet document.
  destruct (data_steps data) as [|b0 bs] eqn:E.
  - destruct (@_handleResponse_quiet_run data now1 now2 s b c Hb Hc E)
      as (t1 & Erun & _).
    cbv zeta in Erun. rewrite Erun. cbn [state_of fst snd].
    destruct (0 <? changeHandlers s)%nat,
      (version_lt (version s) (lastSavedVersion (data_document data))),
      (0 <? List.length (saveHandlers s))%nat,
      (initialLoadingFinished b) eqn:Hilf,
      (Service.Qgt_bool _ _);
      cbn; eexists; (split; [reflexivity|]); cbn; rewrite ?Hilf; auto.
  - assert (E' : data_steps data <> []) by congruence.
    destruct (@_handleResponse_steps_run data now1 now2 s b c Hb Hc E')
      as (t1 & Erun & _).
    cbv zeta in Erun. rewrite Erun. cbn [state_of fst snd].
    destruct (0 <? changeHandlers s)%nat,
      (version_lt (version s) (lastSavedVersion (data_document data))),
      (0 <? List.length (saveHandlers s))%nat,
      (initialLoadingFinished b) eqn:Hilf;
      cbn; eexists; (split; [reflexivity|]); cbn; rewrite ?Hilf; auto.
Qed.

Lemma last_save_follows_the_document_witness :
  let s := Sample.opened 0 0 in
  exists b',
    backend (state_of (Polling._handleResponse (Sample.emptyData 0 []) 1 1 s))
      = Some b' /\
    initialLoadingFinished b' = true /\
    lastSave b' = lastSavedVersionTime (Sample.doc 0).
Proof.
  intros s.
  exact (@last_save_follows_the_document (Sample.emptyData 0 []) 1 1 s _
           (Sample.conn 0) eq_refl eq_refl).
Defined.

(** X23. The cadence of a hidden window, 60000 ms, lasts until the next
    response: one without steps on a service that is not idle brings it to
    5000 ms, however many sessions are alive, and one with steps, after the
    initial loading, to 300 ms. *)
Theorem hidden_cadence_lasts_until_the_next_response :
  forall (data : SyncData) (now1 now2 : Z) (s0 : SyncService)
         (b0 : PollingBackend) (c : Connection),
    backend s0 = Some b0 ->
    connection s0 = ConnObject c ->
    let s := state_of (Backend.visibilitychange true s0) in
    let s' := state_of (Polling._handleResponse data now1 now2 s) in
    (exists b, backend s = Some b /\ fetchInterval b = FETCH_INTERVAL_INVISIBLE) /\
    (data_steps data = [] ->
     now1 - lastStepPush s0 <= SyncServiceConst.IDLE_TIMEOUT * 60 * 1000 ->
     exists b', backend s' = Some b' /\ fetchInterval b' = FETCH_INTERVAL_MAX) /\
    (data_steps data <> [] ->
     initialLoadingFinished b0 = true ->
     exists b', backend s' = Some b' /\ fetchInterval b' = FETCH_INTERVAL).
Proof.
  intros data now1 now2 s0 b0 c Hb Hc s s'.
  assert (Es : s = set_backend
                     (Some (set_fetchInterval FETCH_INTERVAL_INVISIBLE b0)) s0).
  { subst s. unfold Backend.visibilitychange, update, modify, state_of.
    cbn. rewrite Hb. reflexivity. }
  assert (Hbs : backend s = Some (set_fetchInterval FETCH_INTERVAL_INVISIBLE b0))
    by (rewrite Es; reflexivity).
  assert (Hcs : connection s = ConnObject c) by (rewrite Es; exact Hc).
  assert (Hls : lastStepPush s = lastStepPush s0) by (rewrite Es; reflexivity).
  clearbody s. split; [eexists; split; [exact Hbs|reflexivity]|]. split.
  - intros E Hidle.
    destruct (@_handleResponse_quiet_run data now1 now2 s _ c Hbs Hcs E)
      as (t1 & Erun & _).
    cbv zeta in Erun. subst s'. rewrite Erun. cbn [state_of fst snd].
    rewrite idle_test_decided, Hls.
    replace (_ <? now1 - lastStepPush s0) with false
      by (symmetry; apply Z.ltb_ge; lia).
    destruct (0 <? changeHandlers s)%nat,
      (version_lt (version s) (lastSavedVersion (data_document data))),
      (0 <? List.length (saveHandlers s))%nat,
      (initialLoadingFinished b0) eqn:Hilf,
      (List.length _ <? 2)%nat;
      cbn; rewrite ?Hilf; cbn; eexists; (split; [reflexivity|]); reflexivity.
  - intros E Hilf.
    destruct (@_handleResponse_steps_run data now1 now2 s _ c Hbs Hcs E)
      as (t1 & Erun & _).
    cbv zeta in Erun. subst s'. rewrite Erun. cbn [state_of fst snd].
    destruct (0 <? changeHandlers s)%nat,
      (version_lt (version s) (lastSavedVersion (data_document data))),
      (0 <? List.length (saveHandlers s))%nat;
      cbn; rewrite ?Hilf; cbn; eexists; (split; [reflexivity|]); reflexivity.
Qed.

Lemma hidden_cadence_lasts_until_the_next_response_witness :
  let s := state_of (Backend.visibilitychange true (Sample.opened 0 0)) in
  exists b',
    backend (state_of (Polling._handleResponse (Sample.emptyData 0 []) 1 1 s))
      = Some b' /\
    fetchInterval b' = 5000.
Proof.
  intros s.
  exact (proj1 (proj2 (@hidden_cadence_lasts_until_the_next_response
                         (Sample.emptyData 0 []) 1 1 (Sample.opened 0 0) _
                         (Sample.conn 0) eq_refl eq_refl))
           eq_refl ltac:(vm_compute; intro H; discriminate H)).
Defined.

(** X24. [open] with a session, one handed in or one the server
    answered with, returns after the events opened and loaded, both with
    the state of the connection and its saved version, and keeps the step
    log.  After [startSync] the first tick, at any time from 300 ms on,
    sends a request for that version without pending saves; it carries the
    content exactly when the service was opened more than 30000 ms
    before. *)
Theorem first_fetch_after_open :
  forall (arg : Service.OpenArg) (c : Connection) (now timer now' : Z)
         (s0 : SyncService),
    arg = Service.InitialSession c \/ arg = Service.ApiOpen (inl c) ->
    0 < timer ->
    FETCH_INTERVAL <= now' ->
    let opened := Service.open arg now s0 in
    let started := Service.startSync timer (state_of opened) in
    let tick := Polling._fetchSteps_begin now' (state_of started) in
    let v := Some (conn_lastSavedVersion c) in
    outcome opened = Return tt /\
    effects opened =
      [Emit (EvOpened (conn_state c) v); Emit (EvLoaded (conn_state c) v)] /\
    steps (state_of opened) = steps s0 /\
    effects started = [SetInterval 50; AddVisibilityListener] /\
    outcome tick =
      Return (Some {| req_version := v;
                      req_saveData := now <? now' - AUTOSAVE_INTERVAL;
                      req_force := false;
                      req_manualSave := false |}).
Proof.
  intros arg c now timer now' s0 Harg Ht Hnow opened started tick v.
  assert (Eo : opened =
               (Return tt,
                set_backend (Some (Backend.new c now))
                  (set_version v
                     (set_connection (ConnObject c)
                        (set_changeHandlers (S (changeHandlers s0)) s0))),
                [Emit (EvOpened (conn_state c) v);
                 Emit (EvLoaded (conn_state c) v)])).
  { subst opened. destruct Harg; subst arg; reflexivity. }
  assert (Es : started =
               (Return tt,
                set_backend
                  (Some (set_fetcher timer
                           (set_initialLoadingFinished false
                              (Backend.new c now))))
                  (state_of opened),
                [SetInterval 50; AddVisibilityListener])).
  { subst started. rewrite Eo. reflexivity. }
  split; [rewrite Eo; reflexivity|]. split; [rewrite Eo; reflexivity|].
  split; [rewrite Eo; reflexivity|]. split; [rewrite Es; reflexivity|].
  subst tick. rewrite Es. cbn [state_of fst snd].
  erewrite _fetchSteps_begin_run by reflexivity.
  cbn [pollActive set_fetcher set_initialLoadingFinished Backend.new lastPoll
       fetchInterval forcedSave manualSave fetcher lastSave orb negb andb].
  replace (0 >? now' - FETCH_INTERVAL) with false
    by (symmetry; rewrite Z.gtb_ltb; apply Z.ltb_ge; lia).
  replace (timer =? 0) with false by (symmetry; apply Z.eqb_neq; lia).
  rewrite Eo. reflexivity.
Qed.

Lemma first_fetch_after_open_witness :
  outcome (Polling._fetchSteps_begin 1000
             (state_of (Service.startSync 7 (Sample.opened 4 900)))) =
  Return (Some {| req_version := Some 4; req_saveData := false;
                  req_force := false; req_manualSave := false |}).
Proof.
  exact (proj2 (proj2 (proj2 (proj2
           (@first_fetch_after_open (Service.ApiOpen (inl (Sample.conn 4)))
              (Sample.conn 4) 900 7 1000 (Service.new 900)
              (or_intror eq_refl) eq_refl
              ltac:(vm_compute; intro H; discriminate H)))))).
Defined.

(** X25. [forceSave] on a service that [close] has stopped starts the
    interval again and marks the initial loading as unfinished; the next
    tick sends the content with both the forced flag and the manual flag
    that [close] had left pending.  On a service whose interval is running,
    every [forceSave] logs the error of a second [connect]. *)
Theorem forceSave_restarts_a_closed_service :
  forall (s : SyncService) (b : PollingBackend) (timer now : Z),
    backend s = Some b ->
    pollActive b = false ->
    0 < timer ->
    let closed := state_of (Service.close s) in
    let forced := Service.forceSave timer closed in
    effects forced = [SetInterval 50; AddVisibilityListener] /\
    (exists b',
        backend (state_of forced) = Some b' /\
        fetcher b' = timer /\ initialLoadingFinished b' = false) /\
    outcome (Polling._fetchSteps_begin now (state_of forced)) =
      Return (Some {| req_version := version s; req_saveData := true;
                      req_force := true; req_manualSave := true |}) /\
    (0 < fetcher b ->
     effects (Service.forceSave timer s) =
       [ConsoleError "Trying to connect, but already connected"]).
Proof.
  intros s b timer now Hb Hp Ht closed forced.
  destruct s as [c ss st ids lp v sd bk ch sh cc]. simpl in Hb. subst bk.
  assert (Ef : forced =
               (Return tt,
                set_backend
                  (Some (set_forcedSave true
                           (set_fetcher timer
                              (set_initialLoadingFinished false
                                 (set_manualSave true (set_fetcher 0 b))))))
                  closed,
                [SetInterval 50; AddVisibilityListener])) by reflexivity.
  split; [rewrite Ef; reflexivity|]. split.
  - rewrite Ef. eexists. split; [reflexivity|]. split; reflexivity.
  - split.
    + rewrite Ef. cbn [state_of fst snd].
      erewrite _fetchSteps_begin_run by reflexivity.
      cbn [pollActive set_forcedSave set_fetcher set_initialLoadingFinished
           set_manualSave lastPoll fetchInterval forcedSave manualSave fetcher
           lastSave orb negb andb].
      rewrite Hp, andb_false_r.
      replace (timer =? 0) with false by (symmetry; apply Z.eqb_neq; lia).
      reflexivity.
    + intros Hf.
      unfold Service.forceSave, Backend.connect, Backend.forceSave, bind,
        getBackend, update, modify, tell, effects.
      cbn [backend].
      replace (fetcher b >? 0) with true by (symmetry; apply Z.gtb_lt; lia).
      reflexivity.
Qed.

Lemma forceSave_restarts_a_closed_service_witness :
  let s := state_of (Service.startSync 7 (Sample.opened 0 0)) in
  outcome (Polling._fetchSteps_begin 1
             (state_of (Service.forceSave 8 (state_of (Service.close s))))) =
  Return (Some {| req_version := Some 0; req_saveData := true;
                  req_force := true; req_manualSave := true |}).
Proof.
  intros s.
  exact (proj1 (proj2 (proj2
           (@forceSave_restarts_a_closed_service s _ 8 1
              eq_refl eq_refl eq_refl)))).
Defined.

(** X26. Before [open] has installed a backend, [save] is the only one
    of the four methods that reach for it that returns: it does nothing,
    while [forceSave], [startSync] and [close] throw a TypeError and leave
    the service as it was. *)
Theorem only_save_is_safe_without_a_backend :
  forall (s : SyncService) (timer : Z),
    backend s = None ->
    Service.save s = (Return tt, s, []) /\
    Service.forceSave timer s =
      (Throw (TypeError "this.backend is undefined"), s, []) /\
    Service.startSync timer s =
      (Throw (TypeError "this.backend is undefined"), s, []) /\
    Service.close s =
      (Throw (TypeError "this.backend is undefined"), s, []).
Proof.
  intros s timer Hb.
  unfold Service.save, Service.forceSave, Service.startSync, Service.close,
    Backend.connect, Backend.disconnect, bind, get, getBackend.
  rewrite Hb. repeat split.
Qed.

Lemma only_save_is_safe_without_a_backend_witness :
  Service.save (Service.new 0) = (Return tt, Service.new 0, []).
Proof.
  exact (proj1 (@only_save_is_safe_without_a_backend (Service.new 0) 7
                  eq_refl)).
Defined.

(** X27. Handling a response sends close requests only through a save
    event: one per call of [close] there has been when the saved version
    of the document is above the version counter, and then the interval is
    stopped; none otherwise, so that a [close] on a document already saved
    at the current version is left to its timer. *)
Theorem response_closes_only_on_a_newer_save :
  forall (data : SyncData) (now1 now2 : Z) (s : SyncService)
         (b : PollingBackend) (c : Connection),
    backend s = Some b ->
    connection s = ConnObject c ->
    let run := Polling._handleResponse data now1 now2 s in
    let saved :=
      version_lt (version s) (lastSavedVersion (data_document data)) in
    count isCloseRequest (effects run) =
      (if saved then List.length (saveHandlers s) else 0%nat) /\
    exists b',
      backend (state_of run) = Some b' /\
      fetcher b' =
        if saved && (0 <? List.length (saveHandlers s))%nat then 0
        else fetcher b.
Proof.
  intros data now1 now2 s b c Hb Hc run saved. subst run saved.
  destruct (data_steps data) as [|b0 bs] eqn:E.
  - destruct (@_handleResponse_quiet_run data now1 now2 s b c Hb Hc E)
      as (t1 & Erun & _ & Hcount).
    cbv zeta in Erun, Hcount. rewrite Erun. cbn [state_of effects fst snd].
    split.
    + rewrite count_app, Hcount.
      destruct (Service.Qgt_bool _ _); cbn; apply Nat.add_0_r.
    + destruct (0 <? changeHandlers s)%nat,
        (version_lt (version s) (lastSavedVersion (data_document data))),
        (0 <? List.length (saveHandlers s))%nat,
        (initialLoadingFinished b),
        (Service.Qgt_bool _ _);
        cbn; eexists; (split; [reflexivity|]); reflexivity.
  - assert (E' : data_steps data <> []) by congruence.
    destruct (@_handleResponse_steps_run data now1 now2 s b c Hb Hc E')
      as (t1 & Erun & _ & Hcount).
    cbv zeta in Erun, Hcount. rewrite Erun. cbn [state_of effects fst snd].
    split.
    + rewrite !count_app, Hcount, count_log_lines by reflexivity.
      cbn. apply Nat.add_0_r.
    + destruct (0 <? changeHandlers s)%nat,
        (version_lt (version s) (lastSavedVersion (data_document data))),
        (0 <? List.length (saveHandlers s))%nat,
        (initialLoadingFinished b);
        cbn; eexists; (split; [reflexivity|]); reflexivity.
Qed.

Lemma response_closes_only_on_a_newer_save_witness :
  let s := state_of (Service.close
                       (state_of (Service.startSync 7 (Sample.opened 3 0)))) in
  count isCloseRequest
    (effects (Polling._handleResponse (Sample.emptyData 3 []) 1 1 s)) = 0%nat /\
  count isCloseRequest
    (effects (Polling._handleResponse (Sample.emptyData 4 []) 1 1 s)) = 1%nat.
Proof.
  intros s. split.
  - exact (proj1 (@response_closes_only_on_a_newer_save
                    (Sample.emptyData 3 []) 1 1 s _ (Sample.conn 3)
                    eq_refl eq_refl)).
  - exact (proj1 (@response_closes_only_on_a_newer_save
                    (Sample.emptyData 4 []) 1 1 s _ (Sample.conn 3)
                    eq_refl eq_refl)).
Defined.

(** ** Saves, retries and the fetch under way *)

(** After the [finally] block of [_fetchSteps], however the fetch went. *)
Lemma settle_clears_the_flags result now1 now2 now3 s b :
  backend s = Some b ->
  exists b',
    backend (state_of (Polling._fetchSteps_settle result now1 now2 now3 s))
      = Some b' /\
    pollActive b' = false /\ manualSave b' = false /\ forcedSave b' = false.
Proof.
  intros Hb.
  unfold Polling._fetchSteps_settle, try_finally.
  set (inner := try_catch _ _).
  assert (Hin : exists s2 t2 b2,
             inner s = (Return tt, s2, t2) /\ backend s2 = Some b2).
  { subst inner. unfold try_catch. destruct result as [data|err].
    - destruct (proj2 retry_counter_starts_at_zero data now1 now2 s b Hb)
        as (b1 & Hb1 & _).
      unfold state_of in Hb1.
      destruct (Polling._handleResponse data now1 now2 s)
        as [[[[]|e] s1] t1]; simpl in Hb1.
      + eauto.
      + destruct (_handleError_returns e s1 Hb1) as (s2 & t2 & b2 & E & Hb2).
        rewrite E. eauto.
    - unfold throw.
      destruct (_handleError_returns (Rejection err) s Hb)
        as (s2 & t2 & b2 & E & Hb2).
      rewrite E. eauto. }
  destruct Hin as (s2 & t2 & b2 & E & Hb2). rewrite E.
  unfold bind, update, modify, outcome, state_of. simpl.
  rewrite Hb2. simpl. eexists. split; [reflexivity|]. repeat split.
Qed.

(** X28. A save asked for while a fetch is under way is lost: no tick
    sends it before the fetch settles, and the [finally] block of that
    fetch, however it settles, forgets both flags, so that the request of
    the next tick carries neither the manual nor the forced flag. *)
Theorem save_during_a_fetch_is_lost :
  forall (s : SyncService) (b : PollingBackend)
         (result : SyncData + RequestError)
         (timer now now1 now2 now3 now4 : Z),
    backend s = Some b ->
    pollActive b = true ->
    0 < fetcher b ->
    let saved := state_of (Service.save s) in
    let forced := state_of (Service.forceSave timer s) in
    Polling._fetchSteps_begin now saved = (Return None, saved, []) /\
    Polling._fetchSteps_begin now forced = (Return None, forced, []) /\
    forall s1 r,
      s1 = saved \/ s1 = forced ->
      outcome (Polling._fetchSteps_begin now4
                 (state_of (Polling._fetchSteps_settle result now1 now2 now3
                              s1))) = Return (Some r) ->
      req_manualSave r = false /\ req_force r = false.
Proof.
  intros s b result timer now now1 now2 now3 now4 Hb Hp Hf saved forced.
  assert (Es : saved = set_backend (Some (set_manualSave true b)) s).
  { subst saved. unfold Service.save, Backend.save, bind, get, update, modify,
      state_of. rewrite Hb. simpl. rewrite Hb. reflexivity. }
  assert (Ef : forced = set_backend (Some (set_forcedSave true b)) s).
  { subst forced. unfold Service.forceSave, Backend.connect, Backend.forceSave,
      bind, getBackend, update, modify, tell, state_of.
    rewrite Hb. replace (fetcher b >? 0) with true
      by (symmetry; apply Z.gtb_lt; lia).
    simpl. rewrite Hb. reflexivity. }
  clearbody saved forced. split; [|split].
  - rewrite (@_fetchSteps_begin_run now saved (set_manualSave true b))
      by (rewrite Es; reflexivity).
    cbn [pollActive set_manualSave]. rewrite Hp. reflexivity.
  - rewrite (@_fetchSteps_begin_run now forced (set_forcedSave true b))
      by (rewrite Ef; reflexivity).
    cbn [pollActive set_forcedSave]. rewrite Hp. reflexivity.
  - intros s1 r Hs1.
    assert (Hb1 : exists b1, backend s1 = Some b1)
      by (destruct Hs1; subst s1; [rewrite Es | rewrite Ef]; eexists; reflexivity).
    destruct Hb1 as (b1 & Hb1).
    destruct (@settle_clears_the_flags result now1 now2 now3 s1 b1 Hb1)
      as (b' & Hb' & Hp' & Hm' & Hf').
    rewrite (@_fetchSteps_begin_run now4 _ b' Hb').
    rewrite Hp', Hm', Hf'. cbn [orb negb andb].
    destruct (_ && _); [discriminate|].
    destruct (fetcher b' =? 0); [discriminate|].
    cbn [outcome fst snd]. intros H. injection H as <-. split; reflexivity.
Qed.

Lemma save_during_a_fetch_is_lost_witness :
  let s := state_of (Polling._fetchSteps_begin 1000
                       (state_of (Service.startSync 7 (Sample.opened 0 0)))) in
  let saved := state_of (Service.save s) in
  let r := {| req_version := Some 0; req_saveData := false;
              req_force := false; req_manualSave := false |} in
  Polling._fetchSteps_begin 1200 saved = (Return None, saved, []) /\
  outcome (Polling._fetchSteps_begin 7000
             (state_of (Polling._fetchSteps_settle
                          (inl (Sample.emptyData 0 [])) 1500 1500 1500
                          saved))) = Return (Some r) /\
  req_manualSave r = false /\ req_force r = false.
Proof.
  intros s saved r.
  destruct (@save_during_a_fetch_is_lost s _ (inl (Sample.emptyData 0 []))
              7 1200 1500 1500 1500 7000 eq_refl eq_refl eq_refl)
    as (H1 & _ & H3).
  split; [exact H1|]. split; [reflexivity|].
  exact (H3 saved r (or_introl eq_refl) eq_refl).
Defined.

Lemma settled_response_resets_the_retries data now1 now2 now3 s b c :
  backend s = Some b ->
  connection s = ConnObject c ->
  exists b',
    backend (state_of (Polling._fetchSteps_settle (inl data) now1 now2 now3 s))
      = Some b' /\
    fetchRetryCounter b' = 0.
Proof.
  intros Hb Hc.
  assert (H : exists s1 t1 b1,
             Polling._handleResponse data now1 now2 s = (Return tt, s1, t1) /\
             backend s1 = Some b1 /\ fetchRetryCounter b1 = 0).
  { destruct (proj2 retry_counter_starts_at_zero data now1 now2 s b Hb)
      as (b1 & Hb1 & H0).
    destruct (data_steps data) as [|b0 bs] eqn:E.
    - destruct (@_handleResponse_quiet_run data now1 now2 s b c Hb Hc E)
        as (t1 & Erun & _).
      cbv zeta in Erun. rewrite Erun in Hb1 |- *. eauto 6.
    - assert (E' : data_steps data <> []) by congruence.
      destruct (@_handleResponse_steps_run data now1 now2 s b c Hb Hc E')
        as (t1 & Erun & _).
      cbv zeta in Erun. rewrite Erun in Hb1 |- *. eauto 6. }
  destruct H as (s1 & t1 & b1 & Erun & Hb1 & H0).
  rewrite (@_fetchSteps_settle_run data now1 now2 now3 s s1 t1 b1 Erun Hb1).
  eexists. split; [reflexivity|]. exact H0.
Qed.

(** X29. Only failures in a row count towards CONNECTION_FAILED: once a
    response has been handled on a service that holds a connection,
    whatever the retry counter was, the next five fetches that fail without
    a response do not emit it, and the sixth and every one after it
    does. *)
Theorem handled_response_restarts_the_retries :
  forall (data : SyncData) (now1 now2 now3 : Z)
         (run : list (RequestError * Z)) (s : SyncService)
         (b : PollingBackend) (c : Connection) (k : nat) (t : list Effect),
    backend s = Some b ->
    connection s = ConnObject c ->
    Forall (fun f => noResponseOrAborted (fst f) = true) run ->
    let settled :=
      state_of (Polling._fetchSteps_settle (inl data) now1 now2 now3 s) in
    nth_error (failedFetches run settled) k = Some t ->
    connectionFailed t = if (k <? 5)%nat then 0%nat else 1%nat.
Proof.
  intros data now1 now2 now3 run s b c k t Hb Hc Hall settled Hk.
  destruct (@settled_response_resets_the_retries data now1 now2 now3 s b c
              Hb Hc) as (b' & Hb' & H0).
  rewrite (@failedFetches_count run settled b' k t Hb') by (auto; lia).
  rewrite H0. unfold MAX_RETRY_FETCH_COUNT.
  destruct (Nat.ltb_spec k 5), (Z.geb_spec (0 + Z.of_nat k) 5);
    try reflexivity; lia.
Qed.

Lemma handled_response_restarts_the_retries_witness :
  let s := state_of (Polling._fetchSteps_settle (inr Sample.timedOut)
                       100 100 100 (Sample.opened 0 0)) in
  let settled :=
    state_of (Polling._fetchSteps_settle (inl (Sample.emptyData 0 []))
                200 200 200 s) in
  let t := [LogError "[PollingBackend:fetchSteps] Network error when fetching steps, retry 1"] in
  nth_error (failedFetches [(Sample.timedOut, 300)] settled) 0 = Some t /\
  connectionFailed t = 0%nat.
Proof.
  intros s settled t. split; [vm_compute; reflexivity|].
  exact (@handled_response_restarts_the_retries (Sample.emptyData 0 [])
           200 200 200 [(Sample.timedOut, 300)] s
           (set_forcedSave false
              (set_manualSave false
                 (set_pollActive false
                    (set_lastPoll 100
                       (set_fetchRetryCounter 1
                          (Backend.new (Sample.conn 0) 0))))))
           (Sample.conn 0) 0 t
           ltac:(vm_compute; reflexivity) ltac:(vm_compute; reflexivity)
           ltac:(repeat constructor) ltac:(vm_compute; reflexivity)).
Defined.
